(** * DSR penetration-testing suite: a shallow embedding

    Source: tests/security/penetration-testing/dsr-penetration-test-suite.py
    (class DSRPenetrationTester).

    The file has three parts: the embedding of the script (strings,
    Python values, the tester state and its monad, then the methods of the
    class in the order of the source); the notions used to state the
    properties, among them the five probes as pure functions of the
    network, and the concrete networks of the examples; and the lemmas,
    with one theorem for each property C1 to C10.

    Modelling choices.
    - Python [str] is [string]; a character is a code point below 256 and
      [lower] is Python's [str.lower] restricted to that range.
    - Python values that travel as JSON (request bodies, the login answer,
      the per-service result dictionaries) are [pyval]; a [dict] is an
      association list in insertion order; numbers are integers.
    - [response.json()] is a field of the response: the parsed body, or
      [None] when parsing raises.
    - The network is an oracle [http : request -> option response]; [None]
      stands for any exception raised by the [requests] call (time-out,
      connection error).  Every request issued is appended to the [sent]
      field of the state, which exists only to observe what was attempted.
    - [datetime.now()] reads and advances an abstract clock.
    - [print] calls and the writing of the report file are left out. *)

From Stdlib Require Import List String Ascii ZArith Bool Arith Lia.
From Stdlib Require Import Permutation DecimalString.
Import ListNotations.
Open Scope string_scope.

Set Implicit Arguments.
Set Warnings "-register-all".

(* ================================================================== *)
(** ** Strings *)

Module Str.

(** The double-quote character, for the payload tables of the script. *)
Definition dq : string := String (ascii_of_nat 34) EmptyString.

(** [str.lower] on one code point below 256: the ASCII capitals, and the
    Latin-1 capitals 0xC0 to 0xDE without the multiplication sign 0xD7. *)
Definition lower_char (c : ascii) : ascii :=
  let n := nat_of_ascii c in
  if (((65 <=? n) && (n <=? 90))
      || ((192 <=? n) && (n <=? 222) && negb (n =? 215)))%nat
  then ascii_of_nat (n + 32)
  else c.

Fixpoint lower (s : string) : string :=
  match s with
  | EmptyString => EmptyString
  | String c s' => String (lower_char c) (lower s')
  end.

(** [needle in hay] of Python: [needle] occurs as a contiguous substring. *)
Fixpoint str_in (needle hay : string) : bool :=
  String.prefix needle hay
  || match hay with
     | EmptyString => false
     | String _ hay' => str_in needle hay'
     end.

(** [sep.join(l)]. *)
Fixpoint join (sep : string) (l : list string) : string :=
  match l with
  | [] => EmptyString
  | [x] => x
  | x :: rest => x ++ sep ++ join sep rest
  end.

(** [str(n)] for an [int]. *)
Definition of_int (z : Z) : string := NilZero.string_of_int (Z.to_int z).

(** [any(f(x) for x in l)]. *)
Definition any {A} (f : A -> bool) (l : list A) : bool := existsb f l.

End Str.

(* ================================================================== *)
(** ** Python values and dictionaries *)

Inductive pyval : Type :=
| PNone
| PBool (b : bool)
| PInt (z : Z)
| PStr (s : string)
| PList (l : list pyval)
| PDict (d : list (string * pyval)).

(** Truth value of a Python object, as [if x:] tests it. *)
Definition truthy (v : pyval) : bool :=
  match v with
  | PNone => false
  | PBool b => b
  | PInt z => negb (Z.eqb z 0)
  | PStr s => negb (String.eqb s EmptyString)
  | PList l => match l with [] => false | _ => true end
  | PDict d => match d with [] => false | _ => true end
  end.

Module Dict.

(** [d.get(k)]: the first (and, by construction, only) binding of [k]. *)
Fixpoint get {V} (k : string) (d : list (string * V)) : option V :=
  match d with
  | [] => None
  | (k', v) :: rest => if String.eqb k k' then Some v else get k rest
  end.

(** [d[k] = v]: overwrite in place, or append at the end. *)
Fixpoint set {V} (k : string) (v : V) (d : list (string * V))
  : list (string * V) :=
  match d with
  | [] => [(k, v)]
  | (k', v') :: rest =>
      if String.eqb k k' then (k, v) :: rest else (k', v') :: set k v rest
  end.

Definition has_key {V} (k : string) (d : list (string * V)) : bool :=
  match get k d with Some _ => true | None => false end.

End Dict.

(* ================================================================== *)
(** ** Requests, responses, findings, tester state *)

Inductive http_method := GET | POST.

(** A header value: a literal, or the f-string [Bearer {token}]. *)
Inductive header_value :=
| HLit (s : string)
| HBearer (token : pyval).

Record request := mk_request {
  meth : http_method;
  url : string;
  params : list (string * string);
  json_body : option pyval;
  headers : list (string * header_value);
  timeout : nat
}.

(** [json] is what [response.json()] returns, [None] when it raises. *)
Record response := mk_response {
  status_code : Z;
  text : string;
  json : option pyval
}.

Record vulnerability := mk_vulnerability {
  timestamp : nat;
  service : string;
  vuln_type : string;
  severity : string;
  description : string;
  evidence : string;
  recommendation : string
}.

Record tester := mk_tester {
  auth_token : pyval;
  vulnerabilities : list vulnerability;
  clock : nat;
  sent : list request
}.

(** [DSRPenetrationTester.__init__]. *)
Definition init (token : pyval) : tester :=
  {| auth_token := token; vulnerabilities := []; clock := 0; sent := [] |}.

(* ================================================================== *)
(** ** A state monad over the tester *)

Definition M (A : Type) : Type := tester -> A * tester.

Definition ret {A} (a : A) : M A := fun st => (a, st).

Definition bind {A B} (m : M A) (k : A -> M B) : M B :=
  fun st => let (a, st') := m st in k a st'.

Declare Scope tester_scope.
Delimit Scope tester_scope with tester.
Notation "x <- m ;; k" := (bind m (fun x => k))
  (at level 61, m at next level, right associativity) : tester_scope.
Notation "m ;;; k" := (bind m (fun _ => k))
  (at level 61, right associativity) : tester_scope.
Open Scope tester_scope.

Definition exec {A} (m : M A) (st : tester) : tester := snd (m st).

Definition eval {A} (m : M A) (st : tester) : A := fst (m st).

(** A [for] loop that threads a local variable through its body. *)
Fixpoint for_each {A X} (l : list X) (body : X -> A -> M A) (a : A) : M A :=
  match l with
  | [] => ret a
  | x :: rest => a' <- body x a ;; for_each rest body a'
  end.

(* ================================================================== *)
(** ** The scanner *)

Section Scanner.

(** [base_url] is the constructor argument; [http] is the network. *)
Variable base_url : string.
Variable http : request -> option response.

(** [self.services], in insertion order. *)
Definition services : list (string * string) :=
  [ ("registration", base_url ++ ":8080");
    ("data_management", base_url ++ ":8081");
    ("eligibility", base_url ++ ":8082");
    ("interoperability", base_url ++ ":8083");
    ("payment", base_url ++ ":8084");
    ("grievance", base_url ++ ":8085");
    ("analytics", base_url ++ ":8086") ].

(** *** Primitive effects *)

Definition datetime_now : M nat :=
  fun st => (clock st,
             {| auth_token := auth_token st;
                vulnerabilities := vulnerabilities st;
                clock := S (clock st);
                sent := sent st |}).

Definition get_auth_token : M pyval := fun st => (auth_token st, st).

Definition set_auth_token (v : pyval) : M unit :=
  fun st => (tt,
             {| auth_token := v;
                vulnerabilities := vulnerabilities st;
                clock := clock st;
                sent := sent st |}).

Definition append_vulnerability (v : vulnerability) : M unit :=
  fun st => (tt,
             {| auth_token := auth_token st;
                vulnerabilities := vulnerabilities st ++ [v];
                clock := clock st;
                sent := sent st |}).

(** One call into [requests]: the request is recorded, the oracle answers;
    [None] is a raised exception. *)
Definition send (r : request) : M (option response) :=
  fun st => (http r,
             {| auth_token := auth_token st;
                vulnerabilities := vulnerabilities st;
                clock := clock st;
                sent := sent st ++ [r] |}).

Definition get_request (u : string) (ps : list (string * string))
    (hs : list (string * header_value)) (t : nat) : request :=
  {| meth := GET; url := u; params := ps; json_body := None;
     headers := hs; timeout := t |}.

Definition post_request (u : string) (body : pyval)
    (hs : list (string * header_value)) (t : nat) : request :=
  {| meth := POST; url := u; params := []; json_body := Some body;
     headers := hs; timeout := t |}.

Definition requests_get (u : string) (ps : list (string * string))
    (hs : list (string * header_value)) (t : nat) : M (option response) :=
  send (get_request u ps hs t).

Definition requests_post (u : string) (body : pyval)
    (hs : list (string * header_value)) (t : nat) : M (option response) :=
  send (post_request u body hs t).

(** *** authenticate *)

Definition authenticate (email password : string) : M bool :=
  let auth_url :=
    match Dict.get "registration" services with
    | Some u => u | None => EmptyString
    end ++ "/api/v1/auth/login" in
  r <- requests_post auth_url
         (PDict [("email", PStr email); ("password", PStr password)]) [] 30 ;;
  match r with
  | None => ret false                          (* except Exception *)
  | Some resp =>
      if Z.eqb (status_code resp) 200 then
        match json resp with
        | None => ret false                    (* response.json() raises *)
        | Some (PDict auth_data) =>
            set_auth_token
              (match Dict.get "accessToken" auth_data with
               | Some v => v | None => PNone
               end) ;;;
            ret true
        | Some _ => ret false                  (* no .get on a non-dict *)
        end
      else ret false
  end.

(** *** get_headers *)

Definition get_headers (include_auth : bool)
  : M (list (string * header_value)) :=
  tok <- get_auth_token ;;
  let hs := [ ("Content-Type", HLit "application/json");
              ("User-Agent", HLit "DSR-PenTest-Suite/1.0") ] in
  if include_auth && truthy tok
  then ret (Dict.set "Authorization" (HBearer tok) hs)
  else ret hs.

(** *** log_vulnerability *)

Definition log_vulnerability
    (svc vtype sev descr evid recomm : string) : M unit :=
  now <- datetime_now ;;
  append_vulnerability
    {| timestamp := now; service := svc; vuln_type := vtype;
       severity := sev; description := descr; evidence := evid;
       recommendation := recomm |}.

(** The per-service entry of a probe's result dictionary. *)
Definition tally (key : string) (n : nat) : pyval :=
  PDict [ (key, PInt (Z.of_nat n));
          ("status", PStr (if (0 <? n)%nat then "VULNERABLE" else "SECURE")) ].

(** *** test_authentication_bypass *)

Definition auth_bypass_endpoints : list string :=
  [ "/api/v1/health"; "/api/v1/admin/users"; "/api/v1/config";
    "/actuator/env"; "/actuator/configprops" ].

Definition auth_bypass_keywords : list string :=
  [ "password"; "secret"; "key"; "token" ].

(** The test applied to a response. *)
Definition auth_bypass_detects (resp : response) : bool :=
  if Z.eqb (status_code resp) 200 then
    let content := Str.lower (text resp) in
    Str.any (fun keyword => Str.str_in keyword content) auth_bypass_keywords
  else false.

(** Body of the loop over endpoints (the [try] block). *)
Definition auth_bypass_step (service_name service_url endpoint : string)
    (bypass_attempts : nat) : M nat :=
  r <- requests_get (service_url ++ endpoint) [] [] 10 ;;
  match r with
  | None => ret bypass_attempts                (* except: continue *)
  | Some resp =>
      if auth_bypass_detects resp then
        log_vulnerability service_name
          "Sensitive Data Exposure"
          "HIGH"
          ("Endpoint " ++ endpoint
             ++ " exposes sensitive information without authentication")
          ("Response contains sensitive keywords: "
             ++ Str.of_int (status_code resp))
          "Implement proper authentication and data filtering" ;;;
        ret (bypass_attempts + 1)
      else ret bypass_attempts
  end.

Definition auth_bypass_service (sv : string * string)
    (results : list (string * pyval)) : M (list (string * pyval)) :=
  let (service_name, service_url) := sv in
  bypass_attempts <-
    for_each auth_bypass_endpoints
      (auth_bypass_step service_name service_url) 0 ;;
  ret (Dict.set service_name (tally "bypass_attempts" bypass_attempts) results).

Definition test_authentication_bypass : M (list (string * pyval)) :=
  for_each services auth_bypass_service [].

(** *** test_sql_injection *)

Definition sql_payloads : list string :=
  [ "' OR '1'='1";
    "'; DROP TABLE users; --";
    "' UNION SELECT version() --";
    "1' OR 1=1#";
    "admin'/**/OR/**/1=1#" ].

Record sql_test_case := mk_sql_test_case {
  tc_endpoint : string;
  tc_param : string
}.

Definition sql_test_cases : list sql_test_case :=
  [ {| tc_endpoint := "/api/v1/search"; tc_param := "query" |};
    {| tc_endpoint := "/api/v1/households/search"; tc_param := "name" |};
    {| tc_endpoint := "/api/v1/users"; tc_param := "filter" |} ].

Definition sql_errors : list string :=
  [ "sql syntax"; "mysql"; "postgresql"; "ora-"; "sqlite"; "syntax error" ].

Definition sql_detects (resp : response) : bool :=
  let content := Str.lower (text resp) in
  Str.any (fun error => Str.str_in error content) sql_errors.

(** The loop over payloads for one test case; it ends at the first finding
    ([break]) and moves to the next payload after an exception
    ([continue]). *)
Fixpoint sql_try_payloads (service_name service_url : string)
    (test_case : sql_test_case) (payloads : list string)
    (vulnerable_endpoints : nat) : M nat :=
  match payloads with
  | [] => ret vulnerable_endpoints
  | payload :: rest =>
      hs <- get_headers true ;;
      r <- requests_get (service_url ++ tc_endpoint test_case)
             [(tc_param test_case, payload)] hs 10 ;;
      match r with
      | None =>
          sql_try_payloads service_name service_url test_case rest
            vulnerable_endpoints
      | Some resp =>
          if sql_detects resp then
            log_vulnerability service_name
              "SQL Injection"
              "CRITICAL"
              ("SQL injection vulnerability in " ++ tc_endpoint test_case)
              ("Payload: " ++ payload ++ ", Response contains SQL errors")
              "Use parameterized queries and input validation" ;;;
            ret (vulnerable_endpoints + 1)
          else
            sql_try_payloads service_name service_url test_case rest
              vulnerable_endpoints
      end
  end.

Definition sql_service (sv : string * string)
    (results : list (string * pyval)) : M (list (string * pyval)) :=
  let (service_name, service_url) := sv in
  vulnerable_endpoints <-
    for_each sql_test_cases
      (fun test_case =>
         sql_try_payloads service_name service_url test_case sql_payloads)
      0 ;;
  ret (Dict.set service_name
         (tally "vulnerable_endpoints" vulnerable_endpoints) results).

Definition test_sql_injection : M (list (string * pyval)) :=
  for_each services sql_service [].

(** *** test_xss_vulnerabilities *)

Definition xss_payloads : list string :=
  [ "<script>alert(" ++ Str.dq ++ "XSS" ++ Str.dq ++ ")</script>";
    "<img src=" ++ Str.dq ++ "x" ++ Str.dq ++ " onerror="
      ++ Str.dq ++ "alert(1)" ++ Str.dq ++ ">";
    "javascript:alert(" ++ Str.dq ++ "XSS" ++ Str.dq ++ ")";
    "<svg onload=" ++ Str.dq ++ "alert(1)" ++ Str.dq ++ ">";
    Str.dq ++ "><script>alert(" ++ Str.dq ++ "XSS" ++ Str.dq ++ ")</script>" ].

(** Every entry of the table has method POST, so the guarded
    [requests.post] always runs; the method is not a field here. *)
Record xss_endpoint := mk_xss_endpoint {
  xss_url : string;
  xss_fields : list string
}.

Definition xss_test_endpoints : list xss_endpoint :=
  [ {| xss_url := "/api/v1/grievances";
       xss_fields := ["complainantName"; "description"] |};
    {| xss_url := "/api/v1/households";
       xss_fields := ["firstName"; "lastName"] |};
    {| xss_url := "/api/v1/comments";
       xss_fields := ["content"; "title"] |} ].

Definition xss_data (fs : list string) (payload : string)
  : list (string * pyval) :=
  fold_left (fun data field => Dict.set field (PStr payload) data) fs [].

Definition xss_detects (payload : string) (resp : response) : bool :=
  if Z.eqb (status_code resp) 200 || Z.eqb (status_code resp) 201 then
    let content := text resp in
    Str.str_in payload content && Str.str_in "<script>" content
  else false.

Definition xss_step (service_name service_url : string) (ep : xss_endpoint)
    (payload : string) (vulnerable_fields : nat) : M nat :=
  hs <- get_headers true ;;
  r <- requests_post (service_url ++ xss_url ep)
         (PDict (xss_data (xss_fields ep) payload)) hs 10 ;;
  match r with
  | None => ret vulnerable_fields              (* except: continue *)
  | Some resp =>
      if xss_detects payload resp then
        log_vulnerability service_name
          "Cross-Site Scripting (XSS)"
          "HIGH"
          ("XSS vulnerability in " ++ xss_url ep)
          ("Payload reflected without encoding: " ++ payload)
          "Implement proper input validation and output encoding" ;;;
        ret (vulnerable_fields + 1)
      else ret vulnerable_fields
  end.

Definition xss_service (sv : string * string)
    (results : list (string * pyval)) : M (list (string * pyval)) :=
  let (service_name, service_url) := sv in
  vulnerable_fields <-
    for_each xss_test_endpoints
      (fun ep => for_each xss_payloads (xss_step service_name service_url ep))
      0 ;;
  ret (Dict.set service_name
         (tally "vulnerable_fields" vulnerable_fields) results).

Definition test_xss_vulnerabilities : M (list (string * pyval)) :=
  for_each services xss_service [].

(** *** test_business_logic_flaws *)

Definition accepted (resp : response) : bool :=
  Z.eqb (status_code resp) 200 || Z.eqb (status_code resp) 201.

Definition eligibility_body : pyval :=
  PDict [ ("householdId", PStr "HH-TEST-123");
          ("monthlyIncome", PInt (-50000));
          ("assessmentType", PStr "FULL_ASSESSMENT") ].

Definition payment_body : pyval :=
  PDict [ ("beneficiaryId", PStr "BEN-TEST-123");
          ("amount", PInt 999999999);
          ("programId", PStr "PANTAWID") ].

Definition business_logic_service (sv : string * string)
    (results : list (string * pyval)) : M (list (string * pyval)) :=
  let (service_name, service_url) := sv in
  logic_flaws <-
    (if String.eqb service_name "eligibility" then
       hs <- get_headers true ;;
       r <- requests_post (service_url ++ "/api/v1/eligibility/assessments")
              eligibility_body hs 10 ;;
       match r with
       | None => ret 0                         (* except: pass *)
       | Some resp =>
           if accepted resp then
             log_vulnerability service_name
               "Business Logic Bypass"
               "HIGH"
               "Negative income values accepted in eligibility assessment"
               ("Negative income (-50000) was accepted: "
                  ++ Str.of_int (status_code resp))
               "Implement server-side business rule validation" ;;;
             ret 1
           else ret 0
       end
     else if String.eqb service_name "payment" then
       hs <- get_headers true ;;
       r <- requests_post (service_url ++ "/api/v1/payments")
              payment_body hs 10 ;;
       match r with
       | None => ret 0
       | Some resp =>
           if accepted resp then
             log_vulnerability service_name
               "Business Logic Bypass"
               "CRITICAL"
               "Unrealistic payment amounts accepted"
               ("Large payment amount (999999999) was accepted: "
                  ++ Str.of_int (status_code resp))
               "Implement payment amount limits and validation" ;;;
             ret 1
           else ret 0
       end
     else ret 0) ;;
  ret (Dict.set service_name (tally "logic_flaws" logic_flaws) results).

Definition test_business_logic_flaws : M (list (string * pyval)) :=
  for_each services business_logic_service [].

(** *** test_information_disclosure *)

Definition disclosure_endpoints : list string :=
  [ "/api/v1/nonexistent"; "/api/v1/users/999999"; "/api/v1/admin/config";
    "/actuator/env"; "/actuator/configprops" ].

Definition sensitive_keywords : list string :=
  [ "password"; "secret"; "key"; "token"; "database";
    "connection"; "jdbc"; "username"; "config" ].

Definition found_keywords (resp : response) : list string :=
  let content := Str.lower (text resp) in
  filter (fun kw => Str.str_in kw content) sensitive_keywords.

Definition disclosure_detects (resp : response) : bool :=
  match found_keywords resp with
  | [] => false
  | _ :: _ => negb (Z.eqb (status_code resp) 404)
  end.

Definition disclosure_step (service_name service_url endpoint : string)
    (disclosure_issues : nat) : M nat :=
  r <- requests_get (service_url ++ endpoint) [] [] 10 ;;
  match r with
  | None => ret disclosure_issues              (* except: continue *)
  | Some resp =>
      if disclosure_detects resp then
        log_vulnerability service_name
          "Information Disclosure"
          "MEDIUM"
          ("Sensitive information exposed in " ++ endpoint)
          ("Found keywords: " ++ Str.join ", " (found_keywords resp))
          "Remove sensitive information from error messages and responses" ;;;
        ret (disclosure_issues + 1)
      else ret disclosure_issues
  end.

Definition disclosure_service (sv : string * string)
    (results : list (string * pyval)) : M (list (string * pyval)) :=
  let (service_name, service_url) := sv in
  disclosure_issues <-
    for_each disclosure_endpoints
      (disclosure_step service_name service_url) 0 ;;
  ret (Dict.set service_name
         (tally "disclosure_issues" disclosure_issues) results).

Definition test_information_disclosure : M (list (string * pyval)) :=
  for_each services disclosure_service [].

(** *** get_overall_security_status and the summary *)

(** [len([v for v in self.vulnerabilities if v['severity'] == sev])]. *)
Definition count_severity (sev : string) (vs : list vulnerability) : nat :=
  List.length (filter (fun v => String.eqb (severity v) sev) vs).

Definition overall_status (vs : list vulnerability) : string :=
  let critical_vulns := count_severity "CRITICAL" vs in
  let high_vulns := count_severity "HIGH" vs in
  if (0 <? critical_vulns)%nat then "CRITICAL_RISK"
  else if (3 <? high_vulns)%nat then "HIGH_RISK"
  else if (0 <? high_vulns)%nat then "MEDIUM_RISK"
  else "LOW_RISK".

Definition get_overall_security_status : M string :=
  fun st => (overall_status (vulnerabilities st), st).

Record breakdown := mk_breakdown {
  critical : nat;
  high : nat;
  medium : nat;
  low : nat
}.

(** [test_duration] is the distance between the two clock readings. *)
Record summary := mk_summary {
  test_duration : nat;
  services_tested : nat;
  total_vulnerabilities : nat;
  vulnerability_breakdown : breakdown;
  test_results : list (string * pyval);
  summary_vulnerabilities : list vulnerability;
  overall_security_status : string
}.

Definition get_vulnerabilities : M (list vulnerability) :=
  fun st => (vulnerabilities st, st).

(** Everything of [run_comprehensive_test] after the probes have run. *)
Definition summarize (start_time : nat) (results : list (string * pyval))
  : M summary :=
  end_time <- datetime_now ;;
  vs <- get_vulnerabilities ;;
  status <- get_overall_security_status ;;
  ret {| test_duration := end_time - start_time;
         services_tested := List.length services;
         total_vulnerabilities := List.length vs;
         vulnerability_breakdown :=
           {| critical := count_severity "CRITICAL" vs;
              high := count_severity "HIGH" vs;
              medium := count_severity "MEDIUM" vs;
              low := count_severity "LOW" vs |};
         test_results := results;
         summary_vulnerabilities := vs;
         overall_security_status := status |}.

Definition run_comprehensive_test : M summary :=
  start_time <- datetime_now ;;
  r1 <- test_authentication_bypass ;;
  r2 <- test_sql_injection ;;
  r3 <- test_xss_vulnerabilities ;;
  r4 <- test_business_logic_flaws ;;
  r5 <- test_information_disclosure ;;
  summarize start_time
    [ ("authentication_bypass", PDict r1);
      ("sql_injection", PDict r2);
      ("xss_vulnerabilities", PDict r3);
      ("business_logic_flaws", PDict r4);
      ("information_disclosure", PDict r5) ].

(** *** The five probes by name, and a run in an arbitrary order

    [run_probes_in order] is [run_comprehensive_test] with the sequence of
    probe calls taken from [order]; it exists to state what a reordering of
    the calls would produce. *)

Inductive probe :=
| AuthBypass | SqlInjection | Xss | BusinessLogic | InfoDisclosure.

Definition probe_key (p : probe) : string :=
  match p with
  | AuthBypass => "authentication_bypass"
  | SqlInjection => "sql_injection"
  | Xss => "xss_vulnerabilities"
  | BusinessLogic => "business_logic_flaws"
  | InfoDisclosure => "information_disclosure"
  end.

Definition run_probe (p : probe) : M (list (string * pyval)) :=
  match p with
  | AuthBypass => test_authentication_bypass
  | SqlInjection => test_sql_injection
  | Xss => test_xss_vulnerabilities
  | BusinessLogic => test_business_logic_flaws
  | InfoDisclosure => test_information_disclosure
  end.

Definition source_order : list probe :=
  [AuthBypass; SqlInjection; Xss; BusinessLogic; InfoDisclosure].

Definition run_probes (order : list probe) : M (list (string * pyval)) :=
  for_each order
    (fun p results =>
       r <- run_probe p ;;
       ret (results ++ [(probe_key p, PDict r)])%list)
    [].

Definition run_probes_in (order : list probe) : M summary :=
  start_time <- datetime_now ;;
  results <- run_probes order ;;
  summarize start_time results.

(** *** generate_report and main *)

Definition get_security_recommendation (status : string) : string :=
  match
    Dict.get status
      [ ("CRITICAL_RISK",
         "IMMEDIATE ACTION REQUIRED - Do not deploy to production");
        ("HIGH_RISK",
         "Address high-severity vulnerabilities before production deployment");
        ("MEDIUM_RISK",
         "Review and address vulnerabilities, acceptable for production with monitoring");
        ("LOW_RISK",
         "System is secure for production deployment with standard monitoring") ]
  with
  | Some r => r
  | None => "Review security findings"
  end.

Record report := mk_report {
  generated_at : nat;
  report_total_vulnerabilities : nat;
  report_status : string;
  report_recommendation : string;
  detailed_results : summary
}.

Definition generate_report : M report :=
  s <- run_comprehensive_test ;;
  now <- datetime_now ;;
  ret {| generated_at := now;
         report_total_vulnerabilities := total_vulnerabilities s;
         report_status := overall_security_status s;
         report_recommendation :=
           get_security_recommendation (overall_security_status s);
         detailed_results := s |}.

(** [main]: a fresh tester without a token logs in, then reports whether
    or not the login worked. *)
Definition main (email password : string) : M report :=
  authenticate email password ;;;
  generate_report.

(* ================================================================== *)
(** ** What a run leaves behind, independently of the clock *)

(** A finding with its timestamp erased. *)
Definition untimed (v : vulnerability) : vulnerability :=
  {| timestamp := 0; service := service v; vuln_type := vuln_type v;
     severity := severity v; description := description v;
     evidence := evidence v; recommendation := recommendation v |}.

Definition finding (svc vtype sev descr evid recomm : string)
  : vulnerability :=
  {| timestamp := 0; service := svc; vuln_type := vtype; severity := sev;
     description := descr; evidence := evid; recommendation := recomm |}.

(** [get_headers(True)] as a function of the stored token. *)
Definition headers_for (tok : pyval) : list (string * header_value) :=
  let hs := [ ("Content-Type", HLit "application/json");
              ("User-Agent", HLit "DSR-PenTest-Suite/1.0") ] in
  if truthy tok then Dict.set "Authorization" (HBearer tok) hs else hs.

(** [effects_at tok m F R]: run from any state whose token is [tok], the
    computation [m] keeps the token, appends findings that are [F] up to
    their timestamps, and issues exactly the requests [R]. *)
Definition effects_at (tok : pyval) {A} (m : M A)
    (F : list vulnerability) (R : list request) : Prop :=
  forall st, auth_token st = tok ->
    auth_token (exec m st) = tok
    /\ (exists added,
          vulnerabilities (exec m st) = (vulnerabilities st ++ added)%list
          /\ map untimed added = F)
    /\ sent (exec m st) = (sent st ++ R)%list.

(** *** The five probes as functions of the oracle and the token *)

Definition auth_bypass_request (service_url ep : string) : request :=
  get_request (service_url ++ ep) [] [] 10.

Definition auth_bypass_finding (service_name service_url ep : string)
  : list vulnerability :=
  match http (auth_bypass_request service_url ep) with
  | Some resp =>
      if auth_bypass_detects resp then
        [ finding service_name "Sensitive Data Exposure" "HIGH"
            ("Endpoint " ++ ep
               ++ " exposes sensitive information without authentication")
            ("Response contains sensitive keywords: "
               ++ Str.of_int (status_code resp))
            "Implement proper authentication and data filtering" ]
      else []
  | None => []
  end.

Definition auth_bypass_found : list vulnerability :=
  flat_map (fun sv : string * string =>
              flat_map (auth_bypass_finding (fst sv) (snd sv))
                auth_bypass_endpoints)
    services.

Definition auth_bypass_asked : list request :=
  flat_map (fun sv : string * string =>
              map (auth_bypass_request (snd sv)) auth_bypass_endpoints)
    services.

Definition sql_request (tok : pyval) (service_url : string)
    (tc : sql_test_case) (payload : string) : request :=
  get_request (service_url ++ tc_endpoint tc) [(tc_param tc, payload)]
    (headers_for tok) 10.

Definition sql_finding (service_name : string) (tc : sql_test_case)
    (payload : string) : vulnerability :=
  finding service_name "SQL Injection" "CRITICAL"
    ("SQL injection vulnerability in " ++ tc_endpoint tc)
    ("Payload: " ++ payload ++ ", Response contains SQL errors")
    "Use parameterized queries and input validation".

(** Does the answer to a request reveal a database error? *)
Definition sql_hit (r : request) : bool :=
  match http r with
  | Some resp => sql_detects resp
  | None => false
  end.

(** Findings and requests of one test case: payloads are tried in order
    up to and including the first hit. *)
Fixpoint sql_case_found (tok : pyval) (service_name service_url : string)
    (tc : sql_test_case) (payloads : list string) : list vulnerability :=
  match payloads with
  | [] => []
  | p :: rest =>
      if sql_hit (sql_request tok service_url tc p)
      then [sql_finding service_name tc p]
      else sql_case_found tok service_name service_url tc rest
  end.

Fixpoint sql_case_asked (tok : pyval) (service_url : string)
    (tc : sql_test_case) (payloads : list string) : list request :=
  match payloads with
  | [] => []
  | p :: rest =>
      sql_request tok service_url tc p
      :: (if sql_hit (sql_request tok service_url tc p) then []
          else sql_case_asked tok service_url tc rest)
  end.

Definition sql_found (tok : pyval) : list vulnerability :=
  flat_map (fun sv : string * string =>
              flat_map (fun tc =>
                          sql_case_found tok (fst sv) (snd sv) tc sql_payloads)
                sql_test_cases)
    services.

Definition sql_asked (tok : pyval) : list request :=
  flat_map (fun sv : string * string =>
              flat_map (fun tc => sql_case_asked tok (snd sv) tc sql_payloads)
                sql_test_cases)
    services.

Definition xss_request (tok : pyval) (service_url : string)
    (ep : xss_endpoint) (payload : string) : request :=
  post_request (service_url ++ xss_url ep)
    (PDict (xss_data (xss_fields ep) payload)) (headers_for tok) 10.

Definition xss_finding (tok : pyval) (service_name service_url : string)
    (ep : xss_endpoint) (payload : string) : list vulnerability :=
  match http (xss_request tok service_url ep payload) with
  | Some resp =>
      if xss_detects payload resp then
        [ finding service_name "Cross-Site Scripting (XSS)" "HIGH"
            ("XSS vulnerability in " ++ xss_url ep)
            ("Payload reflected without encoding: " ++ payload)
            "Implement proper input validation and output encoding" ]
      else []
  | None => []
  end.

Definition xss_found (tok : pyval) : list vulnerability :=
  flat_map (fun sv : string * string =>
              flat_map (fun ep =>
                          flat_map (xss_finding tok (fst sv) (snd sv) ep)
                            xss_payloads)
                xss_test_endpoints)
    services.

Definition xss_asked (tok : pyval) : list request :=
  flat_map (fun sv : string * string =>
              flat_map (fun ep =>
                          map (xss_request tok (snd sv) ep) xss_payloads)
                xss_test_endpoints)
    services.

Definition eligibility_request (tok : pyval) (service_url : string)
  : request :=
  post_request (service_url ++ "/api/v1/eligibility/assessments")
    eligibility_body (headers_for tok) 10.

Definition payment_request (tok : pyval) (service_url : string) : request :=
  post_request (service_url ++ "/api/v1/payments")
    payment_body (headers_for tok) 10.

Definition eligibility_finding (service_name : string) (resp : response)
  : vulnerability :=
  finding service_name "Business Logic Bypass" "HIGH"
    "Negative income values accepted in eligibility assessment"
    ("Negative income (-50000) was accepted: "
       ++ Str.of_int (status_code resp))
    "Implement server-side business rule validation".

Definition payment_finding (service_name : string) (resp : response)
  : vulnerability :=
  finding service_name "Business Logic Bypass" "CRITICAL"
    "Unrealistic payment amounts accepted"
    ("Large payment amount (999999999) was accepted: "
       ++ Str.of_int (status_code resp))
    "Implement payment amount limits and validation".

Definition business_logic_finding (tok : pyval) (sv : string * string)
  : list vulnerability :=
  if String.eqb (fst sv) "eligibility" then
    match http (eligibility_request tok (snd sv)) with
    | Some resp =>
        if accepted resp then [eligibility_finding (fst sv) resp] else []
    | None => []
    end
  else if String.eqb (fst sv) "payment" then
    match http (payment_request tok (snd sv)) with
    | Some resp =>
        if accepted resp then [payment_finding (fst sv) resp] else []
    | None => []
    end
  else [].

Definition business_logic_request (tok : pyval) (sv : string * string)
  : list request :=
  if String.eqb (fst sv) "eligibility"
  then [eligibility_request tok (snd sv)]
  else if String.eqb (fst sv) "payment"
  then [payment_request tok (snd sv)]
  else [].

Definition business_logic_found (tok : pyval) : list vulnerability :=
  flat_map (business_logic_finding tok) services.

Definition business_logic_asked (tok : pyval) : list request :=
  flat_map (business_logic_request tok) services.

Definition disclosure_request (service_url ep : string) : request :=
  get_request (service_url ++ ep) [] [] 10.

Definition disclosure_finding (service_name service_url ep : string)
  : list vulnerability :=
  match http (disclosure_request service_url ep) with
  | Some resp =>
      if disclosure_detects resp then
        [ finding service_name "Information Disclosure" "MEDIUM"
            ("Sensitive information exposed in " ++ ep)
            ("Found keywords: " ++ Str.join ", " (found_keywords resp))
            "Remove sensitive information from error messages and responses" ]
      else []
  | None => []
  end.

Definition disclosure_found : list vulnerability :=
  flat_map (fun sv : string * string =>
              flat_map (disclosure_finding (fst sv) (snd sv))
                disclosure_endpoints)
    services.

Definition disclosure_asked : list request :=
  flat_map (fun sv : string * string =>
              map (disclosure_request (snd sv)) disclosure_endpoints)
    services.

Definition probe_found (p : probe) (tok : pyval) : list vulnerability :=
  match p with
  | AuthBypass => auth_bypass_found
  | SqlInjection => sql_found tok
  | Xss => xss_found tok
  | BusinessLogic => business_logic_found tok
  | InfoDisclosure => disclosure_found
  end.

Definition probe_asked (p : probe) (tok : pyval) : list request :=
  match p with
  | AuthBypass => auth_bypass_asked
  | SqlInjection => sql_asked tok
  | Xss => xss_asked tok
  | BusinessLogic => business_logic_asked tok
  | InfoDisclosure => disclosure_asked
  end.

(** The test a probe applies to a response ([payload] matters to the XSS
    probe only). *)
Definition detects (p : probe) (payload : string) (resp : response) : bool :=
  match p with
  | AuthBypass => auth_bypass_detects resp
  | SqlInjection => sql_detects resp
  | Xss => xss_detects payload resp
  | BusinessLogic => accepted resp
  | InfoDisclosure => disclosure_detects resp
  end.

(* ================================================================== *)
(** ** Notions used to state the properties, and concrete networks *)

Unset Implicit Arguments.

(** *** Summaries, severities, reachable states *)

(** The three figures of a summary that depend on the findings only. *)
Definition figures (vs : list vulnerability) : nat * breakdown * string :=
  (List.length vs,
   {| critical := count_severity "CRITICAL" vs;
      high := count_severity "HIGH" vs;
      medium := count_severity "MEDIUM" vs;
      low := count_severity "LOW" vs |},
   overall_status vs).

Definition summary_figures (s : summary) : nat * breakdown * string :=
  (total_vulnerabilities s, vulnerability_breakdown s,
   overall_security_status s).

(** The severities the probes use. *)
Definition rated (v : vulnerability) : Prop :=
  severity v = "CRITICAL" \/ severity v = "HIGH" \/ severity v = "MEDIUM".

(** The states a tester can be in: freshly constructed, then any sequence
    of logins, probes, full runs and reports. *)
Inductive reachable : tester -> Prop :=
| reach_init (tok : pyval) : reachable (init tok)
| reach_authenticate (email password : string) (st : tester) :
    reachable st -> reachable (exec (authenticate email password) st)
| reach_probe (p : probe) (st : tester) :
    reachable st -> reachable (exec (run_probe p) st)
| reach_run (st : tester) :
    reachable st -> reachable (exec run_comprehensive_test st)
| reach_report (st : tester) :
    reachable st -> reachable (exec generate_report st).

(** *** The login *)

(** The request [authenticate] sends. *)
Definition login_request (email password : string) : request :=
  post_request ((base_url ++ ":8080") ++ "/api/v1/auth/login")
    (PDict [("email", PStr email); ("password", PStr password)]) [] 30.

(** [Some tok]: the login succeeds and [tok] is stored; [None]: it fails. *)
Definition login_outcome (answer : option response) : option pyval :=
  match answer with
  | Some resp =>
      if Z.eqb (status_code resp) 200 then
        match json resp with
        | Some (PDict auth_data) =>
            Some (match Dict.get "accessToken" auth_data with
                  | Some v => v | None => PNone
                  end)
        | _ => None
        end
      else None
  | None => None
  end.

(** The request carries no Authorization header. *)
Definition unauthenticated (r : request) : Prop :=
  Dict.has_key "Authorization" (headers r) = false.

(** *** Findings and texts *)

(** Does the character occur in the string? *)
Fixpoint has_char (c : ascii) (s : string) : bool :=
  match s with
  | EmptyString => false
  | String c' s' => Ascii.eqb c c' || has_char c s'
  end.

(** The findings recorded for one service. *)
Definition about (svc : string) (vs : list vulnerability)
  : list vulnerability :=
  filter (fun v => String.eqb (service v) svc) vs.

(** A finding with the timestamp [t]. *)
Definition stamp (t : nat) (v : vulnerability) : vulnerability :=
  {| timestamp := t; service := service v; vuln_type := vuln_type v;
     severity := severity v; description := description v;
     evidence := evidence v; recommendation := recommendation v |}.

(** The condition under which the XSS probe records a finding. *)
Definition xss_reflected (payload : string) (resp : response) : Prop :=
  (status_code resp = 200%Z \/ status_code resp = 201%Z)
  /\ Str.str_in payload (text resp) = true
  /\ Str.str_in "<script>" (text resp) = true.

Definition xss_hit (tok : pyval) (service_url : string) (ep : xss_endpoint)
    (payload : string) : bool :=
  match http (xss_request tok service_url ep payload) with
  | Some resp => xss_detects payload resp
  | None => false
  end.

(** [html.escape] of Python (with [quote=True]): what an endpoint that
    encodes its output does to the text it echoes.  It is no part of the
    scanner; it describes the answers of the second scenario of C4. *)
Definition escape_char (c : ascii) : string :=
  if Ascii.eqb c "&" then "&amp;"
  else if Ascii.eqb c "<" then "&lt;"
  else if Ascii.eqb c ">" then "&gt;"
  else if Ascii.eqb c (ascii_of_nat 34) then "&quot;"
  else if Ascii.eqb c "'" then "&#x27;"
  else String c EmptyString.

Fixpoint html_escape (s : string) : string :=
  match s with
  | EmptyString => EmptyString
  | String c s' => escape_char c ++ html_escape s'
  end.

(** The first entry of the payload table. *)
Definition script_payload : string :=
  "<script>alert(" ++ Str.dq ++ "XSS" ++ Str.dq ++ ")</script>".

(** Which payloads are found in a body that is [script_payload] itself. *)
Definition echo_hit (payload : string) : bool :=
  Str.str_in payload script_payload && Str.str_in "<script>" script_payload.

Definition xss_high_finding (name : string) (ep : xss_endpoint)
    (payload : string) : vulnerability :=
  finding name "Cross-Site Scripting (XSS)" "HIGH"
    ("XSS vulnerability in " ++ xss_url ep)
    ("Payload reflected without encoding: " ++ payload)
    "Implement proper input validation and output encoding".

(** Two answers that differ in letter case only. *)
Definition same_up_to_case (r1 r2 : response) : Prop :=
  status_code r1 = status_code r2
  /\ Str.lower (text r1) = Str.lower (text r2).

(** Two networks whose answers differ in letter case only. *)
Definition networks_same_up_to_case (http1 http2 : request -> option response)
  : Prop :=
  forall r,
    match http1 r, http2 r with
    | Some r1, Some r2 => same_up_to_case r1 r2
    | None, None => True
    | _, _ => False
    end.

(** The body contains the words. *)
Definition contains (words body : string) : Prop :=
  exists a b, body = a ++ words ++ b.

(** A database-error page: the body, lower-cased, contains one of the
    listed substrings.  The status code is not looked at. *)
Definition sql_error_page (resp : response) : Prop :=
  exists e, In e sql_errors /\ contains e (Str.lower (text resp)).

(** The request draws no database error: it fails, or its answer is no
    database-error page. *)
Definition draws_no_error (r : request) : Prop :=
  match http r with
  | Some resp => ~ sql_error_page resp
  | None => True
  end.

(** *** Concrete networks and inputs *)

Definition localhost : string := "http://localhost".

(** Nothing answers. *)
Definition unreachable_network : request -> option response :=
  fun _ => None.

(** Every request is answered with the same response. *)
Definition constant_network (resp : response) : request -> option response :=
  fun _ => Some resp.

(** Only one address answers. *)
Definition single_endpoint (address : string) (resp : response)
  : request -> option response :=
  fun r => if String.eqb (url r) address then Some resp else None.

Definition plain (status : Z) (body : string) : response :=
  {| status_code := status; text := body; json := None |}.

(** A tester holding findings of the given severities. *)
Definition with_severities (sevs : list string) : tester :=
  {| auth_token := PNone;
     vulnerabilities := map (fun sev => finding "payment" "Example" sev
                                          "description" "evidence" "advice")
                          sevs;
     clock := List.length sevs;
     sent := [] |}.

Definition script_upper : string :=
  "<SCRIPT>ALERT(" ++ Str.dq ++ "XSS" ++ Str.dq ++ ")</SCRIPT>".

(** The search endpoint of the registration service reports a database
    error; nothing else answers. *)
Definition sql_error_network : request -> option response :=
  single_endpoint "http://localhost:8080/api/v1/search"
    (plain 500 "ERROR: sql syntax error at or near SELECT").

(** The search endpoint of the registration service reports a database
    error; every other address answers 404. *)
Definition sql_error_among_404 : request -> option response :=
  fun r =>
    if String.eqb (url r) "http://localhost:8080/api/v1/search"
    then Some (plain 500 "ERROR: sql syntax error at or near SELECT")
    else Some (plain 404 "Not Found").

(** The search endpoint of the registration service answers a query with
    an empty result, except a query that mentions DROP TABLE, which breaks
    it; every other address answers 404. *)
Definition drop_table_network : request -> option response :=
  fun r =>
    if String.eqb (url r) "http://localhost:8080/api/v1/search"
    then match params r with
         | [(_, q)] =>
             if Str.str_in "DROP TABLE" q
             then Some (plain 500
                          "You have an error in your SQL syntax; check the manual of your MySQL server")
             else Some (plain 200 "[]")
         | _ => Some (plain 400 "Bad Request")
         end
    else Some (plain 404 "Not Found").

Definition search_case : sql_test_case :=
  {| tc_endpoint := "/api/v1/search"; tc_param := "query" |}.

Definition grievances : xss_endpoint :=
  {| xss_url := "/api/v1/grievances";
     xss_fields := ["complainantName"; "description"] |}.

(** The grievance form of the grievance service answers 201 and echoes
    the script; nothing else answers. *)
Definition echo_network : request -> option response :=
  single_endpoint "http://localhost:8085/api/v1/grievances"
    (plain 201 script_payload).

(** Every request is answered with the escaped text of its first field. *)
Definition escaping_network : request -> option response :=
  fun r =>
    Some (plain 201
            (html_escape
               match json_body r with
               | Some (PDict ((_, PStr s) :: _)) => s
               | _ => EmptyString
               end)).

(** A login answered with status 200 and a JSON array. *)
Definition array_login_network : request -> option response :=
  constant_network
    {| status_code := 200; text := "[]"; json := Some (PList []) |}.

(** A login answered with status 200 and a token. *)
Definition token_login_network : request -> option response :=
  constant_network
    {| status_code := 200; text := "(a JSON object with a token)";
       json := Some (PDict [("accessToken", PStr "abc");
                            ("expiresIn", PInt 3600)]) |}.

(** A login answered with status 200 and an object without accessToken. *)
Definition tokenless_login_network : request -> option response :=
  constant_network
    {| status_code := 200; text := "(a JSON object with a message)";
       json := Some (PDict [("message", PStr "welcome")]) |}.

(** *** Notions for the further properties *)

(** [returns tok m a]: run from any state whose token is [tok], the
    computation [m] returns [a]. *)
Definition returns (tok : pyval) {A} (m : M A) (a : A) : Prop :=
  forall st, auth_token st = tok -> eval m st = a.

(** The name of the counter in the entry a probe returns for a service. *)
Definition counter_key (p : probe) : string :=
  match p with
  | AuthBypass => "bypass_attempts"
  | SqlInjection => "vulnerable_endpoints"
  | Xss => "vulnerable_fields"
  | BusinessLogic => "logic_flaws"
  | InfoDisclosure => "disclosure_issues"
  end.

(** What the iteration of a probe for one service finds. *)
Definition service_found (p : probe) (tok : pyval) (sv : string * string)
  : list vulnerability :=
  match p with
  | AuthBypass =>
      flat_map (auth_bypass_finding (fst sv) (snd sv)) auth_bypass_endpoints
  | SqlInjection =>
      flat_map (fun tc => sql_case_found tok (fst sv) (snd sv) tc sql_payloads)
        sql_test_cases
  | Xss =>
      flat_map (fun ep =>
                  flat_map (xss_finding tok (fst sv) (snd sv) ep) xss_payloads)
        xss_test_endpoints
  | BusinessLogic => business_logic_finding tok sv
  | InfoDisclosure =>
      flat_map (disclosure_finding (fst sv) (snd sv)) disclosure_endpoints
  end.

(** The iteration of a probe for one service. *)
Definition probe_service (p : probe)
  : string * string -> list (string * pyval) -> M (list (string * pyval)) :=
  match p with
  | AuthBypass => auth_bypass_service
  | SqlInjection => sql_service
  | Xss => xss_service
  | BusinessLogic => business_logic_service
  | InfoDisclosure => disclosure_service
  end.

(** The operations a caller can run on a tester. *)
Inductive operation :=
| Login (email password : string)
| Probe (p : probe)
| FullRun
| Report
| Main (email password : string).

Definition perform (op : operation) (st : tester) : tester :=
  match op with
  | Login email password => exec (authenticate email password) st
  | Probe p => exec (run_probe p) st
  | FullRun => exec run_comprehensive_test st
  | Report => exec generate_report st
  | Main email password => exec (main email password) st
  end.

(** The four statuses, from the least to the most severe. *)
Definition risk_rank (status : string) : nat :=
  if String.eqb status "CRITICAL_RISK" then 3
  else if String.eqb status "HIGH_RISK" then 2
  else if String.eqb status "MEDIUM_RISK" then 1
  else 0.

(** The request carries the token as a bearer credential. *)
Definition carries_token (tok : pyval) (r : request) : Prop :=
  Dict.get "Authorization" (headers r) = Some (HBearer tok).

(** The request was sent without any header of the scanner. *)
Definition bare (r : request) : Prop := headers r = [].

(** Bounds on what one run of a probe sends and records. *)
Definition min_requests (p : probe) : nat :=
  match p with
  | AuthBypass => 35 | SqlInjection => 21 | Xss => 105
  | BusinessLogic => 2 | InfoDisclosure => 35
  end.

Definition max_requests (p : probe) : nat :=
  match p with
  | AuthBypass => 35 | SqlInjection => 105 | Xss => 105
  | BusinessLogic => 2 | InfoDisclosure => 35
  end.

Definition max_findings (p : probe) : nat :=
  match p with
  | AuthBypass => 35 | SqlInjection => 21 | Xss => 105
  | BusinessLogic => 2 | InfoDisclosure => 35
  end.

(** The finding of the authentication-bypass probe. *)
Definition exposure_finding (name ep : string) (resp : response)
  : vulnerability :=
  finding name "Sensitive Data Exposure" "HIGH"
    ("Endpoint " ++ ep
       ++ " exposes sensitive information without authentication")
    ("Response contains sensitive keywords: " ++ Str.of_int (status_code resp))
    "Implement proper authentication and data filtering".

(** The finding of the information-disclosure probe. *)
Definition disclosure_issue (name ep : string) (resp : response)
  : vulnerability :=
  finding name "Information Disclosure" "MEDIUM"
    ("Sensitive information exposed in " ++ ep)
    ("Found keywords: " ++ Str.join ", " (found_keywords resp))
    "Remove sensitive information from error messages and responses".

(** The condition under which the authentication-bypass probe records a
    finding. *)
Definition exposes (resp : response) : Prop :=
  status_code resp = 200%Z
  /\ exists kw, In kw auth_bypass_keywords
                /\ Str.str_in kw (Str.lower (text resp)) = true.

(** The condition under which the information-disclosure probe records a
    finding. *)
Definition discloses (resp : response) : Prop :=
  status_code resp <> 404%Z
  /\ exists kw, In kw sensitive_keywords
                /\ Str.str_in kw (Str.lower (text resp)) = true.

(** The method a probe uses for its requests. *)
Definition probe_method (p : probe) : http_method :=
  match p with
  | Xss | BusinessLogic => POST
  | _ => GET
  end.

(** A request of the shape the probe [p] sends: its method, the time-out
    of ten seconds, an address below one of the seven services, and the
    payload in the query string (GET) or in the JSON body (POST). *)
Definition shaped_for (p : probe) (r : request) : Prop :=
  meth r = probe_method p
  /\ timeout r = 10
  /\ (exists sv path, In sv services /\ url r = snd sv ++ path)
  /\ match probe_method p with
     | GET => json_body r = None
     | POST => params r = [] /\ exists body, json_body r = Some (PDict body)
     end.

(** The environment page of the analytics service answers; nothing else
    does. *)
Definition actuator_network (resp : response) : request -> option response :=
  single_endpoint "http://localhost:8086/actuator/env" resp.

(* ================================================================== *)
(** ** Laws of the monad and of the primitive effects *)

Lemma exec_bind {A B} (m : M A) (k : A -> M B) (st : tester) :
  exec (bind m k) st = exec (k (eval m st)) (exec m st).
Proof. unfold exec, eval, bind. destruct (m st); reflexivity. Qed.

Lemma eval_bind {A B} (m : M A) (k : A -> M B) (st : tester) :
  eval (bind m k) st = eval (k (eval m st)) (exec m st).
Proof. unfold exec, eval, bind. destruct (m st); reflexivity. Qed.

(** [bind] rewritten along a known first step. *)
Lemma bind_run {A B} (m : M A) (k : A -> M B) (st : tester) :
  bind m k st = k (fst (m st)) (snd (m st)).
Proof. unfold bind. destruct (m st); reflexivity. Qed.

Lemma get_headers_run (st : tester) :
  get_headers true st = (headers_for (auth_token st), st).
Proof.
  unfold get_headers, get_auth_token, bind, headers_for. cbn.
  destruct (truthy (auth_token st)); reflexivity.
Qed.

Lemma send_run (r : request) (st : tester) :
  send r st = (http r,
               {| auth_token := auth_token st;
                  vulnerabilities := vulnerabilities st;
                  clock := clock st;
                  sent := sent st ++ [r] |}).
Proof. reflexivity. Qed.

Lemma log_vulnerability_run (svc vtype sev descr evid recomm : string)
    (st : tester) :
  log_vulnerability svc vtype sev descr evid recomm st
  = (tt,
     {| auth_token := auth_token st;
        vulnerabilities :=
          vulnerabilities st
          ++ [ {| timestamp := clock st; service := svc;
                  vuln_type := vtype; severity := sev;
                  description := descr; evidence := evid;
                  recommendation := recomm |} ];
        clock := S (clock st);
        sent := sent st |}).
Proof. reflexivity. Qed.

(** Run the first steps of a computation applied to a state. *)
Ltac run_step :=
  repeat first
    [ rewrite bind_run
    | rewrite get_headers_run
    | rewrite send_run
    | rewrite log_vulnerability_run
    | progress cbn [fst snd] ].

Lemma eff_ret (tok : pyval) {A} (a : A) : effects_at tok (ret a) [] [].
Proof.
  intros st Htok. cbn. rewrite !app_nil_r. repeat split; auto.
  exists []. now rewrite app_nil_r.
Qed.

Lemma effects_untimed (tok : pyval) {A} (m : M A) F R (st : tester) :
  effects_at tok m F R -> auth_token st = tok ->
  map untimed (vulnerabilities (exec m st))
  = (map untimed (vulnerabilities st) ++ F)%list.
Proof.
  intros Hm Htok. destruct (Hm st Htok) as (_ & (added & Hv & HF) & _).
  now rewrite Hv, map_app, HF.
Qed.

Lemma eff_bind (tok : pyval) {A B} (m : M A) (k : A -> M B) F1 R1 F2 R2 :
  effects_at tok m F1 R1 ->
  (forall a, effects_at tok (k a) F2 R2) ->
  effects_at tok (bind m k) (F1 ++ F2)%list (R1 ++ R2)%list.
Proof.
  intros Hm Hk st Htok. rewrite exec_bind.
  destruct (Hm st Htok) as (Ht & (a1 & Hv & HF1) & Hs).
  destruct (Hk (eval m st) (exec m st) Ht) as (Ht' & (a2 & Hv' & HF2) & Hs').
  rewrite Hv', Hs', Hv, Hs, <- !app_assoc. repeat split; auto.
  exists (a1 ++ a2)%list. now rewrite map_app, HF1, HF2.
Qed.

Lemma eff_send (tok : pyval) {A} (r : request)
    (k : option response -> M A) F R :
  effects_at tok (k (http r)) F R ->
  effects_at tok (bind (send r) k) F (r :: R).
Proof.
  intros Hk st Htok. rewrite exec_bind.
  destruct (Hk (exec (send r) st) Htok) as (Ht & Hv & Hs).
  cbn in *. rewrite Hs, <- app_assoc. auto.
Qed.

Lemma eff_headers (tok : pyval) {A}
    (k : list (string * header_value) -> M A) F R :
  effects_at tok (k (headers_for tok)) F R ->
  effects_at tok (bind (get_headers true) k) F R.
Proof.
  intros Hk st Htok. rewrite exec_bind.
  assert (Hst : exec (get_headers true) st = st).
  { unfold get_headers, get_auth_token, exec, bind. cbn.
    destruct (truthy (auth_token st)); reflexivity. }
  assert (Hhs : eval (get_headers true) st = headers_for tok).
  { unfold get_headers, get_auth_token, eval, bind, headers_for. cbn.
    rewrite Htok. destruct (truthy tok); reflexivity. }
  rewrite Hst, Hhs. exact (Hk st Htok).
Qed.

Lemma eff_log (tok : pyval) (svc vtype sev descr evid recomm : string) :
  effects_at tok (log_vulnerability svc vtype sev descr evid recomm)
    [finding svc vtype sev descr evid recomm] [].
Proof.
  intros st Htok. cbn. rewrite app_nil_r. repeat split; auto.
  eexists. split; reflexivity.
Qed.

Lemma eff_for_each (tok : pyval) {A X} (body : X -> A -> M A)
    (F : X -> list vulnerability) (R : X -> list request) :
  (forall x a, effects_at tok (body x a) (F x) (R x)) ->
  forall l a, effects_at tok (for_each l body a) (flat_map F l) (flat_map R l).
Proof.
  intros Hbody l. induction l as [|x l IH]; intros a; cbn [for_each flat_map].
  - apply eff_ret.
  - apply eff_bind; [apply Hbody | intros a'; apply IH].
Qed.

(** A computation that logs one finding and then returns. *)
Lemma eff_log_ret (tok : pyval) {A} (a : A)
    (svc vtype sev descr evid recomm : string) :
  effects_at tok
    (log_vulnerability svc vtype sev descr evid recomm ;;; ret a)
    [finding svc vtype sev descr evid recomm] [].
Proof.
  change (@nil request) with (@nil request ++ @nil request)%list.
  change [finding svc vtype sev descr evid recomm]
    with ([finding svc vtype sev descr evid recomm] ++ [])%list.
  apply eff_bind; [apply eff_log | intros; apply eff_ret].
Qed.

(** *** Each probe has the effects its pure counterpart lists *)

Lemma auth_bypass_step_effects (tok : pyval)
    (service_name service_url ep : string) (n : nat) :
  effects_at tok (auth_bypass_step service_name service_url ep n)
    (auth_bypass_finding service_name service_url ep)
    [auth_bypass_request service_url ep].
Proof.
  unfold auth_bypass_step, requests_get, auth_bypass_finding.
  apply eff_send. fold (auth_bypass_request service_url ep).
  destruct (http (auth_bypass_request service_url ep)) as [resp|].
  - destruct (auth_bypass_detects resp).
    + apply eff_log_ret.
    + apply eff_ret.
  - apply eff_ret.
Qed.

Lemma eff_then_ret (tok : pyval) {A B} (m : M A) (f : A -> B) F R :
  effects_at tok m F R ->
  effects_at tok (a <- m ;; ret (f a)) F R.
Proof.
  intros Hm. rewrite <- (app_nil_r F), <- (app_nil_r R).
  apply eff_bind; [exact Hm | intros; apply eff_ret].
Qed.

Lemma flat_map_single {X Y} (f : X -> Y) (l : list X) :
  flat_map (fun x => [f x]) l = map f l.
Proof. induction l; cbn; congruence. Qed.

Lemma auth_bypass_service_effects (tok : pyval) (sv : string * string)
    (results : list (string * pyval)) :
  effects_at tok (auth_bypass_service sv results)
    (flat_map (auth_bypass_finding (fst sv) (snd sv)) auth_bypass_endpoints)
    (map (auth_bypass_request (snd sv)) auth_bypass_endpoints).
Proof.
  destruct sv as [service_name service_url]. unfold auth_bypass_service.
  apply eff_then_ret with (f := fun n => Dict.set service_name _ results).
  rewrite <- flat_map_single.
  apply eff_for_each. intros ep n. apply auth_bypass_step_effects.
Qed.

Lemma auth_bypass_effects (tok : pyval) :
  effects_at tok test_authentication_bypass
    auth_bypass_found auth_bypass_asked.
Proof.
  apply eff_for_each. intros sv results. apply auth_bypass_service_effects.
Qed.

Lemma sql_try_payloads_effects (tok : pyval) (service_name service_url : string)
    (tc : sql_test_case) (payloads : list string) (n : nat) :
  effects_at tok (sql_try_payloads service_name service_url tc payloads n)
    (sql_case_found tok service_name service_url tc payloads)
    (sql_case_asked tok service_url tc payloads).
Proof.
  induction payloads as [|p rest IH];
    cbn [sql_try_payloads sql_case_found sql_case_asked].
  - apply eff_ret.
  - apply eff_headers. unfold requests_get. apply eff_send.
    fold (sql_request tok service_url tc p). unfold sql_hit.
    destruct (http (sql_request tok service_url tc p)) as [resp|].
    + destruct (sql_detects resp).
      * apply eff_log_ret.
      * exact IH.
    + exact IH.
Qed.

Lemma sql_service_effects (tok : pyval) (sv : string * string)
    (results : list (string * pyval)) :
  effects_at tok (sql_service sv results)
    (flat_map (fun tc => sql_case_found tok (fst sv) (snd sv) tc sql_payloads)
       sql_test_cases)
    (flat_map (fun tc => sql_case_asked tok (snd sv) tc sql_payloads)
       sql_test_cases).
Proof.
  destruct sv as [service_name service_url]. unfold sql_service.
  apply eff_then_ret with (f := fun n => Dict.set service_name _ results).
  apply eff_for_each with
    (body := fun tc => sql_try_payloads service_name service_url tc sql_payloads).
  intros tc n. apply sql_try_payloads_effects.
Qed.

Lemma sql_effects (tok : pyval) :
  effects_at tok test_sql_injection (sql_found tok) (sql_asked tok).
Proof.
  apply eff_for_each with (body := sql_service).
  intros sv results. apply sql_service_effects.
Qed.

Lemma xss_step_effects (tok : pyval) (service_name service_url : string)
    (ep : xss_endpoint) (payload : string) (n : nat) :
  effects_at tok (xss_step service_name service_url ep payload n)
    (xss_finding tok service_name service_url ep payload)
    [xss_request tok service_url ep payload].
Proof.
  unfold xss_step, requests_post, xss_finding.
  apply eff_headers. apply eff_send.
  fold (xss_request tok service_url ep payload).
  destruct (http (xss_request tok service_url ep payload)) as [resp|].
  - destruct (xss_detects payload resp).
    + apply eff_log_ret.
    + apply eff_ret.
  - apply eff_ret.
Qed.

Lemma xss_service_effects (tok : pyval) (sv : string * string)
    (results : list (string * pyval)) :
  effects_at tok (xss_service sv results)
    (flat_map (fun ep =>
                 flat_map (xss_finding tok (fst sv) (snd sv) ep) xss_payloads)
       xss_test_endpoints)
    (flat_map (fun ep => map (xss_request tok (snd sv) ep) xss_payloads)
       xss_test_endpoints).
Proof.
  destruct sv as [service_name service_url]. unfold xss_service.
  apply eff_then_ret with (f := fun n => Dict.set service_name _ results).
  apply eff_for_each with
    (body := fun ep =>
               for_each xss_payloads (xss_step service_name service_url ep)).
  intros ep n. rewrite <- flat_map_single.
  apply eff_for_each. intros payload m. apply xss_step_effects.
Qed.

Lemma xss_effects (tok : pyval) :
  effects_at tok test_xss_vulnerabilities (xss_found tok) (xss_asked tok).
Proof.
  apply eff_for_each with (body := xss_service).
  intros sv results. apply xss_service_effects.
Qed.

Lemma business_logic_service_effects (tok : pyval) (sv : string * string)
    (results : list (string * pyval)) :
  effects_at tok (business_logic_service sv results)
    (business_logic_finding tok sv) (business_logic_request tok sv).
Proof.
  destruct sv as [service_name service_url].
  unfold business_logic_service, business_logic_finding,
    business_logic_request, requests_post.
  cbn [fst snd].
  apply eff_then_ret with (f := fun n => Dict.set service_name _ results).
  destruct (String.eqb service_name "eligibility").
  - apply eff_headers. apply eff_send.
    fold (eligibility_request tok service_url).
    destruct (http (eligibility_request tok service_url)) as [resp|].
    + destruct (accepted resp); [apply eff_log_ret | apply eff_ret].
    + apply eff_ret.
  - destruct (String.eqb service_name "payment").
    + apply eff_headers. apply eff_send.
      fold (payment_request tok service_url).
      destruct (http (payment_request tok service_url)) as [resp|].
      * destruct (accepted resp); [apply eff_log_ret | apply eff_ret].
      * apply eff_ret.
    + apply eff_ret.
Qed.

Lemma business_logic_effects (tok : pyval) :
  effects_at tok test_business_logic_flaws
    (business_logic_found tok) (business_logic_asked tok).
Proof.
  apply eff_for_each with (body := business_logic_service).
  intros sv results. apply business_logic_service_effects.
Qed.

Lemma disclosure_step_effects (tok : pyval)
    (service_name service_url ep : string) (n : nat) :
  effects_at tok (disclosure_step service_name service_url ep n)
    (disclosure_finding service_name service_url ep)
    [disclosure_request service_url ep].
Proof.
  unfold disclosure_step, requests_get, disclosure_finding.
  apply eff_send. fold (disclosure_request service_url ep).
  destruct (http (disclosure_request service_url ep)) as [resp|].
  - destruct (disclosure_detects resp).
    + apply eff_log_ret.
    + apply eff_ret.
  - apply eff_ret.
Qed.

Lemma disclosure_service_effects (tok : pyval) (sv : string * string)
    (results : list (string * pyval)) :
  effects_at tok (disclosure_service sv results)
    (flat_map (disclosure_finding (fst sv) (snd sv)) disclosure_endpoints)
    (map (disclosure_request (snd sv)) disclosure_endpoints).
Proof.
  destruct sv as [service_name service_url]. unfold disclosure_service.
  apply eff_then_ret with (f := fun n => Dict.set service_name _ results).
  rewrite <- flat_map_single.
  apply eff_for_each. intros ep n. apply disclosure_step_effects.
Qed.

Lemma disclosure_effects (tok : pyval) :
  effects_at tok test_information_disclosure
    disclosure_found disclosure_asked.
Proof.
  apply eff_for_each. intros sv results. apply disclosure_service_effects.
Qed.

Lemma run_probe_effects (tok : pyval) (p : probe) :
  effects_at tok (run_probe p) (probe_found p tok) (probe_asked p tok).
Proof.
  destruct p; cbn [run_probe probe_found probe_asked].
  - apply auth_bypass_effects.
  - apply sql_effects.
  - apply xss_effects.
  - apply business_logic_effects.
  - apply disclosure_effects.
Qed.

(* ================================================================== *)
(** ** Severity counts *)

Lemma count_severity_count_occ (sev : string) (vs : list vulnerability) :
  count_severity sev vs = count_occ string_dec (map severity vs) sev.
Proof.
  unfold count_severity. induction vs as [|v vs IH]; cbn; [reflexivity|].
  destruct (string_dec (severity v) sev) as [->|Hne].
  - rewrite String.eqb_refl. cbn. now rewrite IH.
  - apply String.eqb_neq in Hne. rewrite Hne. exact IH.
Qed.

Lemma count_severity_app (sev : string) (vs ws : list vulnerability) :
  count_severity sev (vs ++ ws)
  = count_severity sev vs + count_severity sev ws.
Proof.
  unfold count_severity. now rewrite filter_app, length_app.
Qed.

Lemma count_severity_untimed (sev : string) (vs : list vulnerability) :
  count_severity sev (map untimed vs) = count_severity sev vs.
Proof.
  unfold count_severity. induction vs as [|v vs IH]; cbn; [reflexivity|].
  destruct (String.eqb (severity v) sev); cbn; now rewrite IH.
Qed.

Lemma count_severity_perm (sev : string) (vs ws : list vulnerability) :
  Permutation vs ws -> count_severity sev vs = count_severity sev ws.
Proof.
  intros H. rewrite !count_severity_count_occ.
  apply Permutation_count_occ. now apply Permutation_map.
Qed.

(* ================================================================== *)
(** ** C1: the overall status *)

(** C1.  For every finding list the overall status follows the threshold
    rule on the numbers of CRITICAL and HIGH findings: some CRITICAL gives
    CRITICAL_RISK; otherwise more than three HIGH give HIGH_RISK; otherwise
    at least one HIGH gives MEDIUM_RISK; otherwise LOW_RISK.  Reading the
    status does not change the tester. *)
Theorem C1_overall_status_thresholds (st : tester) :
  let sevs := map severity (vulnerabilities st) in
  let c := count_occ string_dec sevs "CRITICAL" in
  let h := count_occ string_dec sevs "HIGH" in
  let status := eval get_overall_security_status st in
  status = (if (0 <? c)%nat then "CRITICAL_RISK"
            else if (3 <? h)%nat then "HIGH_RISK"
            else if (1 <=? h)%nat then "MEDIUM_RISK"
            else "LOW_RISK")
  /\ ((0 < c)%nat -> status = "CRITICAL_RISK")
  /\ (c = 0 -> (3 < h)%nat -> status = "HIGH_RISK")
  /\ (c = 0 -> (1 <= h <= 3)%nat -> status = "MEDIUM_RISK")
  /\ (c = 0 -> h = 0 -> status = "LOW_RISK")
  /\ exec get_overall_security_status st = st.
Proof.
  intros sevs c h status.
  assert (Hs : status = (if (0 <? c)%nat then "CRITICAL_RISK"
                         else if (3 <? h)%nat then "HIGH_RISK"
                         else if (1 <=? h)%nat then "MEDIUM_RISK"
                         else "LOW_RISK")).
  { subst status c h sevs. cbn. unfold overall_status.
    rewrite !count_severity_count_occ. reflexivity. }
  split; [exact Hs|]. rewrite Hs. repeat split.
  - intros Hc. destruct (Nat.ltb_spec 0 c); [reflexivity | lia].
  - intros Hc Hh. destruct (Nat.ltb_spec 0 c); [lia|].
    destruct (Nat.ltb_spec 3 h); [reflexivity | lia].
  - intros Hc Hh. destruct (Nat.ltb_spec 0 c); [lia|].
    destruct (Nat.ltb_spec 3 h); [lia|].
    destruct (Nat.leb_spec 1 h); [reflexivity | lia].
  - intros Hc Hh. destruct (Nat.ltb_spec 0 c); [lia|].
    destruct (Nat.ltb_spec 3 h); [lia|].
    destruct (Nat.leb_spec 1 h); [lia | reflexivity].
Qed.

(* ================================================================== *)
(** ** C8: the order of the probes *)

Lemma figures_untimed (vs : list vulnerability) :
  figures (map untimed vs) = figures vs.
Proof.
  unfold figures, overall_status.
  now rewrite length_map, !count_severity_untimed.
Qed.

Lemma figures_perm (vs ws : list vulnerability) :
  Permutation vs ws -> figures vs = figures ws.
Proof.
  intros H. unfold figures, overall_status.
  rewrite (Permutation_length H).
  now rewrite !(fun sev => count_severity_perm sev _ _ H).
Qed.

Lemma summarize_figures (t0 : nat) (results : list (string * pyval))
    (st : tester) :
  summary_figures (eval (summarize t0 results) st)
  = figures (vulnerabilities st).
Proof. reflexivity. Qed.

Lemma run_probes_effects (tok : pyval) (order : list probe) :
  effects_at tok (run_probes order)
    (flat_map (fun p => probe_found p tok) order)
    (flat_map (fun p => probe_asked p tok) order).
Proof.
  unfold run_probes.
  apply eff_for_each with
    (body := fun p results =>
               r <- run_probe p ;;
               ret (results ++ [(probe_key p, PDict r)])%list).
  intros p results.
  apply eff_then_ret with
    (f := fun r => (results ++ [(probe_key p, PDict r)])%list).
  apply run_probe_effects.
Qed.

Lemma run_probes_in_figures (order : list probe) (st : tester) :
  summary_figures (eval (run_probes_in order) st)
  = figures (map untimed (vulnerabilities st)
             ++ flat_map (fun p => probe_found p (auth_token st)) order).
Proof.
  unfold run_probes_in. rewrite !eval_bind, summarize_figures.
  rewrite <- figures_untimed.
  rewrite (effects_untimed _ _ _ _ _ (run_probes_effects _ order) eq_refl).
  reflexivity.
Qed.

(** With the probes in the order of the source, [run_probes_in] is
    [run_comprehensive_test]. *)
Lemma run_probes_in_source_order (st : tester) :
  run_probes_in source_order st = run_comprehensive_test st.
Proof.
  unfold run_probes_in, run_comprehensive_test, run_probes, source_order.
  cbn [for_each run_probe probe_key]. unfold bind, ret.
  destruct (datetime_now st) as [t0 st0].
  destruct (test_authentication_bypass st0) as [r1 st1].
  destruct (test_sql_injection st1) as [r2 st2].
  destruct (test_xss_vulnerabilities st2) as [r3 st3].
  destruct (test_business_logic_flaws st3) as [r4 st4].
  destruct (test_information_disclosure st4) as [r5 st5].
  reflexivity.
Qed.

(** C8.  For a fixed answer to every request, running the five probes in
    any order gives the same severity histogram, the same total and the
    same overall status as the order of the source. *)
Theorem C8_probe_order_irrelevant (order : list probe) (st : tester) :
  Permutation order source_order ->
  let s := eval (run_probes_in order) st in
  let s0 := eval run_comprehensive_test st in
  vulnerability_breakdown s = vulnerability_breakdown s0
  /\ total_vulnerabilities s = total_vulnerabilities s0
  /\ overall_security_status s = overall_security_status s0.
Proof.
  intros Hperm s s0.
  assert (H : summary_figures s = summary_figures s0).
  { subst s s0. unfold eval at 2.
    rewrite <- run_probes_in_source_order.
    fold (eval (run_probes_in source_order) st).
    rewrite !run_probes_in_figures.
    apply figures_perm, Permutation_app_head.
    now apply Permutation_flat_map. }
  unfold summary_figures in H. inversion H. auto.
Qed.

(* ================================================================== *)
(** ** C9: no finding is rated LOW *)

Lemma rated_untimed (vs : list vulnerability) :
  Forall rated (map untimed vs) <-> Forall rated vs.
Proof.
  rewrite Forall_map. unfold rated. cbn. reflexivity.
Qed.

Lemma rated_finding (svc vtype sev descr evid recomm : string) :
  sev = "CRITICAL" \/ sev = "HIGH" \/ sev = "MEDIUM" ->
  Forall rated [finding svc vtype sev descr evid recomm].
Proof. intros H. constructor; [exact H | constructor]. Qed.

Create HintDb rated.
#[local] Hint Resolve rated_finding : rated.
#[local] Hint Constructors Forall : rated.

Ltac rated_cases :=
  repeat match goal with
         | |- Forall rated (match ?x with _ => _ end) => destruct x
         | |- Forall rated (if ?b then _ else _) => destruct b
         end;
  auto 6 with rated.

Lemma probe_found_rated (p : probe) (tok : pyval) :
  Forall rated (probe_found p tok).
Proof.
  destruct p; cbn [probe_found].
  - unfold auth_bypass_found.
    apply Forall_flat_map, Forall_forall. intros sv _.
    apply Forall_flat_map, Forall_forall. intros ep _.
    unfold auth_bypass_finding. rated_cases.
  - unfold sql_found.
    apply Forall_flat_map, Forall_forall. intros sv _.
    apply Forall_flat_map, Forall_forall. intros tc _.
    induction sql_payloads as [|q rest IH]; cbn [sql_case_found].
    + constructor.
    + destruct (sql_hit _); [|exact IH].
      unfold sql_finding. auto with rated.
  - unfold xss_found.
    apply Forall_flat_map, Forall_forall. intros sv _.
    apply Forall_flat_map, Forall_forall. intros ep _.
    apply Forall_flat_map, Forall_forall. intros payload _.
    unfold xss_finding. rated_cases.
  - unfold business_logic_found.
    apply Forall_flat_map, Forall_forall. intros sv _.
    unfold business_logic_finding, eligibility_finding, payment_finding.
    rated_cases.
  - unfold disclosure_found.
    apply Forall_flat_map, Forall_forall. intros sv _.
    apply Forall_flat_map, Forall_forall. intros ep _.
    unfold disclosure_finding. rated_cases.
Qed.

Lemma effects_keep_rated {A} (m : M A) (tok : pyval) F R (st : tester) :
  effects_at tok m F R -> auth_token st = tok -> Forall rated F ->
  Forall rated (vulnerabilities st) ->
  Forall rated (vulnerabilities (exec m st)).
Proof.
  intros Hm Htok HF Hst.
  apply rated_untimed. rewrite (effects_untimed _ _ _ _ _ Hm Htok).
  apply Forall_app. split.
  - now apply rated_untimed.
  - exact HF.
Qed.

Lemma eff_datetime_now (tok : pyval) : effects_at tok datetime_now [] [].
Proof.
  intros st Htok. cbn. rewrite !app_nil_r. repeat split; auto.
  exists []. now rewrite app_nil_r.
Qed.

Lemma eff_summarize (tok : pyval) (t0 : nat)
    (results : list (string * pyval)) :
  effects_at tok (summarize t0 results) [] [].
Proof.
  intros st Htok. cbn. rewrite !app_nil_r. repeat split; auto.
  exists []. now rewrite app_nil_r.
Qed.

Lemma run_probes_in_effects (tok : pyval) (order : list probe) :
  effects_at tok (run_probes_in order)
    (flat_map (fun p => probe_found p tok) order)
    (flat_map (fun p => probe_asked p tok) order).
Proof.
  unfold run_probes_in.
  change (flat_map (fun p => probe_found p tok) order)
    with ([] ++ flat_map (fun p => probe_found p tok) order)%list.
  change (flat_map (fun p => probe_asked p tok) order)
    with ([] ++ flat_map (fun p => probe_asked p tok) order)%list.
  apply eff_bind; [apply eff_datetime_now | intros t0].
  rewrite <- (app_nil_r (flat_map (fun p => probe_found p tok) order)).
  rewrite <- (app_nil_r (flat_map (fun p => probe_asked p tok) order)).
  apply eff_bind; [apply run_probes_effects | intros results].
  apply eff_summarize.
Qed.

Lemma run_comprehensive_test_effects (tok : pyval) :
  effects_at tok run_comprehensive_test
    (flat_map (fun p => probe_found p tok) source_order)
    (flat_map (fun p => probe_asked p tok) source_order).
Proof.
  intros st Htok. unfold exec.
  rewrite <- run_probes_in_source_order.
  exact (run_probes_in_effects tok source_order st Htok).
Qed.

Lemma generate_report_effects (tok : pyval) :
  effects_at tok generate_report
    (flat_map (fun p => probe_found p tok) source_order)
    (flat_map (fun p => probe_asked p tok) source_order).
Proof.
  unfold generate_report.
  rewrite <- (app_nil_r (flat_map (fun p => probe_found p tok) source_order)).
  rewrite <- (app_nil_r (flat_map (fun p => probe_asked p tok) source_order)).
  apply eff_bind; [apply run_comprehensive_test_effects | intros s].
  change (@nil vulnerability) with (@nil vulnerability ++ [])%list.
  change (@nil request) with (@nil request ++ [])%list.
  apply eff_bind; [apply eff_datetime_now | intros t; apply eff_ret].
Qed.

Lemma found_in_order_rated (tok : pyval) (order : list probe) :
  Forall rated (flat_map (fun p => probe_found p tok) order).
Proof.
  apply Forall_flat_map, Forall_forall. intros p _.
  apply probe_found_rated.
Qed.

(** *** authenticate, as a function of the answer to the login request *)

Lemma login_outcome_object (answer : option response) (resp : response)
    (auth_data : list (string * pyval)) :
  answer = Some resp -> status_code resp = 200%Z ->
  json resp = Some (PDict auth_data) ->
  login_outcome answer
  = Some (match Dict.get "accessToken" auth_data with
          | Some v => v | None => PNone
          end).
Proof.
  intros -> Hstatus Hjson. unfold login_outcome.
  now rewrite Hstatus, Hjson.
Qed.

Lemma login_outcome_some (answer : option response) (tok' : pyval) :
  login_outcome answer = Some tok' ->
  exists resp auth_data,
    answer = Some resp /\ status_code resp = 200%Z
    /\ json resp = Some (PDict auth_data)
    /\ tok' = match Dict.get "accessToken" auth_data with
              | Some v => v | None => PNone
              end.
Proof.
  unfold login_outcome. destruct answer as [resp|]; [|discriminate].
  destruct (Z.eqb (status_code resp) 200) eqn:Hstatus; [|discriminate].
  apply Z.eqb_eq in Hstatus.
  destruct (json resp) as [[ | | | | |d]|] eqn:Hjson; try discriminate.
  intros [= <-]. exists resp, d. repeat split; auto.
Qed.

Lemma authenticate_run (email password : string) (st : tester) :
  authenticate email password st
  = match login_outcome (http (login_request email password)) with
    | Some tok' =>
        (true, {| auth_token := tok';
                  vulnerabilities := vulnerabilities st;
                  clock := clock st;
                  sent := sent st ++ [login_request email password] |})
    | None =>
        (false, {| auth_token := auth_token st;
                   vulnerabilities := vulnerabilities st;
                   clock := clock st;
                   sent := sent st ++ [login_request email password] |})
    end.
Proof.
  unfold authenticate, requests_post, login_outcome.
  cbn [Dict.get services String.eqb Ascii.eqb Bool.eqb].
  fold (login_request email password).
  unfold bind at 1. cbn [send].
  destruct (http (login_request email password)) as [resp|]; [|reflexivity].
  destruct (Z.eqb (status_code resp) 200); [|reflexivity].
  destruct (json resp) as [[ | | | | |d]|]; reflexivity.
Qed.

Lemma authenticate_vulnerabilities (email password : string) (st : tester) :
  vulnerabilities (exec (authenticate email password) st)
  = vulnerabilities st.
Proof.
  unfold exec. rewrite authenticate_run.
  destruct (login_outcome _); reflexivity.
Qed.

Lemma reachable_rated (st : tester) :
  reachable st -> Forall rated (vulnerabilities st).
Proof.
  induction 1 as [tok | email password st _ IH | p st _ IH
                 | st _ IH | st _ IH].
  - constructor.
  - now rewrite authenticate_vulnerabilities.
  - eapply effects_keep_rated;
      [apply run_probe_effects | reflexivity | apply probe_found_rated | exact IH].
  - eapply effects_keep_rated;
      [apply run_comprehensive_test_effects | reflexivity
      | apply found_in_order_rated | exact IH].
  - eapply effects_keep_rated;
      [apply generate_report_effects | reflexivity
      | apply found_in_order_rated | exact IH].
Qed.

Lemma rated_counts (vs : list vulnerability) :
  Forall rated vs ->
  count_severity "LOW" vs = 0
  /\ List.length vs
     = count_severity "CRITICAL" vs + count_severity "HIGH" vs
       + count_severity "MEDIUM" vs.
Proof.
  unfold count_severity.
  induction 1 as [|v vs Hv _ [IHlow IHlen]]; [split; reflexivity|].
  cbn [filter List.length].
  destruct Hv as [-> | [-> | ->]]; cbn; rewrite ?IHlow, ?IHlen;
    split; try reflexivity; lia.
Qed.

(** C9.  In every state the tester can reach, no recorded finding is rated
    LOW: each is CRITICAL, HIGH or MEDIUM, and so is every finding a probe
    appends.  So the summary of a full run from such a state has a [low]
    count of zero and a total equal to the sum of the critical, high and
    medium counts. *)
Theorem C9_no_low_findings (st : tester) :
  reachable st ->
  let s := eval run_comprehensive_test st in
  Forall rated (vulnerabilities st)
  /\ (forall p, exists added,
        vulnerabilities (exec (run_probe p) st)
        = (vulnerabilities st ++ added)%list
        /\ Forall rated added)
  /\ Forall rated (summary_vulnerabilities s)
  /\ low (vulnerability_breakdown s) = 0
  /\ total_vulnerabilities s
     = critical (vulnerability_breakdown s) + high (vulnerability_breakdown s)
       + medium (vulnerability_breakdown s).
Proof.
  intros Hreach s.
  assert (Hst : Forall rated (vulnerabilities st))
    by now apply reachable_rated.
  assert (Hrun : Forall rated (vulnerabilities (exec run_comprehensive_test st)))
    by (apply reachable_rated; now constructor).
  assert (Hs : summary_figures s
               = figures (vulnerabilities (exec run_comprehensive_test st))
             /\ summary_vulnerabilities s
                = vulnerabilities (exec run_comprehensive_test st)).
  { subst s. unfold eval, exec. rewrite <- run_probes_in_source_order.
    unfold run_probes_in, bind, summarize, summary_figures, figures.
    destruct (datetime_now st) as [t0 st0].
    destruct (run_probes source_order st0) as [results st1].
    cbn. auto. }
  destruct Hs as [Hfig Hvs].
  unfold summary_figures, figures in Hfig. inversion Hfig as [[Ht Hb Ho]].
  destruct (rated_counts _ Hrun) as [Hlow Hlen].
  rewrite Hvs, Ht, Hb. cbn [low critical high medium].
  split; [exact Hst|]. split; [|repeat split; assumption].
  intros p.
  destruct (run_probe_effects (auth_token st) p st eq_refl)
    as (_ & (added & Hv & HF) & _).
  exists added. split; [exact Hv|].
  apply rated_untimed. rewrite HF. apply probe_found_rated.
Qed.

(* ================================================================== *)
(** ** C6 and C10: the login and the Authorization header *)

Lemma headers_for_falsy (tok : pyval) :
  truthy tok = false ->
  Dict.has_key "Authorization" (headers_for tok) = false.
Proof. intros H. unfold headers_for. rewrite H. reflexivity. Qed.

Lemma headers_for_truthy (tok : pyval) :
  truthy tok = true ->
  Dict.get "Authorization" (headers_for tok) = Some (HBearer tok).
Proof. intros H. unfold headers_for. rewrite H. reflexivity. Qed.

Lemma probe_asked_unauthenticated (p : probe) (tok : pyval) :
  truthy tok = false -> Forall unauthenticated (probe_asked p tok).
Proof.
  intros Htok. pose proof (headers_for_falsy tok Htok) as Hh.
  destruct p; cbn [probe_asked].
  - unfold auth_bypass_asked.
    apply Forall_flat_map, Forall_forall. intros sv _.
    apply Forall_map, Forall_forall. intros ep _. reflexivity.
  - unfold sql_asked.
    apply Forall_flat_map, Forall_forall. intros sv _.
    apply Forall_flat_map, Forall_forall. intros tc _.
    induction sql_payloads as [|q rest IH]; cbn [sql_case_asked].
    + constructor.
    + constructor; [exact Hh|]. destruct (sql_hit _); [constructor | exact IH].
  - unfold xss_asked.
    apply Forall_flat_map, Forall_forall. intros sv _.
    apply Forall_flat_map, Forall_forall. intros ep _.
    apply Forall_map, Forall_forall. intros payload _. exact Hh.
  - unfold business_logic_asked.
    apply Forall_flat_map, Forall_forall. intros sv _.
    unfold business_logic_request.
    destruct (String.eqb (fst sv) "eligibility");
      [repeat constructor; exact Hh|].
    destruct (String.eqb (fst sv) "payment");
      [repeat constructor; exact Hh | constructor].
  - unfold disclosure_asked.
    apply Forall_flat_map, Forall_forall. intros sv _.
    apply Forall_map, Forall_forall. intros ep _. reflexivity.
Qed.

(** Without a usable token, whatever the probes send after a state [st]
    carries no Authorization header. *)
Lemma later_requests_unauthenticated (st : tester) :
  truthy (auth_token st) = false ->
  (forall p, exists R,
      sent (exec (run_probe p) st) = (sent st ++ R)%list
      /\ Forall unauthenticated R)
  /\ (exists R,
      sent (exec run_comprehensive_test st) = (sent st ++ R)%list
      /\ Forall unauthenticated R).
Proof.
  intros Htok. split.
  - intros p. exists (probe_asked p (auth_token st)). split.
    + apply (run_probe_effects (auth_token st) p st eq_refl).
    + now apply probe_asked_unauthenticated.
  - exists (flat_map (fun p => probe_asked p (auth_token st)) source_order).
    split.
    + apply (run_comprehensive_test_effects (auth_token st) st eq_refl).
    + apply Forall_flat_map, Forall_forall. intros p _.
      now apply probe_asked_unauthenticated.
Qed.

(** C6 (amended).  [authenticate] sends exactly one request, the login
    with the credentials to the registration service.  It reports success if and only if the answer has status 200 and a body
    that parses to a JSON object; it then stores the value of the field
    accessToken (None when the field is missing).  In every other case
    (another status, a body that is no JSON object, a failed request) it
    reports failure and leaves the stored token as it was.  The findings
    are never touched.  When no token was stored before a failed login,
    every later probe request carries no Authorization header. *)
Theorem C6_authenticate_contract (email password : string) (st : tester) :
  let req := login_request email password in
  let ok := eval (authenticate email password) st in
  let st' := exec (authenticate email password) st in
  sent st' = (sent st ++ [req])%list
  /\ meth req = POST
  /\ url req = (base_url ++ ":8080") ++ "/api/v1/auth/login"
  /\ json_body req
     = Some (PDict [("email", PStr email); ("password", PStr password)])
  /\ (ok = true <->
      exists resp auth_data,
        http req = Some resp /\ status_code resp = 200%Z
        /\ json resp = Some (PDict auth_data))
  /\ (forall resp auth_data,
        http req = Some resp -> status_code resp = 200%Z ->
        json resp = Some (PDict auth_data) ->
        auth_token st'
        = match Dict.get "accessToken" auth_data with
          | Some v => v | None => PNone
          end)
  /\ (ok = false -> auth_token st' = auth_token st)
  /\ vulnerabilities st' = vulnerabilities st
  /\ (ok = false -> auth_token st = PNone ->
      (forall p, exists R,
          sent (exec (run_probe p) st') = (sent st' ++ R)%list
          /\ Forall unauthenticated R)
      /\ (exists R,
          sent (exec run_comprehensive_test st') = (sent st' ++ R)%list
          /\ Forall unauthenticated R)).
Proof.
  intros req ok st'.
  assert (Hlater : forall s, auth_token s = PNone ->
            (forall p, exists R,
                sent (exec (run_probe p) s) = (sent s ++ R)%list
                /\ Forall unauthenticated R)
            /\ (exists R,
                sent (exec run_comprehensive_test s) = (sent s ++ R)%list
                /\ Forall unauthenticated R)).
  { intros s Hs. apply later_requests_unauthenticated. now rewrite Hs. }
  subst ok st'. unfold eval, exec. rewrite authenticate_run. fold req.
  assert (Hshape : meth req = POST
                   /\ url req = (base_url ++ ":8080") ++ "/api/v1/auth/login"
                   /\ json_body req
                      = Some (PDict [("email", PStr email);
                                     ("password", PStr password)]))
    by (repeat split; reflexivity).
  destruct Hshape as (Hmeth & Hurl & Hbody).
  destruct (login_outcome (http req)) as [tok'|] eqn:Hout;
    cbn [fst snd sent auth_token vulnerabilities].
  - apply login_outcome_some in Hout.
    destruct Hout as (resp & d & Hreq & Hstatus & Hjson & Htok').
    split; [reflexivity|]. split; [exact Hmeth|]. split; [exact Hurl|].
    split; [exact Hbody|]. split.
    { split; [intros _; exists resp, d; auto | reflexivity]. }
    split.
    { intros resp' d' Hreq' _ Hjson'.
      rewrite Hreq in Hreq'. injection Hreq' as <-.
      rewrite Hjson in Hjson'. injection Hjson' as <-. exact Htok'. }
    split; [discriminate|]. split; [reflexivity | discriminate].
  - split; [reflexivity|]. split; [exact Hmeth|]. split; [exact Hurl|].
    split; [exact Hbody|]. split.
    { split; [discriminate|].
      intros (resp & d & Hreq & Hstatus & Hjson).
      rewrite (login_outcome_object _ _ _ Hreq Hstatus Hjson) in Hout.
      discriminate. }
    split.
    { intros resp d Hreq Hstatus Hjson.
      rewrite (login_outcome_object _ _ _ Hreq Hstatus Hjson) in Hout.
      discriminate. }
    split; [reflexivity|]. split; [reflexivity|].
    intros _ Hnone. apply Hlater. exact Hnone.
Qed.

(** C10.  A login answered with status 200 and a JSON object without the
    field accessToken is reported as a success, yet the stored token
    becomes None: [get_headers] then yields no Authorization header, and
    no request of any later probe, or of a full run, carries one. *)
Theorem C10_success_without_token
    (email password : string) (st : tester)
    (resp : response) (auth_data : list (string * pyval)) :
  http (login_request email password) = Some resp ->
  status_code resp = 200%Z ->
  json resp = Some (PDict auth_data) ->
  Dict.get "accessToken" auth_data = None ->
  let st' := exec (authenticate email password) st in
  eval (authenticate email password) st = true
  /\ auth_token st' = PNone
  /\ Dict.has_key "Authorization" (eval (get_headers true) st') = false
  /\ (forall p, exists R,
        sent (exec (run_probe p) st') = (sent st' ++ R)%list
        /\ Forall unauthenticated R)
  /\ (exists R,
        sent (exec run_comprehensive_test st') = (sent st' ++ R)%list
        /\ Forall unauthenticated R).
Proof.
  intros Hreq Hstatus Hjson Hget st'.
  assert (Hrun : authenticate email password st
                 = (true, {| auth_token := PNone;
                             vulnerabilities := vulnerabilities st;
                             clock := clock st;
                             sent := sent st
                                     ++ [login_request email password] |})).
  { rewrite authenticate_run. unfold login_outcome.
    rewrite Hreq, Hstatus, Hjson, Hget. reflexivity. }
  assert (Htok : auth_token st' = PNone).
  { subst st'. unfold exec. now rewrite Hrun. }
  split; [unfold eval; now rewrite Hrun|].
  split; [exact Htok|].
  split.
  { unfold eval, get_headers, get_auth_token, bind. cbn.
    rewrite Htok. reflexivity. }
  apply later_requests_unauthenticated. now rewrite Htok.
Qed.

(* ================================================================== *)
(** ** C5: a failed request is skipped and the probe goes on *)

(** C5.  In each of the five probes, when the request of a triple raises,
    the loop body appends no finding and leaves its counter as it was; the
    SQL probe then goes on with the next payload of the test case.  Each
    probe sends the requests of its whole matrix whatever the answers are
    (for the SQL probe: of every test case, up to its first hit), so no
    failure ends a scan early. *)
Theorem C5_fault_isolation :
  (forall name url ep n st,
      http (auth_bypass_request url ep) = None ->
      vulnerabilities (exec (auth_bypass_step name url ep n) st)
      = vulnerabilities st
      /\ eval (auth_bypass_step name url ep n) st = n)
  /\ (forall name url tc payload rest n st,
      http (sql_request (auth_token st) url tc payload) = None ->
      sql_try_payloads name url tc (payload :: rest) n st
      = sql_try_payloads name url tc rest n
          (exec (send (sql_request (auth_token st) url tc payload)) st)
      /\ sql_case_asked (auth_token st) url tc (payload :: rest)
         = sql_request (auth_token st) url tc payload
           :: sql_case_asked (auth_token st) url tc rest)
  /\ (forall name url ep payload n st,
      http (xss_request (auth_token st) url ep payload) = None ->
      vulnerabilities (exec (xss_step name url ep payload n) st)
      = vulnerabilities st
      /\ eval (xss_step name url ep payload n) st = n)
  /\ (forall sv results st,
      (forall r, In r (business_logic_request (auth_token st) sv) ->
                 http r = None) ->
      vulnerabilities (exec (business_logic_service sv results) st)
      = vulnerabilities st)
  /\ (forall name url ep n st,
      http (disclosure_request url ep) = None ->
      vulnerabilities (exec (disclosure_step name url ep n) st)
      = vulnerabilities st
      /\ eval (disclosure_step name url ep n) st = n)
  /\ (forall st,
      sent (exec test_authentication_bypass st)
      = (sent st ++ auth_bypass_asked)%list
      /\ sent (exec test_sql_injection st)
         = (sent st ++ sql_asked (auth_token st))%list
      /\ sent (exec test_xss_vulnerabilities st)
         = (sent st ++ xss_asked (auth_token st))%list
      /\ sent (exec test_business_logic_flaws st)
         = (sent st ++ business_logic_asked (auth_token st))%list
      /\ sent (exec test_information_disclosure st)
         = (sent st ++ disclosure_asked)%list).
Proof.
  split; [|split; [|split; [|split; [|split]]]].
  - intros name url ep n st H. unfold auth_bypass_step, requests_get.
    unfold exec, eval. run_step.
    fold (auth_bypass_request url ep). rewrite H. split; reflexivity.
  - intros name url tc payload rest n st H. split.
    + cbn [sql_try_payloads]. unfold requests_get, exec. run_step.
      fold (sql_request (auth_token st) url tc payload).
      rewrite H. reflexivity.
    + cbn [sql_case_asked]. unfold sql_hit. now rewrite H.
  - intros name url ep payload n st H. unfold xss_step, requests_post.
    unfold exec, eval. run_step.
    fold (xss_request (auth_token st) url ep payload).
    rewrite H. split; reflexivity.
  - intros [name url] results st H.
    unfold business_logic_service, business_logic_request, requests_post in *.
    cbn [fst snd] in H. unfold exec.
    destruct (String.eqb name "eligibility").
    + run_step. fold (eligibility_request (auth_token st) url).
      rewrite (H (eligibility_request (auth_token st) url)
                 (or_introl eq_refl)).
      reflexivity.
    + destruct (String.eqb name "payment").
      * run_step. fold (payment_request (auth_token st) url).
        rewrite (H (payment_request (auth_token st) url)
                   (or_introl eq_refl)).
        reflexivity.
      * reflexivity.
  - intros name url ep n st H. unfold disclosure_step, requests_get.
    unfold exec, eval. run_step.
    fold (disclosure_request url ep). rewrite H. split; reflexivity.
  - intros st. repeat split.
    + apply (auth_bypass_effects (auth_token st) st eq_refl).
    + apply (sql_effects (auth_token st) st eq_refl).
    + apply (xss_effects (auth_token st) st eq_refl).
    + apply (business_logic_effects (auth_token st) st eq_refl).
    + apply (disclosure_effects (auth_token st) st eq_refl).
Qed.

(* ================================================================== *)
(** ** Facts about strings *)

Lemma append_assoc (a b c : string) : (a ++ b) ++ c = a ++ b ++ c.
Proof. induction a as [|x a IH]; cbn; [reflexivity | now rewrite IH]. Qed.

Lemma prefix_iff (n h : string) :
  String.prefix n h = true <-> exists b, h = n ++ b.
Proof.
  revert h; induction n as [|c n IH]; intros h.
  - cbn. destruct h; split; intros; eauto.
  - destruct h as [|c' h]; cbn.
    + split; [discriminate | intros [b Hb]; discriminate].
    + destruct (Ascii.ascii_dec c c') as [->|Hne].
      * rewrite IH. split; intros [b Hb].
        -- exists b. now rewrite Hb.
        -- exists b. now inversion Hb.
      * split; [discriminate | intros [b Hb]]. inversion Hb. congruence.
Qed.

(** [str_in] decides the occurrence of a substring. *)
Lemma str_in_iff (n h : string) :
  Str.str_in n h = true <-> exists a b, h = a ++ n ++ b.
Proof.
  induction h as [|c h IH].
  - cbn [Str.str_in]. rewrite orb_false_r, prefix_iff. split.
    + intros [b Hb]. exists EmptyString, b. exact Hb.
    + intros [a [b Hb]]. destruct a; cbn in Hb.
      * now exists b.
      * discriminate.
  - cbn [Str.str_in]. rewrite orb_true_iff, prefix_iff, IH. split.
    + intros [[b Hb] | [a [b Hb]]].
      * exists EmptyString, b. exact Hb.
      * exists (String c a), b. cbn. now rewrite Hb.
    + intros [a [b Hb]]. destruct a as [|c' a]; cbn in Hb.
      * left. now exists b.
      * right. inversion Hb. now exists a, b.
Qed.

Lemma str_in_trans (a b c : string) :
  Str.str_in a b = true -> Str.str_in b c = true -> Str.str_in a c = true.
Proof.
  rewrite !str_in_iff. intros (u & v & ->) (x & y & ->).
  exists (x ++ u), (v ++ y). now rewrite !append_assoc.
Qed.

Lemma lower_app (a b : string) :
  Str.lower (a ++ b) = Str.lower a ++ Str.lower b.
Proof. induction a; cbn; congruence. Qed.

(** Lowering the text keeps every occurrence of a lower-case needle. *)
Lemma str_in_lower (n h : string) :
  Str.lower n = n -> Str.str_in n h = true ->
  Str.str_in n (Str.lower h) = true.
Proof.
  intros Hn. rewrite !str_in_iff. intros (a & b & ->).
  exists (Str.lower a), (Str.lower b). now rewrite !lower_app, Hn.
Qed.

Lemma has_char_app (c : ascii) (a b : string) :
  has_char c (a ++ b) = has_char c a || has_char c b.
Proof.
  induction a as [|x a IH]; cbn; [reflexivity|].
  now rewrite IH, orb_assoc.
Qed.

Lemma str_in_has_char (c : ascii) (n h : string) :
  has_char c n = true -> has_char c h = false -> Str.str_in n h = false.
Proof.
  intros Hn Hh. destruct (Str.str_in n h) eqn:E; [|reflexivity].
  apply str_in_iff in E. destruct E as (a & b & ->).
  rewrite !has_char_app, Hn, orb_true_r in Hh. discriminate.
Qed.

(* ================================================================== *)
(** ** Facts about lists of findings *)

Lemma about_app (svc : string) (vs ws : list vulnerability) :
  about svc (vs ++ ws) = (about svc vs ++ about svc ws)%list.
Proof. apply filter_app. Qed.

Lemma about_untimed (svc : string) (vs : list vulnerability) :
  about svc (map untimed vs) = map untimed (about svc vs).
Proof.
  unfold about. induction vs as [|v vs IH]; cbn; [reflexivity|].
  destruct (String.eqb (service v) svc); cbn; now rewrite IH.
Qed.

Lemma about_same (svc : string) (vs : list vulnerability) :
  Forall (fun v => service v = svc) vs -> about svc vs = vs.
Proof.
  unfold about. induction 1 as [|v vs Hv _ IH]; cbn; [reflexivity|].
  now rewrite Hv, String.eqb_refl, IH.
Qed.

Lemma about_other (svc svc' : string) (vs : list vulnerability) :
  svc' <> svc -> Forall (fun v => service v = svc') vs -> about svc vs = [].
Proof.
  intros Hne. unfold about.
  induction 1 as [|v vs Hv _ IH]; cbn; [reflexivity|].
  rewrite Hv. apply String.eqb_neq in Hne. now rewrite Hne.
Qed.

(** Among entries with distinct names, the findings about the name of one
    entry are those its own iteration produced. *)
Lemma about_flat_map (G : string * string -> list vulnerability)
    (l : list (string * string)) (sv : string * string) :
  (forall sv', Forall (fun v => service v = fst sv') (G sv')) ->
  NoDup (map fst l) -> In sv l ->
  about (fst sv) (flat_map G l) = G sv.
Proof.
  intros HG. induction l as [|a l IH]; cbn [flat_map map];
    intros Hnd Hin; [destruct Hin|].
  inversion Hnd as [|? ? Hnotin Hnd']; subst. rewrite about_app.
  assert (Hnone : forall name l', ~ In name (map fst l') ->
                    about name (flat_map G l') = []).
  { intros name l'. induction l' as [|b l' IH']; cbn [flat_map map];
      intros Hn; [reflexivity|].
    rewrite about_app, IH' by (intros H; apply Hn; now right).
    rewrite (about_other name (fst b)); [reflexivity | | apply HG].
    intros H. apply Hn. now left. }
  destruct Hin as [-> | Hin].
  - rewrite (about_same _ _ (HG sv)), (Hnone _ _ Hnotin). apply app_nil_r.
  - rewrite (about_other (fst sv) (fst a)); [now apply IH | | apply HG].
    intros H. apply Hnotin. rewrite H. now apply in_map.
Qed.

(** When one element alone contributes, the whole is its contribution. *)
Lemma flat_map_only {X Y} (G : X -> list Y) (l : list X) (x0 : X) :
  NoDup l -> In x0 l ->
  (forall x, In x l -> x <> x0 -> G x = []) ->
  flat_map G l = G x0.
Proof.
  induction l as [|a l IH]; cbn [flat_map]; intros Hnd Hin Hrest;
    [destruct Hin|].
  inversion Hnd as [|? ? Hnotin Hnd']; subst.
  assert (Hnil : forall l', (forall x, In x l' -> G x = []) ->
                   flat_map G l' = []).
  { induction l' as [|b l' IH']; cbn [flat_map]; intros H; [reflexivity|].
    rewrite (H b (or_introl eq_refl)), IH'; [reflexivity|].
    intros x Hx. apply H. now right. }
  destruct Hin as [-> | Hin].
  - rewrite Hnil; [apply app_nil_r|].
    intros x Hx. apply Hrest; [now right|]. intros ->. contradiction.
  - rewrite (Hrest a (or_introl eq_refl)) by (intros ->; contradiction).
    apply IH; auto. intros x Hx. apply Hrest. now right.
Qed.

Lemma effects_about (tok : pyval) {A} (m : M A) F R (st : tester)
    (svc : string) :
  effects_at tok m F R -> auth_token st = tok ->
  exists added,
    about svc (vulnerabilities (exec m st))
    = (about svc (vulnerabilities st) ++ added)%list
    /\ map untimed added = about svc F.
Proof.
  intros Hm Htok. destruct (Hm st Htok) as (_ & (added & Hv & HF) & _).
  exists (about svc added). rewrite Hv, about_app. split; [reflexivity|].
  rewrite <- HF. symmetry. apply about_untimed.
Qed.

Ltac distinct_entries :=
  repeat constructor; cbn;
  repeat match goal with
         | |- ~ _ => intros H
         | H : _ \/ _ |- _ => destruct H as [H | H]
         | H : False |- _ => destruct H
         | H : _ = _ |- _ => discriminate H
         end.

Lemma services_names_distinct : NoDup (map fst services).
Proof. cbn. distinct_entries. Qed.

Lemma sql_test_cases_distinct : NoDup sql_test_cases.
Proof. unfold sql_test_cases. distinct_entries. Qed.

Lemma xss_test_endpoints_distinct : NoDup xss_test_endpoints.
Proof. unfold xss_test_endpoints. distinct_entries. Qed.

(* ================================================================== *)
(** ** C7: the negative income *)

Lemma business_logic_finding_service (tok : pyval) (sv : string * string) :
  Forall (fun v => service v = fst sv) (business_logic_finding tok sv).
Proof.
  unfold business_logic_finding, eligibility_finding, payment_finding.
  repeat match goal with
         | |- Forall _ (match ?x with _ => _ end) => destruct x
         | |- Forall _ (if ?b then _ else _) => destruct b
         end;
  repeat constructor.
Qed.

(** C7.  The business-logic probe posts monthlyIncome = -50000 to the
    assessments endpoint of the eligibility service.  When that request is
    answered with status 201, exactly one finding is added for the
    eligibility service, and it is HIGH; answered with status 400, none is
    added for it. *)
Theorem C7_negative_income (st : tester) (resp : response) :
  let tok := auth_token st in
  let req := eligibility_request tok (base_url ++ ":8082") in
  let st' := exec test_business_logic_flaws st in
  http req = Some resp ->
  In req (sent st')
  /\ url req = (base_url ++ ":8082") ++ "/api/v1/eligibility/assessments"
  /\ (exists body,
        json_body req = Some (PDict body)
        /\ Dict.get "monthlyIncome" body = Some (PInt (-50000)))
  /\ (status_code resp = 201%Z ->
      exists v,
        about "eligibility" (vulnerabilities st')
        = (about "eligibility" (vulnerabilities st) ++ [v])%list
        /\ untimed v = eligibility_finding "eligibility" resp
        /\ severity v = "HIGH")
  /\ (status_code resp = 400%Z ->
      about "eligibility" (vulnerabilities st')
      = about "eligibility" (vulnerabilities st)).
Proof.
  intros tok req st' Hreq.
  pose proof (business_logic_effects tok) as Heff.
  assert (Habout : about "eligibility" (business_logic_found tok)
                   = if accepted resp
                     then [eligibility_finding "eligibility" resp] else []).
  { unfold business_logic_found.
    pose proof (about_flat_map (business_logic_finding tok) services
                  ("eligibility", base_url ++ ":8082")
                  (business_logic_finding_service tok)
                  services_names_distinct) as H.
    cbn [fst] in H. rewrite H by (cbn; auto).
    unfold business_logic_finding.
    cbn [fst snd String.eqb Ascii.eqb Bool.eqb].
    fold req. now rewrite Hreq. }
  destruct (effects_about tok _ _ _ st "eligibility" Heff eq_refl)
    as (added & Hv & Hadded).
  fold st' in Hv. rewrite Habout in Hadded.
  split; [|split; [reflexivity|split; [|split]]].
  - destruct (Heff st eq_refl) as (_ & _ & Hs). fold st' in Hs.
    rewrite Hs. apply in_or_app. right.
    unfold business_logic_asked, business_logic_request. cbn. auto.
  - eexists. split; reflexivity.
  - intros Hstatus. unfold accepted in Hadded. rewrite Hstatus in Hadded.
    cbn in Hadded.
    destruct added as [|v [|w added]]; try discriminate.
    assert (Hv1 : untimed v = eligibility_finding "eligibility" resp)
      by (cbn [map] in Hadded; congruence).
    exists v. split; [exact Hv|]. split; [exact Hv1|].
    change (severity v) with (severity (untimed v)). now rewrite Hv1.
  - intros Hstatus. unfold accepted in Hadded. rewrite Hstatus in Hadded.
    cbn in Hadded. destruct added; [|discriminate].
    now rewrite Hv, app_nil_r.
Qed.

(* ================================================================== *)
(** ** C3: the SQL-injection probe *)

Lemma sql_errors_lower : Forall (fun e => Str.lower e = e) sql_errors.
Proof. unfold sql_errors. repeat constructor. Qed.

(** A body that contains one of the listed substrings is a hit. *)
Lemma sql_detects_substring (resp : response) (e : string) :
  In e sql_errors -> Str.str_in e (text resp) = true ->
  sql_detects resp = true.
Proof.
  intros He Hin. unfold sql_detects, Str.any.
  apply existsb_exists. exists e. split; [exact He|].
  apply str_in_lower; [|exact Hin].
  pose proof sql_errors_lower as Hl. rewrite Forall_forall in Hl. auto.
Qed.

(** The detector flags exactly the database-error pages. *)
Lemma sql_detects_iff (resp : response) :
  sql_detects resp = true <-> sql_error_page resp.
Proof.
  unfold sql_detects, Str.any, sql_error_page, contains.
  rewrite existsb_exists.
  split; intros (e & He & H); exists e; (split; [exact He|]);
    now apply str_in_iff.
Qed.

(** A request that fails, or whose answer is no database-error page, is
    no hit; and conversely. *)
Lemma draws_no_error_iff (r : request) :
  draws_no_error r <-> sql_hit r = false.
Proof.
  unfold draws_no_error, sql_hit. destruct (http r) as [resp|]; [|tauto].
  rewrite <- sql_detects_iff, not_true_iff_false. tauto.
Qed.

Lemma sql_try_payloads_hit (name url : string) (tc : sql_test_case)
    (pre : list string) (payload : string) (post : list string) (n : nat)
    (resp : response) :
  forall st,
  (forall q, In q pre ->
     sql_hit (sql_request (auth_token st) url tc q) = false) ->
  http (sql_request (auth_token st) url tc payload) = Some resp ->
  sql_detects resp = true ->
  sql_try_payloads name url tc (pre ++ payload :: post) n st
  = (n + 1,
     {| auth_token := auth_token st;
        vulnerabilities :=
          vulnerabilities st
          ++ [stamp (clock st) (sql_finding name tc payload)];
        clock := S (clock st);
        sent := sent st
                ++ map (sql_request (auth_token st) url tc)
                     (pre ++ [payload]) |}).
Proof.
  induction pre as [|q pre IH]; intros st Hpre Hreq Hdet;
    cbn [app sql_try_payloads map]; unfold requests_get; run_step.
  - fold (sql_request (auth_token st) url tc payload).
    rewrite Hreq, Hdet. run_step. reflexivity.
  - fold (sql_request (auth_token st) url tc q).
    pose proof (Hpre q (or_introl eq_refl)) as Hq. unfold sql_hit in Hq.
    set (st1 := {| auth_token := auth_token st;
                   vulnerabilities := vulnerabilities st;
                   clock := clock st;
                   sent := sent st ++ [sql_request (auth_token st) url tc q] |}).
    assert (Hnext : sql_try_payloads name url tc (pre ++ payload :: post) n st1
                    = (n + 1,
                       {| auth_token := auth_token st;
                          vulnerabilities :=
                            vulnerabilities st
                            ++ [stamp (clock st) (sql_finding name tc payload)];
                          clock := S (clock st);
                          sent := sent st
                                  ++ sql_request (auth_token st) url tc q
                                  :: map (sql_request (auth_token st) url tc)
                                       (pre ++ [payload]) |})).
    { rewrite (IH st1); cbn [auth_token vulnerabilities clock sent st1].
      - now rewrite <- app_assoc.
      - intros q' Hq'. apply Hpre. now right.
      - exact Hreq.
      - exact Hdet. }
    destruct (http (sql_request (auth_token st) url tc q)) as [rq|].
    + rewrite Hq. exact Hnext.
    + exact Hnext.
Qed.

Lemma sql_case_first_hit (tok : pyval) (name url : string)
    (tc : sql_test_case) (payload : string) (rest : list string) :
  sql_hit (sql_request tok url tc payload) = true ->
  sql_case_found tok name url tc (payload :: rest)
  = [sql_finding name tc payload]
  /\ sql_case_asked tok url tc (payload :: rest)
     = [sql_request tok url tc payload].
Proof. intros H. cbn. now rewrite H. Qed.

Lemma sql_case_no_hit (tok : pyval) (name url : string)
    (tc : sql_test_case) (payloads : list string) :
  (forall q, sql_hit (sql_request tok url tc q) = false) ->
  sql_case_found tok name url tc payloads = [].
Proof.
  intros H. induction payloads as [|q rest IH]; cbn; [reflexivity|].
  now rewrite H.
Qed.

Lemma sql_case_found_service (tok : pyval) (name url : string)
    (tc : sql_test_case) (payloads : list string) :
  Forall (fun v => service v = name /\ severity v = "CRITICAL")
    (sql_case_found tok name url tc payloads).
Proof.
  induction payloads as [|q rest IH]; cbn [sql_case_found]; [constructor|].
  destruct (sql_hit _); [|exact IH]. repeat constructor.
Qed.

Lemma sql_service_found (tok : pyval) (sv : string * string) :
  Forall (fun v => service v = fst sv /\ severity v = "CRITICAL")
    (flat_map (fun tc => sql_case_found tok (fst sv) (snd sv) tc sql_payloads)
       sql_test_cases).
Proof.
  apply Forall_flat_map, Forall_forall. intros tc _.
  apply sql_case_found_service.
Qed.

(** C3.  (1) Every finding of the SQL-injection probe is CRITICAL.
    (2) The detector flags an answer exactly when its body, lower-cased,
    contains one of the six listed database-error substrings; the status
    code plays no part.
    (3) Within a test case, when the payloads tried first fail or are
    answered with bodies that contain none of the listed substrings, the
    first payload answered with a database-error page is recorded as one
    finding, the counter goes up by one, and the requests sent are those
    of the payloads up to that one: none of the later payloads is tried.
    (4) When the endpoint of one test case of a service answers every
    request with a body containing the words sql syntax error, and the
    requests of the other test cases of that service fail or are answered
    with bodies that contain none of the listed substrings, exactly one
    finding is added for that service, it is CRITICAL, and only the first
    payload was sent to that endpoint. *)
Theorem C3_sql_injection_probe :
  (forall st, exists added,
      vulnerabilities (exec test_sql_injection st)
      = (vulnerabilities st ++ added)%list
      /\ Forall (fun v => severity v = "CRITICAL") added)
  /\ (forall resp, sql_detects resp = true <-> sql_error_page resp)
  /\ (forall name url tc pre payload post n st resp,
      (forall q, In q pre ->
         draws_no_error (sql_request (auth_token st) url tc q)) ->
      http (sql_request (auth_token st) url tc payload) = Some resp ->
      sql_error_page resp ->
      sql_try_payloads name url tc (pre ++ payload :: post) n st
      = (n + 1,
         {| auth_token := auth_token st;
            vulnerabilities :=
              vulnerabilities st
              ++ [stamp (clock st) (sql_finding name tc payload)];
            clock := S (clock st);
            sent := sent st
                    ++ map (sql_request (auth_token st) url tc)
                         (pre ++ [payload]) |}))
  /\ (forall sv tc st,
      In sv services -> In tc sql_test_cases ->
      (forall payload, exists resp,
          http (sql_request (auth_token st) (snd sv) tc payload) = Some resp
          /\ Str.str_in "sql syntax error" (text resp) = true) ->
      (forall tc' payload, In tc' sql_test_cases -> tc' <> tc ->
          draws_no_error
            (sql_request (auth_token st) (snd sv) tc' payload)) ->
      (exists v,
          about (fst sv) (vulnerabilities (exec test_sql_injection st))
          = (about (fst sv) (vulnerabilities st) ++ [v])%list
          /\ severity v = "CRITICAL"
          /\ untimed v = sql_finding (fst sv) tc "' OR '1'='1")
      /\ sql_case_asked (auth_token st) (snd sv) tc sql_payloads
         = [sql_request (auth_token st) (snd sv) tc "' OR '1'='1"]).
Proof.
  split; [|split; [exact sql_detects_iff|split]].
  - intros st.
    destruct (sql_effects (auth_token st) st eq_refl)
      as (_ & (added & Hv & HF) & _).
    exists added. split; [exact Hv|].
    assert (H : Forall (fun v => severity v = "CRITICAL")
                  (sql_found (auth_token st))).
    { unfold sql_found. apply Forall_flat_map, Forall_forall. intros sv _.
      eapply Forall_impl; [|apply sql_service_found]. now intros v [_ H]. }
    rewrite <- HF in H. rewrite Forall_map in H. exact H.
  - intros name url tc pre payload post n st resp Hpre Hreq Hpage.
    apply sql_try_payloads_hit with (resp := resp).
    + intros q Hq. apply draws_no_error_iff. now apply Hpre.
    + exact Hreq.
    + now apply sql_detects_iff.
  - intros sv tc st Hsv Htc Hmock Hothers.
    set (tok := auth_token st) in *.
    assert (Hhit : forall payload,
               sql_hit (sql_request tok (snd sv) tc payload) = true).
    { intros payload. destruct (Hmock payload) as (resp & Hreq & Hin).
      unfold sql_hit. rewrite Hreq.
      apply sql_detects_substring with (e := "sql syntax").
      - cbn. auto.
      - apply str_in_trans with (b := "sql syntax error");
          [reflexivity | exact Hin]. }
    destruct (sql_case_first_hit tok (fst sv) (snd sv) tc
                "' OR '1'='1" (tl sql_payloads) (Hhit _)) as [Hfound Hasked].
    split; [|exact Hasked].
    assert (Habout : about (fst sv) (sql_found tok)
                     = [sql_finding (fst sv) tc "' OR '1'='1"]).
    { unfold sql_found.
      rewrite (about_flat_map
                 (fun sv' => flat_map
                    (fun tc' => sql_case_found tok (fst sv') (snd sv') tc'
                                  sql_payloads) sql_test_cases)
                 services sv); [| |apply services_names_distinct|exact Hsv].
      - rewrite (flat_map_only _ sql_test_cases tc
                   sql_test_cases_distinct Htc); [exact Hfound|].
        intros tc' Htc' Hne. apply sql_case_no_hit.
        intros q. apply draws_no_error_iff. now apply Hothers.
      - intros sv'. eapply Forall_impl; [|apply sql_service_found].
        now intros v [H _]. }
    destruct (effects_about tok _ _ _ st (fst sv) (sql_effects tok) eq_refl)
      as (added & Hv & Hadded).
    rewrite Habout in Hadded.
    destruct added as [|v [|w added]]; try discriminate.
    assert (Hv1 : untimed v = sql_finding (fst sv) tc "' OR '1'='1")
      by (cbn [map] in Hadded; congruence).
    exists v. split; [exact Hv|]. split; [|exact Hv1].
    change (severity v) with (severity (untimed v)). now rewrite Hv1.
Qed.

(* ================================================================== *)
(** ** C4: the XSS probe *)

Lemma xss_detects_iff (payload : string) (resp : response) :
  xss_detects payload resp = true <-> xss_reflected payload resp.
Proof.
  unfold xss_detects, xss_reflected.
  destruct (Z.eqb_spec (status_code resp) 200) as [E|E];
    destruct (Z.eqb_spec (status_code resp) 201) as [E'|E'];
    cbn [orb]; rewrite ?andb_true_iff; intuition (try discriminate; auto).
Qed.

Lemma html_escape_no_lt (s : string) : has_char "<" (html_escape s) = false.
Proof.
  induction s as [|c s IH]; cbn [html_escape]; [reflexivity|].
  rewrite has_char_app, IH, orb_false_r. unfold escape_char.
  destruct (Ascii.eqb c "&"); [reflexivity|].
  destruct (Ascii.eqb c "<") eqn:E; [reflexivity|].
  destruct (Ascii.eqb c ">"); [reflexivity|].
  destruct (Ascii.eqb c (ascii_of_nat 34)); [reflexivity|].
  destruct (Ascii.eqb c "'"); [reflexivity|].
  cbn [has_char]. rewrite orb_false_r, Ascii.eqb_sym. exact E.
Qed.

Lemma xss_escaped_undetected (payload : string) (resp : response)
    (raw : string) :
  text resp = html_escape raw -> xss_detects payload resp = false.
Proof.
  intros H. unfold xss_detects. rewrite H.
  rewrite (str_in_has_char "<" "<script>" (html_escape raw) eq_refl
             (html_escape_no_lt raw)).
  rewrite andb_false_r. now destruct (_ || _).
Qed.

Lemma xss_step_run (name url : string) (ep : xss_endpoint)
    (payload : string) (n : nat) (st : tester) :
  xss_step name url ep payload n st
  = if xss_hit (auth_token st) url ep payload
    then (n + 1,
          {| auth_token := auth_token st;
             vulnerabilities :=
               vulnerabilities st
               ++ [stamp (clock st)
                     (finding name "Cross-Site Scripting (XSS)" "HIGH"
                        ("XSS vulnerability in " ++ xss_url ep)
                        ("Payload reflected without encoding: " ++ payload)
                        "Implement proper input validation and output encoding")];
             clock := S (clock st);
             sent := sent st ++ [xss_request (auth_token st) url ep payload] |})
    else (n,
          {| auth_token := auth_token st;
             vulnerabilities := vulnerabilities st;
             clock := clock st;
             sent := sent st ++ [xss_request (auth_token st) url ep payload] |}).
Proof.
  unfold xss_step, requests_post, xss_hit. run_step.
  fold (xss_request (auth_token st) url ep payload).
  destruct (http (xss_request (auth_token st) url ep payload)) as [resp|];
    [|reflexivity].
  destruct (xss_detects payload resp); [|reflexivity].
  run_step. reflexivity.
Qed.

Lemma xss_finding_hit (tok : pyval) (name url : string) (ep : xss_endpoint)
    (payload : string) :
  xss_finding tok name url ep payload
  = if xss_hit tok url ep payload
    then [ finding name "Cross-Site Scripting (XSS)" "HIGH"
             ("XSS vulnerability in " ++ xss_url ep)
             ("Payload reflected without encoding: " ++ payload)
             "Implement proper input validation and output encoding" ]
    else [].
Proof.
  unfold xss_finding, xss_hit.
  destruct (http (xss_request tok url ep payload)) as [resp|]; reflexivity.
Qed.

Lemma xss_found_high (tok : pyval) :
  Forall (fun v => severity v = "HIGH") (xss_found tok).
Proof.
  unfold xss_found.
  apply Forall_flat_map, Forall_forall. intros sv _.
  apply Forall_flat_map, Forall_forall. intros ep _.
  apply Forall_flat_map, Forall_forall. intros payload _.
  rewrite xss_finding_hit. destruct (xss_hit _ _ _ _); repeat constructor.
Qed.

Lemma flat_map_nil {X Y} (G : X -> list Y) (l : list X) :
  (forall x, In x l -> G x = []) -> flat_map G l = [].
Proof.
  induction l as [|a l IH]; cbn [flat_map]; intros H; [reflexivity|].
  rewrite (H a (or_introl eq_refl)), IH; [reflexivity|].
  intros x Hx. apply H. now right.
Qed.

Lemma echo_hits {Y} (f : string -> list Y) :
  flat_map (fun q => if echo_hit q then f q else []) xss_payloads
  = f script_payload.
Proof.
  unfold xss_payloads. cbn [flat_map].
  repeat match goal with
         | |- context [echo_hit ?q] =>
             let b := eval vm_compute in (echo_hit q) in
             change (echo_hit q) with b
         end.
  cbn [app]. apply app_nil_r.
Qed.

(** C4.  (1) For one triple, the XSS probe records a finding exactly when
    the answer has status 200 or 201 and its body contains both the
    payload as sent and the marker <script>; the finding is HIGH.
    (2) Every finding of the probe is HIGH.
    (3) When one endpoint of one service answers every request with status
    201 and the body <script>alert(XSS)</script> (with the quotes of the
    first payload), and no other answer reflects a payload, exactly one
    finding is added, and it is HIGH.
    (4) When every answer carries an HTML-escaped body, in particular the
    escaped payload, nothing is added. *)
Theorem C4_xss_probe :
  (forall name url ep payload n st,
      let req := xss_request (auth_token st) url ep payload in
      ((exists resp, http req = Some resp /\ xss_reflected payload resp) ->
       xss_step name url ep payload n st
       = (n + 1,
          {| auth_token := auth_token st;
             vulnerabilities :=
               vulnerabilities st
               ++ [stamp (clock st) (xss_high_finding name ep payload)];
             clock := S (clock st);
             sent := sent st ++ [req] |}))
      /\ (~ (exists resp, http req = Some resp /\ xss_reflected payload resp) ->
          xss_step name url ep payload n st
          = (n,
             {| auth_token := auth_token st;
                vulnerabilities := vulnerabilities st;
                clock := clock st;
                sent := sent st ++ [req] |})))
  /\ (forall st, exists added,
        vulnerabilities (exec test_xss_vulnerabilities st)
        = (vulnerabilities st ++ added)%list
        /\ Forall (fun v => severity v = "HIGH") added)
  /\ (forall sv ep st,
        In sv services -> In ep xss_test_endpoints ->
        (forall payload, exists resp,
            http (xss_request (auth_token st) (snd sv) ep payload) = Some resp
            /\ status_code resp = 201%Z
            /\ text resp = script_payload) ->
        (forall sv' ep' payload,
            In sv' services -> In ep' xss_test_endpoints ->
            (sv', ep') <> (sv, ep) ->
            xss_hit (auth_token st) (snd sv') ep' payload = false) ->
        exists v,
          vulnerabilities (exec test_xss_vulnerabilities st)
          = (vulnerabilities st ++ [v])%list
          /\ severity v = "HIGH"
          /\ untimed v = xss_high_finding (fst sv) ep script_payload)
  /\ (forall st,
        (forall r resp, http r = Some resp ->
                        exists raw, text resp = html_escape raw) ->
        vulnerabilities (exec test_xss_vulnerabilities st) = vulnerabilities st)
  /\ (forall payload status body,
        xss_detects payload
          {| status_code := status; text := html_escape payload;
             json := body |} = false).
Proof.
  split; [|split; [|split; [|split]]].
  - intros name url ep payload n st req. rewrite xss_step_run. fold req.
    unfold xss_hit. fold req. split.
    + intros (resp & Hreq & Hrefl). rewrite Hreq.
      apply xss_detects_iff in Hrefl. now rewrite Hrefl.
    + intros Hno. destruct (http req) as [resp|]; [|reflexivity].
      destruct (xss_detects payload resp) eqn:E; [|reflexivity].
      exfalso. apply Hno. exists resp. split; [reflexivity|].
      now apply xss_detects_iff.
  - intros st.
    destruct (xss_effects (auth_token st) st eq_refl)
      as (_ & (added & Hv & HF) & _).
    exists added. split; [exact Hv|].
    pose proof (xss_found_high (auth_token st)) as H.
    rewrite <- HF, Forall_map in H. exact H.
  - intros sv ep st Hsv Hep Hmock Hothers.
    set (tok := auth_token st) in *.
    assert (Hhit : forall q, xss_hit tok (snd sv) ep q = echo_hit q).
    { intros q. destruct (Hmock q) as (resp & Hreq & Hstatus & Htext).
      unfold xss_hit, xss_detects, echo_hit.
      now rewrite Hreq, Hstatus, Htext. }
    assert (Hfound : xss_found tok = [xss_high_finding (fst sv) ep script_payload]).
    { unfold xss_found.
      rewrite (flat_map_only _ services sv
                 (NoDup_map_inv _ _ services_names_distinct) Hsv).
      - rewrite (flat_map_only _ xss_test_endpoints ep
                   xss_test_endpoints_distinct Hep).
        + assert (Hpay : forall l,
                    flat_map (xss_finding tok (fst sv) (snd sv) ep) l
                    = flat_map (fun q => if echo_hit q
                                         then [xss_high_finding (fst sv) ep q]
                                         else []) l).
          { intros l. apply flat_map_ext. intros q.
            now rewrite xss_finding_hit, Hhit. }
          rewrite Hpay. apply echo_hits.
        + intros ep' Hep' Hne. apply flat_map_nil. intros q _.
          rewrite xss_finding_hit, Hothers; auto. congruence.
      - intros sv' Hsv' Hne. apply flat_map_nil. intros ep' Hep'.
        apply flat_map_nil. intros q _.
        rewrite xss_finding_hit, Hothers; auto. congruence. }
    destruct (xss_effects tok st eq_refl) as (_ & (added & Hv & HF) & _).
    rewrite Hfound in HF.
    destruct added as [|v [|w added]]; try discriminate.
    assert (Hv1 : untimed v = xss_high_finding (fst sv) ep script_payload)
      by (cbn [map] in HF; congruence).
    exists v. split; [exact Hv|]. split; [|exact Hv1].
    change (severity v) with (severity (untimed v)). now rewrite Hv1.
  - intros st Hesc.
    destruct (xss_effects (auth_token st) st eq_refl)
      as (_ & (added & Hv & HF) & _).
    assert (Hfound : xss_found (auth_token st) = []).
    { unfold xss_found.
      apply flat_map_nil. intros sv _. apply flat_map_nil. intros ep _.
      apply flat_map_nil. intros q _. rewrite xss_finding_hit.
      unfold xss_hit.
      destruct (http (xss_request (auth_token st) (snd sv) ep q))
        as [resp|] eqn:Hreq; [|reflexivity].
      destruct (Hesc _ _ Hreq) as (raw & Hraw).
      now rewrite (xss_escaped_undetected q resp raw Hraw). }
    rewrite Hfound in HF. destruct added; [|discriminate].
    now rewrite Hv, app_nil_r.
  - intros payload status body.
    now apply xss_escaped_undetected with (raw := payload).
Qed.

(* ================================================================== *)
(** ** Further properties of the scanner *)

(** *** What the probes return *)

Lemma for_each_count (tok : pyval) {X} (body : X -> nat -> M nat)
    (F : X -> list vulnerability) :
  (forall x n st, auth_token st = tok ->
                  auth_token (exec (body x n) st) = tok) ->
  (forall x n, returns tok (body x n) (n + List.length (F x))) ->
  forall l n,
    returns tok (for_each l body n) (n + List.length (flat_map F l)).
Proof.
  intros Heff Hval l. induction l as [|x l IH]; intros n st Htok;
    cbn [for_each flat_map].
  - cbn. lia.
  - rewrite eval_bind, (Hval x n st Htok).
    rewrite (IH _ _ (Heff x n st Htok)), length_app. lia.
Qed.

Lemma for_each_fold (tok : pyval) {A X} (body : X -> A -> M A)
    (f : A -> X -> A) :
  (forall x a st, auth_token st = tok ->
                  auth_token (exec (body x a) st) = tok) ->
  (forall x a, returns tok (body x a) (f a x)) ->
  forall l a, returns tok (for_each l body a) (fold_left f l a).
Proof.
  intros Heff Hval l. induction l as [|x l IH]; intros a st Htok;
    cbn [for_each fold_left].
  - reflexivity.
  - rewrite eval_bind, (Hval x a st Htok).
    now rewrite (IH _ _ (Heff x a st Htok)).
Qed.

Lemma returns_then_ret (tok : pyval) {A B} (m : M A) (f : A -> B) (a : A) :
  returns tok m a -> returns tok (x <- m ;; ret (f x)) (f a).
Proof. intros Hm st Htok. rewrite eval_bind, (Hm st Htok). reflexivity. Qed.

Lemma auth_bypass_step_returns (tok : pyval) (name url ep : string) (n : nat) :
  returns tok (auth_bypass_step name url ep n)
    (n + List.length (auth_bypass_finding name url ep)).
Proof.
  intros st _. unfold auth_bypass_step, requests_get, auth_bypass_finding, eval.
  run_step. fold (auth_bypass_request url ep).
  destruct (http (auth_bypass_request url ep)) as [resp|]; [|cbn; lia].
  destruct (auth_bypass_detects resp); [|cbn; lia].
  run_step. reflexivity.
Qed.

Lemma sql_try_payloads_returns (tok : pyval) (name url : string)
    (tc : sql_test_case) (payloads : list string) (n : nat) :
  returns tok (sql_try_payloads name url tc payloads n)
    (n + List.length (sql_case_found tok name url tc payloads)).
Proof.
  induction payloads as [|p rest IH]; intros st Htok;
    cbn [sql_try_payloads sql_case_found].
  - cbn. lia.
  - subst tok. unfold requests_get, eval. run_step.
    fold (sql_request (auth_token st) url tc p). unfold sql_hit.
    destruct (http (sql_request (auth_token st) url tc p)) as [resp|].
    + destruct (sql_detects resp).
      * run_step. reflexivity.
      * apply IH. reflexivity.
    + apply IH. reflexivity.
Qed.

Lemma xss_step_returns (tok : pyval) (name url : string) (ep : xss_endpoint)
    (payload : string) (n : nat) :
  returns tok (xss_step name url ep payload n)
    (n + List.length (xss_finding tok name url ep payload)).
Proof.
  intros st Htok. unfold eval. rewrite xss_step_run, xss_finding_hit, Htok.
  destruct (xss_hit tok url ep payload); cbn; lia.
Qed.

Lemma disclosure_step_returns (tok : pyval) (name url ep : string) (n : nat) :
  returns tok (disclosure_step name url ep n)
    (n + List.length (disclosure_finding name url ep)).
Proof.
  intros st _. unfold disclosure_step, requests_get, disclosure_finding, eval.
  run_step. fold (disclosure_request url ep).
  destruct (http (disclosure_request url ep)) as [resp|]; [|cbn; lia].
  destruct (disclosure_detects resp); [|cbn; lia].
  run_step. reflexivity.
Qed.

Lemma effects_keep_token (tok : pyval) {A} (m : M A) F R (st : tester) :
  effects_at tok m F R -> auth_token st = tok ->
  auth_token (exec m st) = tok.
Proof. intros Hm Htok. exact (proj1 (Hm st Htok)). Qed.

Lemma probe_service_returns (p : probe) (tok : pyval) (sv : string * string)
    (results : list (string * pyval)) :
  returns tok (probe_service p sv results)
    (Dict.set (fst sv)
       (tally (counter_key p) (List.length (service_found p tok sv)))
       results).
Proof.
  destruct sv as [name url].
  destruct p; cbn [probe_service counter_key service_found fst snd].
  - unfold auth_bypass_service.
    apply returns_then_ret with
      (f := fun n => Dict.set name (tally "bypass_attempts" n) results).
    apply (for_each_count tok (auth_bypass_step name url)
             (auth_bypass_finding name url)).
    + intros ep n st Htok.
      exact (effects_keep_token _ _ _ _ _
               (auth_bypass_step_effects tok name url ep n) Htok).
    + intros ep n. apply auth_bypass_step_returns.
  - unfold sql_service.
    apply returns_then_ret with
      (f := fun n => Dict.set name (tally "vulnerable_endpoints" n) results).
    apply (for_each_count tok
             (fun tc => sql_try_payloads name url tc sql_payloads)
             (fun tc => sql_case_found tok name url tc sql_payloads)).
    + intros tc n st Htok.
      exact (effects_keep_token _ _ _ _ _
               (sql_try_payloads_effects tok name url tc sql_payloads n) Htok).
    + intros tc n. apply sql_try_payloads_returns.
  - unfold xss_service.
    apply returns_then_ret with
      (f := fun n => Dict.set name (tally "vulnerable_fields" n) results).
    apply (for_each_count tok
             (fun ep => for_each xss_payloads (xss_step name url ep))
             (fun ep => flat_map (xss_finding tok name url ep) xss_payloads)).
    + intros ep n st Htok.
      refine (effects_keep_token _ _ _ _ _ _ Htok).
      apply eff_for_each with
        (F := xss_finding tok name url ep)
        (R := fun q => [xss_request tok url ep q]).
      intros q m. apply xss_step_effects.
    + intros ep n.
      apply (for_each_count tok (xss_step name url ep)
               (xss_finding tok name url ep)).
      * intros q m st Htok.
        exact (effects_keep_token _ _ _ _ _
                 (xss_step_effects tok name url ep q m) Htok).
      * intros q m. apply xss_step_returns.
  - intros st Htok. subst tok.
    unfold business_logic_service, business_logic_finding, requests_post, eval.
    cbn [fst snd].
    destruct (String.eqb name "eligibility").
    + run_step. fold (eligibility_request (auth_token st) url).
      destruct (http (eligibility_request (auth_token st) url)) as [resp|];
        [|reflexivity].
      destruct (accepted resp); [|reflexivity].
      run_step. reflexivity.
    + destruct (String.eqb name "payment").
      * run_step. fold (payment_request (auth_token st) url).
        destruct (http (payment_request (auth_token st) url)) as [resp|];
          [|reflexivity].
        destruct (accepted resp); [|reflexivity].
        run_step. reflexivity.
      * reflexivity.
  - unfold disclosure_service.
    apply returns_then_ret with
      (f := fun n => Dict.set name (tally "disclosure_issues" n) results).
    apply (for_each_count tok (disclosure_step name url)
             (disclosure_finding name url)).
    + intros ep n st Htok.
      exact (effects_keep_token _ _ _ _ _
               (disclosure_step_effects tok name url ep n) Htok).
    + intros ep n. apply disclosure_step_returns.
Qed.

Lemma probe_service_keeps_token (p : probe) (tok : pyval)
    (sv : string * string) (results : list (string * pyval)) (st : tester) :
  auth_token st = tok ->
  auth_token (exec (probe_service p sv results) st) = tok.
Proof.
  intros Htok. destruct p; cbn [probe_service].
  - exact (effects_keep_token _ _ _ _ _
             (auth_bypass_service_effects tok sv results) Htok).
  - exact (effects_keep_token _ _ _ _ _
             (sql_service_effects tok sv results) Htok).
  - exact (effects_keep_token _ _ _ _ _
             (xss_service_effects tok sv results) Htok).
  - exact (effects_keep_token _ _ _ _ _
             (business_logic_service_effects tok sv results) Htok).
  - exact (effects_keep_token _ _ _ _ _
             (disclosure_service_effects tok sv results) Htok).
Qed.

Lemma run_probe_by_service (p : probe) :
  run_probe p = for_each services (probe_service p) [].
Proof. destruct p; reflexivity. Qed.

Lemma probe_found_by_service (p : probe) (tok : pyval) :
  probe_found p tok = flat_map (service_found p tok) services.
Proof. destruct p; reflexivity. Qed.

Lemma service_found_names (p : probe) (tok : pyval) (sv : string * string) :
  Forall (fun v => service v = fst sv) (service_found p tok sv).
Proof.
  destruct p; cbn [service_found].
  - apply Forall_flat_map, Forall_forall. intros ep _.
    unfold auth_bypass_finding.
    destruct (http _) as [resp|]; [|constructor].
    destruct (auth_bypass_detects resp); repeat constructor.
  - eapply Forall_impl; [|apply sql_service_found]. now intros v [H _].
  - apply Forall_flat_map, Forall_forall. intros ep _.
    apply Forall_flat_map, Forall_forall. intros q _.
    rewrite xss_finding_hit. destruct (xss_hit _ _ _ _); repeat constructor.
  - apply business_logic_finding_service.
  - apply Forall_flat_map, Forall_forall. intros ep _.
    unfold disclosure_finding.
    destruct (http _) as [resp|]; [|constructor].
    destruct (disclosure_detects resp); repeat constructor.
Qed.

(** The findings a probe appended for one service of the table are those
    of the iteration for that service. *)
Lemma added_about_service (p : probe) (st : tester)
    (added : list vulnerability) (sv : string * string) :
  map untimed added = probe_found p (auth_token st) ->
  In sv services ->
  map untimed (about (fst sv) added) = service_found p (auth_token st) sv.
Proof.
  intros HF Hsv. rewrite <- about_untimed, HF, probe_found_by_service.
  apply about_flat_map;
    [apply service_found_names | apply services_names_distinct | exact Hsv].
Qed.

Lemma probe_results_by_service (p : probe) (st : tester) :
  eval (run_probe p) st
  = map (fun sv : string * string =>
           (fst sv,
            tally (counter_key p)
              (List.length (service_found p (auth_token st) sv))))
      services.
Proof.
  rewrite run_probe_by_service.
  rewrite (for_each_fold (auth_token st) (probe_service p)
             (fun res sv =>
                Dict.set (fst sv)
                  (tally (counter_key p)
                     (List.length (service_found p (auth_token st) sv)))
                  res)
             (fun sv res s H => probe_service_keeps_token p _ sv res s H)
             (fun sv res => probe_service_returns p _ sv res)
             services [] st eq_refl).
  reflexivity.
Qed.

(** X1.  Each probe returns one entry for every service, in the order of
    the service table.  The counter of an entry is the number of findings
    the probe appended for that service in this run, and the status of the
    entry is VULNERABLE exactly when that number is positive. *)
Theorem probe_results_match_findings (p : probe) (st : tester) :
  exists added,
    vulnerabilities (exec (run_probe p) st)
    = (vulnerabilities st ++ added)%list
    /\ eval (run_probe p) st
       = map (fun sv : string * string =>
                (fst sv,
                 PDict
                   [ (counter_key p,
                      PInt (Z.of_nat (List.length (about (fst sv) added))));
                     ("status",
                      PStr (if (0 <? List.length (about (fst sv) added))%nat
                            then "VULNERABLE" else "SECURE")) ]))
           services.
Proof.
  destruct (run_probe_effects (auth_token st) p st eq_refl)
    as (_ & (added & Hv & HF) & _).
  exists added. split; [exact Hv|].
  rewrite probe_results_by_service.
  apply map_ext_in. intros sv Hsv. unfold tally.
  rewrite <- (added_about_service p st added sv HF Hsv), length_map.
  reflexivity.
Qed.

(** *** The summary of a full run *)

Lemma run_comprehensive_test_summary (st : tester) :
  let s := eval run_comprehensive_test st in
  let st' := exec run_comprehensive_test st in
  summary_vulnerabilities s = vulnerabilities st'
  /\ summary_figures s = figures (vulnerabilities st')
  /\ services_tested s = 7
  /\ test_results s
     = [ ("authentication_bypass",
          PDict (eval test_authentication_bypass (exec datetime_now st)));
         ("sql_injection",
          PDict (eval test_sql_injection
                   (exec test_authentication_bypass (exec datetime_now st))));
         ("xss_vulnerabilities",
          PDict (eval test_xss_vulnerabilities
                   (exec test_sql_injection
                      (exec test_authentication_bypass
                         (exec datetime_now st)))));
         ("business_logic_flaws",
          PDict (eval test_business_logic_flaws
                   (exec test_xss_vulnerabilities
                      (exec test_sql_injection
                         (exec test_authentication_bypass
                            (exec datetime_now st))))));
         ("information_disclosure",
          PDict (eval test_information_disclosure
                   (exec test_business_logic_flaws
                      (exec test_xss_vulnerabilities
                         (exec test_sql_injection
                            (exec test_authentication_bypass
                               (exec datetime_now st))))))) ].
Proof.
  unfold run_comprehensive_test, eval, exec, bind, summarize,
    summary_figures, figures.
  destruct (datetime_now st) as [t0 st0]. cbn [fst snd].
  destruct (test_authentication_bypass st0) as [r1 st1]. cbn [fst snd].
  destruct (test_sql_injection st1) as [r2 st2]. cbn [fst snd].
  destruct (test_xss_vulnerabilities st2) as [r3 st3]. cbn [fst snd].
  destruct (test_business_logic_flaws st3) as [r4 st4]. cbn [fst snd].
  destruct (test_information_disclosure st4) as [r5 st5]. cbn.
  repeat split; reflexivity.
Qed.

Lemma severity_counts_le_length (vs : list vulnerability) :
  count_severity "CRITICAL" vs + count_severity "HIGH" vs
  + count_severity "MEDIUM" vs + count_severity "LOW" vs
  <= List.length vs.
Proof.
  unfold count_severity.
  induction vs as [|v vs IH]; cbn [filter List.length]; [lia|].
  destruct (string_dec (severity v) "CRITICAL") as [E|E];
    [rewrite E; cbn; lia|].
  destruct (string_dec (severity v) "HIGH") as [E1|E1];
    [rewrite E1; cbn; lia|].
  destruct (string_dec (severity v) "MEDIUM") as [E2|E2];
    [rewrite E2; cbn; lia|].
  apply String.eqb_neq in E, E1, E2. rewrite E, E1, E2.
  destruct (String.eqb (severity v) "LOW"); cbn [List.length]; lia.
Qed.

Lemma run_summary_findings (st : tester) :
  let s := eval run_comprehensive_test st in
  let st' := exec run_comprehensive_test st in
  summary_vulnerabilities s = vulnerabilities st'
  /\ total_vulnerabilities s = List.length (vulnerabilities st')
  /\ overall_security_status s = overall_status (vulnerabilities st').
Proof.
  intros s st'.
  destruct (run_comprehensive_test_summary st) as (Hvs & Hfig & _).
  fold s st' in Hvs, Hfig.
  unfold summary_figures, figures in Hfig. inversion Hfig as [[Ht Hb Ho]].
  auto.
Qed.

Lemma probe_result_keys (p : probe) (st : tester) :
  map fst (eval (run_probe p) st) = map fst services.
Proof.
  rewrite probe_results_by_service, map_map. reflexivity.
Qed.

(** X2.  The summary of a full run describes the tester as the run left
    it: it carries the whole list of findings, the total is the length of
    that list, the four counters count its severities and never exceed the
    total together, the status is the one [get_overall_security_status]
    gives, seven services are reported, and the detailed results have one
    dictionary for each probe, in the order of the calls, each with one
    entry for every service. *)
Theorem summary_describes_tester (st : tester) :
  let s := eval run_comprehensive_test st in
  let st' := exec run_comprehensive_test st in
  summary_vulnerabilities s = vulnerabilities st'
  /\ total_vulnerabilities s = List.length (vulnerabilities st')
  /\ critical (vulnerability_breakdown s)
     = count_severity "CRITICAL" (vulnerabilities st')
  /\ high (vulnerability_breakdown s)
     = count_severity "HIGH" (vulnerabilities st')
  /\ medium (vulnerability_breakdown s)
     = count_severity "MEDIUM" (vulnerabilities st')
  /\ low (vulnerability_breakdown s)
     = count_severity "LOW" (vulnerabilities st')
  /\ critical (vulnerability_breakdown s) + high (vulnerability_breakdown s)
     + medium (vulnerability_breakdown s) + low (vulnerability_breakdown s)
     <= total_vulnerabilities s
  /\ overall_security_status s = eval get_overall_security_status st'
  /\ services_tested s = List.length services
  /\ map fst (test_results s) = map probe_key source_order
  /\ Forall (fun entry =>
               exists d, snd entry = PDict d
                         /\ map fst d = map fst services)
       (test_results s).
Proof.
  intros s st'.
  destruct (run_comprehensive_test_summary st) as (Hvs & Hfig & Hn & Hres).
  fold s st' in Hvs, Hfig, Hres, Hn.
  unfold summary_figures, figures in Hfig. inversion Hfig as [[Ht Hb Ho]].
  rewrite Hb, Hres. cbn [critical high medium low].
  repeat split; try reflexivity; try assumption.
  - rewrite Ht. apply severity_counts_le_length.
  - repeat constructor; eexists; (split; [reflexivity|]).
    + apply (probe_result_keys AuthBypass).
    + apply (probe_result_keys SqlInjection).
    + apply (probe_result_keys Xss).
    + apply (probe_result_keys BusinessLogic).
    + apply (probe_result_keys InfoDisclosure).
Qed.

(** X3.  A full run appends its findings grouped by probe, in the order
    of the calls (authentication bypass, SQL injection, XSS, business
    logic, information disclosure), and sends its requests in the same
    grouping; it keeps the findings and requests that were there, and the
    token. *)
Theorem full_run_groups_by_probe (st : tester) :
  let tok := auth_token st in
  let st' := exec run_comprehensive_test st in
  auth_token st' = tok
  /\ (exists added,
        vulnerabilities st' = (vulnerabilities st ++ added)%list
        /\ map untimed added
           = (auth_bypass_found ++ sql_found tok ++ xss_found tok
              ++ business_logic_found tok ++ disclosure_found)%list)
  /\ sent st'
     = (sent st
        ++ auth_bypass_asked ++ sql_asked tok ++ xss_asked tok
        ++ business_logic_asked tok ++ disclosure_asked)%list.
Proof.
  intros tok st'.
  destruct (run_comprehensive_test_effects tok st eq_refl)
    as (Htok & (added & Hv & HF) & Hs).
  cbn [flat_map source_order probe_found probe_asked] in HF, Hs.
  rewrite app_nil_r in HF, Hs.
  split; [exact Htok|]. split; [|exact Hs].
  exists added. split; [exact Hv | exact HF].
Qed.

(** *** Operations in sequence *)

Lemma main_exec (email password : string) (st : tester) :
  exec (main email password) st
  = exec generate_report (exec (authenticate email password) st).
Proof. unfold main. now rewrite exec_bind. Qed.

Lemma main_eval (email password : string) (st : tester) :
  eval (main email password) st
  = eval generate_report (exec (authenticate email password) st).
Proof. unfold main. now rewrite eval_bind. Qed.

Lemma authenticate_sent (email password : string) (st : tester) :
  sent (exec (authenticate email password) st)
  = (sent st ++ [login_request email password])%list.
Proof.
  unfold exec. rewrite authenticate_run.
  destruct (login_outcome _); reflexivity.
Qed.

Lemma perform_appends (op : operation) (st : tester) :
  exists added,
    vulnerabilities (perform op st) = (vulnerabilities st ++ added)%list.
Proof.
  destruct op as [email password | p | | | email password]; cbn [perform].
  - exists []. now rewrite authenticate_vulnerabilities, app_nil_r.
  - destruct (run_probe_effects (auth_token st) p st eq_refl)
      as (_ & (added & Hv & _) & _). now exists added.
  - destruct (run_comprehensive_test_effects (auth_token st) st eq_refl)
      as (_ & (added & Hv & _) & _). now exists added.
  - destruct (generate_report_effects (auth_token st) st eq_refl)
      as (_ & (added & Hv & _) & _). now exists added.
  - rewrite main_exec.
    set (st1 := exec (authenticate email password) st).
    destruct (generate_report_effects (auth_token st1) st1 eq_refl)
      as (_ & (added & Hv & _) & _).
    exists added. rewrite Hv. unfold st1.
    now rewrite authenticate_vulnerabilities.
Qed.

(** X4.  No operation of the tester removes or alters what was recorded:
    after a login, a probe, a full run, a report or the whole of [main],
    the findings and the requests sent so far are still there, in front of
    what the operation added.  Only a login (alone or inside [main]) can
    change the stored token. *)
Theorem operations_only_append (op : operation) (st : tester) :
  (exists added,
      vulnerabilities (perform op st) = (vulnerabilities st ++ added)%list)
  /\ (exists R, sent (perform op st) = (sent st ++ R)%list)
  /\ match op with
     | Login _ _ | Main _ _ => True
     | _ => auth_token (perform op st) = auth_token st
     end.
Proof.
  split; [apply perform_appends|].
  destruct op as [email password | p | | | email password]; cbn [perform].
  - split; [exists [login_request email password]|exact I].
    apply authenticate_sent.
  - destruct (run_probe_effects (auth_token st) p st eq_refl)
      as (Ht & _ & Hs).
    split; [eexists; exact Hs | exact Ht].
  - destruct (run_comprehensive_test_effects (auth_token st) st eq_refl)
      as (Ht & _ & Hs).
    split; [eexists; exact Hs | exact Ht].
  - destruct (generate_report_effects (auth_token st) st eq_refl)
      as (Ht & _ & Hs).
    split; [eexists; exact Hs | exact Ht].
  - rewrite main_exec.
    set (st1 := exec (authenticate email password) st).
    destruct (generate_report_effects (auth_token st1) st1 eq_refl)
      as (_ & _ & Hs).
    split; [|exact I].
    eexists. rewrite Hs. unfold st1.
    rewrite authenticate_sent, <- app_assoc. reflexivity.
Qed.

Lemma risk_rank_app (vs ws : list vulnerability) :
  risk_rank (overall_status vs) <= risk_rank (overall_status (vs ++ ws)).
Proof.
  unfold overall_status. rewrite !count_severity_app.
  set (c := count_severity "CRITICAL" vs).
  set (c' := count_severity "CRITICAL" ws).
  set (h := count_severity "HIGH" vs).
  set (h' := count_severity "HIGH" ws).
  destruct (Nat.ltb_spec 0 c), (Nat.ltb_spec 0 (c + c')),
    (Nat.ltb_spec 3 h), (Nat.ltb_spec 3 (h + h')),
    (Nat.ltb_spec 0 h), (Nat.ltb_spec 0 (h + h'));
    cbn; lia.
Qed.

(** X5.  The overall status never gets better by running an operation:
    in the order LOW_RISK, MEDIUM_RISK, HIGH_RISK, CRITICAL_RISK, the
    status after a login, a probe, a full run, a report or [main] is at
    least the status before. *)
Theorem status_never_improves (op : operation) (st : tester) :
  risk_rank (eval get_overall_security_status st)
  <= risk_rank (eval get_overall_security_status (perform op st)).
Proof.
  destruct (perform_appends op st) as (added & Hv).
  unfold eval, get_overall_security_status. cbn [fst]. rewrite Hv.
  apply risk_rank_app.
Qed.

(** X6.  The list of findings is never reset.  A second full run on the
    same tester and the same network finds again what the first run found
    and reports both: its summary lists the findings that were there
    before, those of the first run, and the same findings once more. *)
Theorem second_run_reports_twice (st : tester) :
  let s1 := eval run_comprehensive_test st in
  let st1 := exec run_comprehensive_test st in
  let s2 := eval run_comprehensive_test st1 in
  exists added again,
    summary_vulnerabilities s1 = (vulnerabilities st ++ added)%list
    /\ summary_vulnerabilities s2
       = (vulnerabilities st ++ added ++ again)%list
    /\ map untimed again = map untimed added
    /\ total_vulnerabilities s1
       = List.length (vulnerabilities st) + List.length added
    /\ total_vulnerabilities s2
       = List.length (vulnerabilities st) + 2 * List.length added.
Proof.
  intros s1 st1 s2.
  destruct (run_comprehensive_test_effects (auth_token st) st eq_refl)
    as (Ht & (added & Hv & HF) & _).
  fold st1 in Ht, Hv.
  destruct (run_comprehensive_test_effects (auth_token st) st1 Ht)
    as (_ & (again & Hv2 & HF2) & _).
  destruct (run_summary_findings st) as (Hs1 & Ht1 & _).
  destruct (run_summary_findings st1) as (Hs2 & Ht2 & _).
  fold s1 st1 in Hs1, Ht1. fold s2 in Hs2, Ht2.
  exists added, again.
  assert (Hlen : List.length again = List.length added).
  { rewrite <- (length_map untimed again), HF2, <- HF. apply length_map. }
  rewrite Hs1, Hs2, Ht1, Ht2, Hv2, Hv, <- app_assoc, !length_app, Hlen.
  repeat split; try reflexivity; try lia. congruence.
Qed.

(** *** The report *)

Lemma overall_status_cases (vs : list vulnerability) :
  In (overall_status vs, get_security_recommendation (overall_status vs))
    [ ("CRITICAL_RISK",
       "IMMEDIATE ACTION REQUIRED - Do not deploy to production");
      ("HIGH_RISK",
       "Address high-severity vulnerabilities before production deployment");
      ("MEDIUM_RISK",
       "Review and address vulnerabilities, acceptable for production with monitoring");
      ("LOW_RISK",
       "System is secure for production deployment with standard monitoring") ].
Proof.
  unfold overall_status.
  destruct (0 <? _)%nat; [cbn; auto|].
  destruct (3 <? _)%nat; [cbn; auto|].
  destruct (0 <? _)%nat; cbn; auto.
Qed.

Lemma generate_report_run (st : tester) :
  let s := eval run_comprehensive_test st in
  eval generate_report st
  = {| generated_at := clock (exec run_comprehensive_test st);
       report_total_vulnerabilities := total_vulnerabilities s;
       report_status := overall_security_status s;
       report_recommendation :=
         get_security_recommendation (overall_security_status s);
       detailed_results := s |}
  /\ vulnerabilities (exec generate_report st)
     = vulnerabilities (exec run_comprehensive_test st).
Proof.
  unfold generate_report, eval, exec, bind.
  destruct (run_comprehensive_test st) as [s st']. cbn. split; reflexivity.
Qed.

(** X7.  The report agrees with the run it contains: its total is the
    number of findings of the tester, its status is the overall status of
    the tester, and its recommendation is the text that belongs to that
    status.  The fallback text of [get_security_recommendation] is what
    any other string gets, and it never appears in a report. *)
Theorem report_agrees_with_run (st : tester) :
  let r := eval generate_report st in
  let st' := exec generate_report st in
  detailed_results r = eval run_comprehensive_test st
  /\ report_total_vulnerabilities r = List.length (vulnerabilities st')
  /\ report_status r = eval get_overall_security_status st'
  /\ In (report_status r, report_recommendation r)
       [ ("CRITICAL_RISK",
          "IMMEDIATE ACTION REQUIRED - Do not deploy to production");
         ("HIGH_RISK",
          "Address high-severity vulnerabilities before production deployment");
         ("MEDIUM_RISK",
          "Review and address vulnerabilities, acceptable for production with monitoring");
         ("LOW_RISK",
          "System is secure for production deployment with standard monitoring") ]
  /\ report_recommendation r <> "Review security findings"
  /\ (forall status,
        In status ["CRITICAL_RISK"; "HIGH_RISK"; "MEDIUM_RISK"; "LOW_RISK"]
        \/ get_security_recommendation status = "Review security findings").
Proof.
  intros r st'.
  destruct (generate_report_run st) as [Hr Hv]. fold r st' in Hr, Hv.
  destruct (run_summary_findings st) as (_ & Ht & Ho).
  change (eval get_overall_security_status st')
    with (overall_status (vulnerabilities st')).
  rewrite Hr. cbn [detailed_results report_total_vulnerabilities
                     report_status report_recommendation].
  rewrite Ht, Ho, Hv.
  set (vs := vulnerabilities (exec run_comprehensive_test st)).
  pose proof (overall_status_cases vs) as Hc.
  split; [reflexivity|]. split; [reflexivity|]. split; [reflexivity|].
  split; [exact Hc|]. split.
  - cbn [In] in Hc.
    destruct Hc as [Hc | [Hc | [Hc | [Hc | []]]]];
      apply (f_equal snd) in Hc; cbn [snd] in Hc; rewrite <- Hc;
      discriminate.
  - intros status. unfold get_security_recommendation. cbn [Dict.get].
    destruct (String.eqb_spec status "CRITICAL_RISK"); [cbn; auto|].
    destruct (String.eqb_spec status "HIGH_RISK"); [cbn; auto|].
    destruct (String.eqb_spec status "MEDIUM_RISK"); [cbn; auto|].
    destruct (String.eqb_spec status "LOW_RISK"); [cbn; auto 6|].
    now right.
Qed.

(** X8.  [main] scans whatever the login gave.  From a fresh tester it
    sends the login first and then the requests of the five probes, built
    with the token the login returned, or with none when the login failed;
    the report counts the findings of that scan. *)
Theorem main_scans_after_login (email password : string) :
  let tok := match login_outcome (http (login_request email password)) with
             | Some t => t
             | None => PNone
             end in
  let st' := exec (main email password) (init PNone) in
  let r := eval (main email password) (init PNone) in
  auth_token st' = tok
  /\ sent st'
     = login_request email password
       :: (auth_bypass_asked ++ sql_asked tok ++ xss_asked tok
           ++ business_logic_asked tok ++ disclosure_asked)%list
  /\ map untimed (vulnerabilities st')
     = (auth_bypass_found ++ sql_found tok ++ xss_found tok
        ++ business_logic_found tok ++ disclosure_found)%list
  /\ report_total_vulnerabilities r = List.length (vulnerabilities st')
  /\ report_status r = eval get_overall_security_status st'.
Proof.
  intros tok st' r. subst st' r. rewrite main_exec, main_eval.
  set (st1 := exec (authenticate email password) (init PNone)).
  assert (Htok : auth_token st1 = tok).
  { unfold st1, exec, tok. rewrite authenticate_run.
    destruct (login_outcome _); reflexivity. }
  assert (Hv1 : vulnerabilities st1 = [])
    by apply authenticate_vulnerabilities.
  assert (Hs1 : sent st1 = [login_request email password])
    by apply authenticate_sent.
  destruct (generate_report_effects tok st1 Htok)
    as (Ht & (added & Hv & HF) & Hs).
  cbn [flat_map source_order probe_found probe_asked] in HF, Hs.
  rewrite app_nil_r in HF, Hs.
  destruct (generate_report_run st1) as [Hr Hvr].
  destruct (run_summary_findings st1) as (_ & Hn & Hst).
  split; [exact Ht|]. split; [now rewrite Hs, Hs1|].
  split; [now rewrite Hv, Hv1|].
  rewrite Hr. cbn [report_total_vulnerabilities report_status].
  rewrite Hn, Hst. unfold eval, get_overall_security_status. cbn [fst].
  rewrite Hvr. split; reflexivity.
Qed.

(** *** Headers *)

(** [get_headers] does not change the tester.  Its result always has
    the content type and the user agent of the scanner, and it has an
    Authorization entry exactly when authentication is asked for and the
    stored token is truthy (a token that is None or the empty string gives
    none); the entry is then the bearer form of the stored token. *)
Lemma get_headers_contract (include_auth : bool) (st : tester) :
  let hs := eval (get_headers include_auth) st in
  exec (get_headers include_auth) st = st
  /\ Dict.get "Content-Type" hs = Some (HLit "application/json")
  /\ Dict.get "User-Agent" hs = Some (HLit "DSR-PenTest-Suite/1.0")
  /\ Dict.get "Authorization" hs
     = (if include_auth && truthy (auth_token st)
        then Some (HBearer (auth_token st)) else None)
  /\ List.length hs
     = (if include_auth && truthy (auth_token st) then 3 else 2).
Proof.
  unfold get_headers, get_auth_token, eval, exec, bind. cbn [fst snd].
  destruct (include_auth && truthy (auth_token st));
    repeat split; reflexivity.
Qed.

Lemma headers_for_carries (tok : pyval) :
  truthy tok = true ->
  Dict.get "Authorization" (headers_for tok) = Some (HBearer tok).
Proof. intros H. unfold headers_for. rewrite H. reflexivity. Qed.

Lemma probe_asked_headers (p : probe) (tok : pyval) :
  match p with
  | AuthBypass | InfoDisclosure => Forall bare (probe_asked p tok)
  | _ => Forall (fun r => headers r = headers_for tok) (probe_asked p tok)
  end.
Proof.
  destruct p; cbn [probe_asked].
  - unfold auth_bypass_asked.
    apply Forall_flat_map, Forall_forall. intros sv _.
    apply Forall_map, Forall_forall. intros ep _. reflexivity.
  - unfold sql_asked.
    apply Forall_flat_map, Forall_forall. intros sv _.
    apply Forall_flat_map, Forall_forall. intros tc _.
    induction sql_payloads as [|q rest IH]; cbn [sql_case_asked].
    + constructor.
    + constructor; [reflexivity|].
      destruct (sql_hit _); [constructor | exact IH].
  - unfold xss_asked.
    apply Forall_flat_map, Forall_forall. intros sv _.
    apply Forall_flat_map, Forall_forall. intros ep _.
    apply Forall_map, Forall_forall. intros payload _. reflexivity.
  - unfold business_logic_asked.
    apply Forall_flat_map, Forall_forall. intros sv _.
    unfold business_logic_request.
    destruct (String.eqb (fst sv) "eligibility");
      [repeat constructor|].
    destruct (String.eqb (fst sv) "payment"); repeat constructor.
  - unfold disclosure_asked.
    apply Forall_flat_map, Forall_forall. intros sv _.
    apply Forall_map, Forall_forall. intros ep _. reflexivity.
Qed.

(** X9.  The authentication-bypass and information-disclosure probes
    send every request without headers, whether or not a token is stored.
    The SQL-injection, XSS and business-logic probes send every request
    with the headers of [get_headers]: with the stored token as bearer
    credential when it is truthy, without Authorization otherwise. *)
Theorem probes_and_the_token (p : probe) (st : tester) :
  exists R,
    sent (exec (run_probe p) st) = (sent st ++ R)%list
    /\ match p with
       | AuthBypass | InfoDisclosure => Forall bare R
       | _ =>
           if truthy (auth_token st)
           then Forall (carries_token (auth_token st)) R
           else Forall unauthenticated R
       end.
Proof.
  exists (probe_asked p (auth_token st)).
  split; [apply (run_probe_effects (auth_token st) p st eq_refl)|].
  pose proof (probe_asked_headers p (auth_token st)) as H.
  destruct p; try exact H;
    (destruct (truthy (auth_token st)) eqn:Htruthy;
     [ eapply Forall_impl; [|exact H]; intros r Hr;
       unfold carries_token; rewrite Hr;
       now apply headers_for_carries
     | now apply probe_asked_unauthenticated ]).
Qed.

(** *** Bounds *)

Lemma length_flat_map_le {X Y} (f : X -> list Y) (k : nat) (l : list X) :
  (forall x, List.length (f x) <= k) ->
  List.length (flat_map f l) <= k * List.length l.
Proof.
  intros H. induction l as [|x l IH]; cbn [flat_map List.length]; [lia|].
  rewrite length_app. specialize (H x). lia.
Qed.

Lemma length_flat_map_ge {X Y} (f : X -> list Y) (k : nat) (l : list X) :
  (forall x, k <= List.length (f x)) ->
  k * List.length l <= List.length (flat_map f l).
Proof.
  intros H. induction l as [|x l IH]; cbn [flat_map List.length]; [lia|].
  rewrite length_app. specialize (H x). lia.
Qed.

Lemma length_flat_map_eq {X Y} (f : X -> list Y) (k : nat) (l : list X) :
  (forall x, List.length (f x) = k) ->
  List.length (flat_map f l) = k * List.length l.
Proof.
  intros H. apply Nat.le_antisymm.
  - apply length_flat_map_le. intros x. now rewrite H.
  - apply length_flat_map_ge. intros x. now rewrite H.
Qed.

Lemma length_flat_map_mono {X Y Z} (f : X -> list Y) (g : X -> list Z)
    (l : list X) :
  (forall x, List.length (f x) <= List.length (g x)) ->
  List.length (flat_map f l) <= List.length (flat_map g l).
Proof.
  intros H. induction l as [|x l IH]; cbn [flat_map List.length]; [lia|].
  rewrite !length_app. specialize (H x). lia.
Qed.

Lemma sql_case_lengths (tok : pyval) (name url : string) (tc : sql_test_case)
    (payloads : list string) :
  List.length (sql_case_found tok name url tc payloads) <= 1
  /\ List.length (sql_case_found tok name url tc payloads)
     <= List.length (sql_case_asked tok url tc payloads)
  /\ List.length (sql_case_asked tok url tc payloads) <= List.length payloads
  /\ (payloads <> [] -> 1 <= List.length (sql_case_asked tok url tc payloads)).
Proof.
  induction payloads as [|q rest (IH1 & IH2 & IH3 & _)];
    cbn [sql_case_found sql_case_asked List.length].
  - repeat split; try lia. intros H. now contradiction H.
  - destruct (sql_hit _); cbn [List.length]; repeat split; lia.
Qed.

Lemma service_found_le_asked (p : probe) (tok : pyval) :
  List.length (probe_found p tok) <= List.length (probe_asked p tok).
Proof.
  destruct p; cbn [probe_found probe_asked].
  - apply length_flat_map_mono. intros sv.
    rewrite <- flat_map_single. apply length_flat_map_mono. intros ep.
    unfold auth_bypass_finding. destruct (http _) as [resp|]; [|cbn; lia].
    destruct (auth_bypass_detects resp); cbn; lia.
  - apply length_flat_map_mono. intros sv.
    apply length_flat_map_mono. intros tc. apply sql_case_lengths.
  - apply length_flat_map_mono. intros sv.
    apply length_flat_map_mono. intros ep.
    rewrite <- flat_map_single. apply length_flat_map_mono. intros q.
    rewrite xss_finding_hit. destruct (xss_hit _ _ _ _); cbn; lia.
  - apply length_flat_map_mono. intros sv.
    unfold business_logic_finding, business_logic_request.
    destruct (String.eqb (fst sv) "eligibility").
    + destruct (http _) as [resp|]; [|cbn; lia].
      destruct (accepted resp); cbn; lia.
    + destruct (String.eqb (fst sv) "payment"); [|cbn; lia].
      destruct (http _) as [resp|]; [|cbn; lia].
      destruct (accepted resp); cbn; lia.
  - apply length_flat_map_mono. intros sv.
    rewrite <- flat_map_single. apply length_flat_map_mono. intros ep.
    unfold disclosure_finding. destruct (http _) as [resp|]; [|cbn; lia].
    destruct (disclosure_detects resp); cbn; lia.
Qed.

Lemma probe_asked_bounds (p : probe) (tok : pyval) :
  min_requests p <= List.length (probe_asked p tok) <= max_requests p.
Proof.
  destruct p; cbn [probe_asked min_requests max_requests].
  - split; apply Nat.eq_le_incl; reflexivity.
  - unfold sql_asked. split.
    + change 21 with (3 * List.length services).
      apply length_flat_map_ge. intros sv.
      change 3 with (1 * List.length sql_test_cases).
      apply length_flat_map_ge. intros tc.
      apply (sql_case_lengths tok EmptyString (snd sv) tc sql_payloads).
      unfold sql_payloads. discriminate.
    + change 105 with (15 * List.length services).
      apply length_flat_map_le. intros sv.
      change 15 with (5 * List.length sql_test_cases).
      apply length_flat_map_le. intros tc.
      apply (sql_case_lengths tok EmptyString (snd sv) tc sql_payloads).
  - split; apply Nat.eq_le_incl; reflexivity.
  - split; apply Nat.eq_le_incl; reflexivity.
  - split; apply Nat.eq_le_incl; reflexivity.
Qed.

Lemma probe_found_bound (p : probe) (tok : pyval) :
  List.length (probe_found p tok) <= max_findings p.
Proof.
  destruct p;
    try (etransitivity;
         [apply service_found_le_asked | apply probe_asked_bounds]).
  cbn [probe_found max_findings]. unfold sql_found.
  change 21 with (3 * List.length services).
  apply length_flat_map_le. intros sv.
  change 3 with (1 * List.length sql_test_cases).
  apply length_flat_map_le. intros tc. apply sql_case_lengths.
Qed.

(** X10.  One run of a probe sends 35 requests (authentication bypass and
    information disclosure), 105 (XSS), 2 (business logic), or between 21
    and 105 (SQL injection, which stops a test case at its first hit).  It
    records at most 35, 105, 2 and 21 findings respectively, and never
    more findings than it sent requests. *)
Theorem probe_bounds (p : probe) (st : tester) :
  exists added R,
    vulnerabilities (exec (run_probe p) st)
    = (vulnerabilities st ++ added)%list
    /\ sent (exec (run_probe p) st) = (sent st ++ R)%list
    /\ min_requests p <= List.length R <= max_requests p
    /\ List.length added <= max_findings p
    /\ List.length added <= List.length R.
Proof.
  destruct (run_probe_effects (auth_token st) p st eq_refl)
    as (_ & (added & Hv & HF) & Hs).
  exists added, (probe_asked p (auth_token st)).
  assert (Hlen : List.length added
                 = List.length (probe_found p (auth_token st)))
    by now rewrite <- HF, length_map.
  rewrite Hlen.
  split; [exact Hv|]. split; [exact Hs|].
  split; [apply probe_asked_bounds|].
  split; [apply probe_found_bound | apply service_found_le_asked].
Qed.

(** *** The keyword probes, one request at a time *)

Lemma auth_bypass_detects_iff (resp : response) :
  auth_bypass_detects resp = true <-> exposes resp.
Proof.
  unfold auth_bypass_detects, exposes, Str.any.
  destruct (Z.eqb_spec (status_code resp) 200) as [E|E].
  - rewrite existsb_exists. tauto.
  - split; [discriminate | tauto].
Qed.

Lemma found_keywords_spec (resp : response) (kw : string) :
  In kw (found_keywords resp)
  <-> In kw sensitive_keywords
      /\ Str.str_in kw (Str.lower (text resp)) = true.
Proof.
  unfold found_keywords.
  exact (filter_In (fun k => Str.str_in k (Str.lower (text resp)))
           kw sensitive_keywords).
Qed.

Lemma disclosure_detects_iff (resp : response) :
  disclosure_detects resp = true <-> discloses resp.
Proof.
  unfold disclosure_detects, discloses.
  destruct (found_keywords resp) as [|kw kws] eqn:E.
  - split; [discriminate|]. intros (_ & kw & Hkw).
    apply found_keywords_spec in Hkw. rewrite E in Hkw. destruct Hkw.
  - rewrite negb_true_iff, Z.eqb_neq. split.
    + intros H. split; [exact H|]. exists kw.
      apply found_keywords_spec. rewrite E. now left.
    + tauto.
Qed.

(** X11.  For one endpoint, the authentication-bypass probe records a
    finding exactly when the answer has status 200 and its lower-cased
    body contains one of password, secret, key, token.  The finding is
    HIGH, the counter goes up by one, and in either case only the one
    request is sent; an answer with any other status is never a finding. *)
Theorem auth_bypass_step_exact (name url ep : string) (n : nat) (st : tester) :
  let req := auth_bypass_request url ep in
  (forall resp, http req = Some resp -> exposes resp ->
     auth_bypass_step name url ep n st
     = (n + 1,
        {| auth_token := auth_token st;
           vulnerabilities :=
             vulnerabilities st
             ++ [stamp (clock st) (exposure_finding name ep resp)];
           clock := S (clock st);
           sent := sent st ++ [req] |}))
  /\ ((forall resp, http req = Some resp -> ~ exposes resp) ->
      auth_bypass_step name url ep n st
      = (n,
         {| auth_token := auth_token st;
            vulnerabilities := vulnerabilities st;
            clock := clock st;
            sent := sent st ++ [req] |}))
  /\ (forall resp, status_code resp <> 200%Z -> ~ exposes resp).
Proof.
  intros req. unfold auth_bypass_step, requests_get.
  fold (auth_bypass_request url ep). fold req. run_step.
  split; [|split].
  - intros resp Hreq Hexp. rewrite Hreq.
    apply auth_bypass_detects_iff in Hexp. rewrite Hexp.
    run_step. reflexivity.
  - intros Hno. destruct (http req) as [resp|]; [|reflexivity].
    destruct (auth_bypass_detects resp) eqn:E; [|reflexivity].
    exfalso. apply (Hno resp eq_refl). now apply auth_bypass_detects_iff.
  - intros resp Hs [H _]. contradiction.
Qed.

(** X12.  For one endpoint, the information-disclosure probe records a
    finding exactly when the answer has a status other than 404 and its
    lower-cased body contains one of the nine listed keywords.  The
    finding is MEDIUM and its evidence names the keywords that occur, in
    the order of the list; an answer with status 404 is never a finding. *)
Theorem disclosure_step_exact (name url ep : string) (n : nat) (st : tester) :
  let req := disclosure_request url ep in
  (forall resp, http req = Some resp -> discloses resp ->
     disclosure_step name url ep n st
     = (n + 1,
        {| auth_token := auth_token st;
           vulnerabilities :=
             vulnerabilities st
             ++ [stamp (clock st) (disclosure_issue name ep resp)];
           clock := S (clock st);
           sent := sent st ++ [req] |}))
  /\ ((forall resp, http req = Some resp -> ~ discloses resp) ->
      disclosure_step name url ep n st
      = (n,
         {| auth_token := auth_token st;
            vulnerabilities := vulnerabilities st;
            clock := clock st;
            sent := sent st ++ [req] |}))
  /\ (forall resp, status_code resp = 404%Z -> ~ discloses resp)
  /\ (forall resp,
        evidence (disclosure_issue name ep resp)
        = "Found keywords: "
          ++ Str.join ", "
               (filter (fun kw => Str.str_in kw (Str.lower (text resp)))
                  sensitive_keywords)).
Proof.
  intros req. unfold disclosure_step, requests_get.
  fold (disclosure_request url ep). fold req. run_step.
  split; [|split; [|split]].
  - intros resp Hreq Hdis. rewrite Hreq.
    apply disclosure_detects_iff in Hdis. rewrite Hdis.
    run_step. reflexivity.
  - intros Hno. destruct (http req) as [resp|]; [|reflexivity].
    destruct (disclosure_detects resp) eqn:E; [|reflexivity].
    exfalso. apply (Hno resp eq_refl). now apply disclosure_detects_iff.
  - intros resp Hs [H _]. contradiction.
  - reflexivity.
Qed.

Lemma exposes_discloses (resp : response) : exposes resp -> discloses resp.
Proof.
  intros (Hs & kw & Hkw & Hin). split; [rewrite Hs; discriminate|].
  exists kw. split; [|exact Hin].
  unfold auth_bypass_keywords in Hkw. unfold sensitive_keywords.
  cbn [In] in *. tauto.
Qed.

(** X13.  Whatever the authentication-bypass probe flags, the
    information-disclosure probe flags too.  On an endpoint that both
    probes visit (the two actuator endpoints), a full run that records the
    HIGH finding of the first probe for a service also records the MEDIUM
    finding of the second for the same service and endpoint. *)
Theorem exposure_comes_with_disclosure :
  (forall resp,
      auth_bypass_detects resp = true -> disclosure_detects resp = true)
  /\ (forall sv ep resp st,
        In sv services ->
        In ep auth_bypass_endpoints -> In ep disclosure_endpoints ->
        http (auth_bypass_request (snd sv) ep) = Some resp ->
        auth_bypass_detects resp = true ->
        exists added,
          vulnerabilities (exec run_comprehensive_test st)
          = (vulnerabilities st ++ added)%list
          /\ In (exposure_finding (fst sv) ep resp) (map untimed added)
          /\ In (disclosure_issue (fst sv) ep resp) (map untimed added)).
Proof.
  assert (Hdet : forall resp,
             auth_bypass_detects resp = true ->
             disclosure_detects resp = true).
  { intros resp H. apply disclosure_detects_iff, exposes_discloses.
    now apply auth_bypass_detects_iff. }
  split; [exact Hdet|].
  intros sv ep resp st Hsv Hep1 Hep2 Hreq Hexp.
  destruct (run_comprehensive_test_effects (auth_token st) st eq_refl)
    as (_ & (added & Hv & HF) & _).
  cbn [flat_map source_order probe_found] in HF. rewrite app_nil_r in HF.
  exists added. split; [exact Hv|]. rewrite HF. split.
  - apply in_or_app. left. unfold auth_bypass_found.
    apply in_flat_map. exists sv. split; [exact Hsv|].
    apply in_flat_map. exists ep. split; [exact Hep1|].
    unfold auth_bypass_finding. rewrite Hreq, Hexp. now left.
  - do 4 (apply in_or_app; right). unfold disclosure_found.
    apply in_flat_map. exists sv. split; [exact Hsv|].
    apply in_flat_map. exists ep. split; [exact Hep2|].
    unfold disclosure_finding.
    change (disclosure_request (snd sv) ep)
      with (auth_bypass_request (snd sv) ep).
    rewrite Hreq, (Hdet resp Hexp). now left.
Qed.

(** *** The SQL-injection probe without a hit *)

Lemma sql_try_payloads_miss (name url : string) (tc : sql_test_case)
    (payloads : list string) (n : nat) :
  forall st,
  (forall q, In q payloads ->
     sql_hit (sql_request (auth_token st) url tc q) = false) ->
  sql_try_payloads name url tc payloads n st
  = (n,
     {| auth_token := auth_token st;
        vulnerabilities := vulnerabilities st;
        clock := clock st;
        sent := sent st ++ map (sql_request (auth_token st) url tc) payloads |}).
Proof.
  induction payloads as [|q rest IH]; intros st Hmiss;
    cbn [sql_try_payloads map].
  - rewrite app_nil_r. now destruct st.
  - unfold requests_get. run_step.
    fold (sql_request (auth_token st) url tc q).
    pose proof (Hmiss q (or_introl eq_refl)) as Hq. unfold sql_hit in Hq.
    set (st1 := {| auth_token := auth_token st;
                   vulnerabilities := vulnerabilities st;
                   clock := clock st;
                   sent := sent st ++ [sql_request (auth_token st) url tc q] |}).
    assert (Hnext : sql_try_payloads name url tc rest n st1
                    = (n,
                       {| auth_token := auth_token st;
                          vulnerabilities := vulnerabilities st;
                          clock := clock st;
                          sent := sent st
                                  ++ sql_request (auth_token st) url tc q
                                  :: map (sql_request (auth_token st) url tc)
                                       rest |})).
    { rewrite (IH st1); cbn [auth_token vulnerabilities clock sent st1].
      - now rewrite <- app_assoc.
      - intros q' Hq'. apply Hmiss. now right. }
    destruct (http (sql_request (auth_token st) url tc q)) as [rq|].
    + rewrite Hq. exact Hnext.
    + exact Hnext.
Qed.

(** A loop that leaves its counter as it was met no hit. *)
Lemma sql_case_found_nil (tok : pyval) (name url : string)
    (tc : sql_test_case) (payloads : list string) :
  sql_case_found tok name url tc payloads = [] ->
  forall q, In q payloads -> sql_hit (sql_request tok url tc q) = false.
Proof.
  induction payloads as [|p rest IH]; cbn [sql_case_found]; intros H q Hq;
    [destruct Hq|].
  destruct (sql_hit (sql_request tok url tc p)) eqn:Hp; [discriminate|].
  destruct Hq as [<- | Hq]; [exact Hp | now apply IH].
Qed.

(** X14.  The SQL-injection probe goes through a whole list of payloads
    for a test case, records nothing and leaves its counter as it was
    exactly when no payload draws a database error: each request fails, or
    is answered with a body that, lower-cased, contains none of the six
    listed substrings.  The status codes of the answers play no part. *)
Theorem sql_case_without_hit (name url : string) (tc : sql_test_case)
    (payloads : list string) (n : nat) (st : tester) :
  (forall q, In q payloads ->
     draws_no_error (sql_request (auth_token st) url tc q))
  <->
  sql_try_payloads name url tc payloads n st
  = (n,
     {| auth_token := auth_token st;
        vulnerabilities := vulnerabilities st;
        clock := clock st;
        sent := sent st ++ map (sql_request (auth_token st) url tc) payloads |}).
Proof.
  split.
  - intros Hquiet. apply sql_try_payloads_miss.
    intros q Hq. apply draws_no_error_iff. now apply Hquiet.
  - intros Hrun q Hq. apply draws_no_error_iff.
    apply sql_case_found_nil with (name := name) (payloads := payloads);
      [|exact Hq].
    pose proof (sql_try_payloads_returns (auth_token st) name url tc payloads
                  n st eq_refl) as Hn.
    unfold eval in Hn. rewrite Hrun in Hn. cbn [fst] in Hn.
    destruct (sql_case_found (auth_token st) name url tc payloads);
      [reflexivity | cbn [List.length] in Hn; lia].
Qed.

(** *** The payment rule of the business-logic probe *)

Lemma critical_finding_forces_status (vs : list vulnerability)
    (v : vulnerability) :
  In v vs -> severity v = "CRITICAL" -> overall_status vs = "CRITICAL_RISK".
Proof.
  intros Hin Hsev. unfold overall_status.
  assert (H : 0 < count_severity "CRITICAL" vs).
  { unfold count_severity. induction vs as [|w vs IH]; [destruct Hin|].
    cbn [filter]. destruct Hin as [-> | Hin].
    - rewrite Hsev, String.eqb_refl. cbn. lia.
    - specialize (IH Hin).
      destruct (String.eqb (severity w) "CRITICAL"); cbn [List.length]; lia. }
  apply Nat.ltb_lt in H. now rewrite H.
Qed.

(** X15.  The business-logic probe sends two requests in all, to the
    eligibility and to the payment service; the payment request carries
    the amount 999999999.  When it is answered with status 200 or 201,
    exactly one finding is added for the payment service, it is CRITICAL,
    and the overall status of the tester is then CRITICAL_RISK; with any
    other status nothing is added for the payment service. *)
Theorem payment_amount_rule (st : tester) (resp : response) :
  let tok := auth_token st in
  let req := payment_request tok (base_url ++ ":8084") in
  let st' := exec test_business_logic_flaws st in
  http req = Some resp ->
  sent st'
  = (sent st ++ [eligibility_request tok (base_url ++ ":8082"); req])%list
  /\ url req = (base_url ++ ":8084") ++ "/api/v1/payments"
  /\ (exists body,
        json_body req = Some (PDict body)
        /\ Dict.get "amount" body = Some (PInt 999999999))
  /\ (status_code resp = 200%Z \/ status_code resp = 201%Z ->
      exists v,
        about "payment" (vulnerabilities st')
        = (about "payment" (vulnerabilities st) ++ [v])%list
        /\ untimed v = payment_finding "payment" resp
        /\ severity v = "CRITICAL"
        /\ eval get_overall_security_status st' = "CRITICAL_RISK")
  /\ (status_code resp <> 200%Z -> status_code resp <> 201%Z ->
      about "payment" (vulnerabilities st')
      = about "payment" (vulnerabilities st)).
Proof.
  intros tok req st' Hreq.
  pose proof (business_logic_effects tok) as Heff.
  assert (Habout : about "payment" (business_logic_found tok)
                   = if accepted resp
                     then [payment_finding "payment" resp] else []).
  { unfold business_logic_found.
    pose proof (about_flat_map (business_logic_finding tok) services
                  ("payment", base_url ++ ":8084")
                  (business_logic_finding_service tok)
                  services_names_distinct) as H.
    cbn [fst] in H. rewrite H by (cbn; auto 6).
    unfold business_logic_finding.
    cbn [fst snd String.eqb Ascii.eqb Bool.eqb].
    fold req. now rewrite Hreq. }
  destruct (effects_about tok _ _ _ st "payment" Heff eq_refl)
    as (added & Hv & Hadded).
  fold st' in Hv. rewrite Habout in Hadded.
  destruct (Heff st eq_refl) as (_ & _ & Hs). fold st' in Hs.
  split; [exact Hs|]. split; [reflexivity|].
  split; [eexists; split; reflexivity|]. split.
  - intros Hstatus.
    assert (Hacc : accepted resp = true).
    { unfold accepted. destruct Hstatus as [-> | ->]; reflexivity. }
    rewrite Hacc in Hadded.
    destruct added as [|v [|w added]]; try discriminate.
    assert (Hv1 : untimed v = payment_finding "payment" resp)
      by (cbn [map] in Hadded; congruence).
    assert (Hsev : severity v = "CRITICAL").
    { change (severity v) with (severity (untimed v)). now rewrite Hv1. }
    exists v. split; [exact Hv|]. split; [exact Hv1|]. split; [exact Hsev|].
    apply critical_finding_forces_status with (v := v); [|exact Hsev].
    assert (Hin : In v (about "payment" (vulnerabilities st')))
      by (rewrite Hv; apply in_or_app; right; now left).
    unfold about in Hin. apply filter_In in Hin. exact (proj1 Hin).
  - intros H200 H201.
    assert (Hacc : accepted resp = false).
    { unfold accepted. apply Z.eqb_neq in H200, H201.
      now rewrite H200, H201. }
    rewrite Hacc in Hadded. destruct added; [|discriminate].
    now rewrite Hv, app_nil_r.
Qed.

(** *** The form data of the XSS probe *)

Lemma dict_get_set_same {V} (k : string) (v : V) (d : list (string * V)) :
  Dict.get k (Dict.set k v d) = Some v.
Proof.
  induction d as [|[k' v'] d IH]; cbn.
  - now rewrite String.eqb_refl.
  - destruct (String.eqb k k') eqn:E; cbn; rewrite ?String.eqb_refl, ?E; auto.
Qed.

Lemma dict_get_set_other {V} (k k' : string) (v : V) (d : list (string * V)) :
  k' <> k -> Dict.get k' (Dict.set k v d) = Dict.get k' d.
Proof.
  intros Hne. apply String.eqb_neq in Hne.
  induction d as [|[k0 v0] d IH]; cbn.
  - now rewrite Hne.
  - destruct (String.eqb k k0) eqn:E; cbn.
    + apply String.eqb_eq in E. subst k0. now rewrite Hne.
    + destruct (String.eqb k' k0); auto.
Qed.

Lemma dict_set_fresh {V} (k : string) (v : V) (d : list (string * V)) :
  ~ In k (map fst d) -> Dict.set k v d = (d ++ [(k, v)])%list.
Proof.
  induction d as [|[k' v'] d IH]; cbn; intros H; [reflexivity|].
  destruct (String.eqb_spec k k') as [->|Hne]; [tauto|].
  rewrite IH; tauto.
Qed.

Lemma xss_data_from (fs : list string) (payload : string) :
  forall data,
    (forall f, In f fs ->
       Dict.get f (fold_left (fun d field => Dict.set field (PStr payload) d)
                     fs data) = Some (PStr payload))
    /\ (forall f, ~ In f fs ->
          Dict.get f (fold_left (fun d field => Dict.set field (PStr payload) d)
                        fs data) = Dict.get f data).
Proof.
  induction fs as [|g fs IH]; intros data; cbn [fold_left In].
  - split; [tauto | reflexivity].
  - destruct (IH (Dict.set g (PStr payload) data)) as [IH1 IH2]. split.
    + intros f [-> | Hin].
      * destruct (in_dec string_dec f fs) as [Hf | Hf]; [now apply IH1|].
        rewrite (IH2 f Hf). apply dict_get_set_same.
      * now apply IH1.
    + intros f Hf. rewrite IH2 by tauto.
      apply dict_get_set_other. intros ->. tauto.
Qed.

Lemma xss_data_fresh (fs : list string) (payload : string) :
  forall data,
    NoDup fs -> (forall f, In f fs -> ~ In f (map fst data)) ->
    fold_left (fun d field => Dict.set field (PStr payload) d) fs data
    = (data ++ map (fun f => (f, PStr payload)) fs)%list.
Proof.
  induction fs as [|g fs IH]; intros data Hnd Hfresh; cbn [fold_left map].
  - now rewrite app_nil_r.
  - inversion Hnd as [|? ? Hg Hnd']; subst.
    rewrite dict_set_fresh by (apply Hfresh; now left).
    rewrite IH; [now rewrite <- app_assoc | exact Hnd' |].
    intros f Hf. rewrite map_app, in_app_iff. cbn [map fst In].
    intros [H | [-> | []]]; [|contradiction].
    now apply (Hfresh f (or_intror Hf)).
Qed.

(** X16.  The form data of an XSS request gives the payload to every
    field of the endpoint and has no other key; when the field names are
    distinct it lists them in their order. *)
Theorem xss_data_fields (fs : list string) (payload : string) :
  (forall f, In f fs -> Dict.get f (xss_data fs payload) = Some (PStr payload))
  /\ (forall f, ~ In f fs -> Dict.get f (xss_data fs payload) = None)
  /\ (NoDup fs ->
      xss_data fs payload = map (fun f => (f, PStr payload)) fs).
Proof.
  unfold xss_data. destruct (xss_data_from fs payload []) as [H1 H2].
  split; [exact H1|]. split; [exact H2|].
  intros Hnd. now rewrite xss_data_fresh by (auto || (intros f _ [])).
Qed.

(** *** The shape of the requests *)

Lemma probe_asked_shaped (p : probe) (tok : pyval) :
  Forall (shaped_for p) (probe_asked p tok).
Proof.
  destruct p; cbn [probe_asked].
  - unfold auth_bypass_asked.
    apply Forall_flat_map, Forall_forall. intros sv Hsv.
    apply Forall_map, Forall_forall. intros ep _.
    repeat split; try reflexivity. now exists sv, ep.
  - unfold sql_asked.
    apply Forall_flat_map, Forall_forall. intros sv Hsv.
    apply Forall_flat_map, Forall_forall. intros tc _.
    induction sql_payloads as [|q rest IH]; cbn [sql_case_asked].
    + constructor.
    + constructor.
      * repeat split; try reflexivity. now exists sv, (tc_endpoint tc).
      * destruct (sql_hit _); [constructor | exact IH].
  - unfold xss_asked.
    apply Forall_flat_map, Forall_forall. intros sv Hsv.
    apply Forall_flat_map, Forall_forall. intros ep _.
    apply Forall_map, Forall_forall. intros payload _.
    repeat split; try reflexivity.
    + now exists sv, (xss_url ep).
    + eexists. reflexivity.
  - unfold business_logic_asked.
    apply Forall_flat_map, Forall_forall. intros sv Hsv.
    unfold business_logic_request.
    destruct (String.eqb (fst sv) "eligibility").
    + repeat constructor.
      * now exists sv, "/api/v1/eligibility/assessments".
      * eexists. reflexivity.
    + destruct (String.eqb (fst sv) "payment"); [|constructor].
      repeat constructor.
      * now exists sv, "/api/v1/payments".
      * eexists. reflexivity.
  - unfold disclosure_asked.
    apply Forall_flat_map, Forall_forall. intros sv Hsv.
    apply Forall_map, Forall_forall. intros ep _.
    repeat split; try reflexivity. now exists sv, ep.
Qed.

(** X17.  Every request of a probe goes to an address below one of the
    seven services of the table, with a time-out of 10.  The
    authentication-bypass, SQL-injection and information-disclosure probes
    use GET without a body; the XSS and business-logic probes use POST
    with a JSON object as body and no query parameters. *)
Theorem probe_requests_shape (p : probe) (st : tester) :
  exists R,
    sent (exec (run_probe p) st) = (sent st ++ R)%list
    /\ Forall (shaped_for p) R.
Proof.
  exists (probe_asked p (auth_token st)). split.
  - apply (run_probe_effects (auth_token st) p st eq_refl).
  - apply probe_asked_shaped.
Qed.

End Scanner.

(* ================================================================== *)
(** ** C2: letter case *)

Lemma detects_same_up_to_case (p : probe) (payload : string)
    (r1 r2 : response) :
  p <> Xss -> same_up_to_case r1 r2 ->
  detects p payload r1 = detects p payload r2.
Proof.
  intros Hp [Hs Ht]. destruct p; cbn [detects]; try congruence.
  - unfold auth_bypass_detects. now rewrite Hs, Ht.
  - unfold sql_detects. now rewrite Ht.
  - unfold accepted. now rewrite Hs.
  - unfold disclosure_detects, found_keywords. now rewrite Hs, Ht.
Qed.

Lemma found_keywords_same_up_to_case (r1 r2 : response) :
  same_up_to_case r1 r2 -> found_keywords r1 = found_keywords r2.
Proof. intros [_ Ht]. unfold found_keywords. now rewrite Ht. Qed.

Lemma flat_map_pointwise {X Y} (f g : X -> list Y) (l : list X) :
  (forall x, f x = g x) -> flat_map f l = flat_map g l.
Proof. intros H. apply flat_map_ext. exact H. Qed.

Lemma probe_found_same_up_to_case (base_url : string)
    (http1 http2 : request -> option response) (p : probe) (tok : pyval) :
  p <> Xss -> networks_same_up_to_case http1 http2 ->
  probe_found base_url http1 p tok = probe_found base_url http2 p tok.
Proof.
  intros Hp Hnet. destruct p; cbn [probe_found]; try congruence.
  - unfold auth_bypass_found.
    apply flat_map_pointwise; intros sv. apply flat_map_pointwise; intros ep.
    unfold auth_bypass_finding.
    specialize (Hnet (auth_bypass_request (snd sv) ep)).
    destruct (http1 _) as [r1|], (http2 _) as [r2|]; try easy.
    pose proof (detects_same_up_to_case AuthBypass EmptyString r1 r2
                  ltac:(discriminate) Hnet) as Hd.
    cbn [detects] in Hd. rewrite Hd.
    destruct Hnet as [-> _]. reflexivity.
  - unfold sql_found.
    apply flat_map_pointwise; intros sv. apply flat_map_pointwise; intros tc.
    induction sql_payloads as [|q rest IH]; cbn [sql_case_found];
      [reflexivity|].
    rewrite IH. unfold sql_hit.
    specialize (Hnet (sql_request tok (snd sv) tc q)).
    destruct (http1 _) as [r1|], (http2 _) as [r2|]; try easy.
    pose proof (detects_same_up_to_case SqlInjection EmptyString r1 r2
                  ltac:(discriminate) Hnet) as Hd.
    cbn [detects] in Hd. now rewrite Hd.
  - unfold business_logic_found.
    apply flat_map_pointwise; intros sv. unfold business_logic_finding.
    destruct (String.eqb (fst sv) "eligibility").
    + specialize (Hnet (eligibility_request tok (snd sv))).
      destruct (http1 _) as [r1|], (http2 _) as [r2|]; try easy.
      unfold accepted, eligibility_finding. destruct Hnet as [-> _].
      reflexivity.
    + destruct (String.eqb (fst sv) "payment"); [|reflexivity].
      specialize (Hnet (payment_request tok (snd sv))).
      destruct (http1 _) as [r1|], (http2 _) as [r2|]; try easy.
      unfold accepted, payment_finding. destruct Hnet as [-> _].
      reflexivity.
  - unfold disclosure_found.
    apply flat_map_pointwise; intros sv. apply flat_map_pointwise; intros ep.
    unfold disclosure_finding.
    specialize (Hnet (disclosure_request (snd sv) ep)).
    destruct (http1 _) as [r1|], (http2 _) as [r2|]; try easy.
    pose proof (detects_same_up_to_case InfoDisclosure EmptyString r1 r2
                  ltac:(discriminate) Hnet) as Hd.
    cbn [detects] in Hd. rewrite Hd.
    now rewrite (found_keywords_same_up_to_case r1 r2 Hnet).
Qed.

(** C2 (amended).  The authentication-bypass, SQL-injection,
    business-logic and information-disclosure probes decide on the status
    code and the lower-cased body only: two answers that differ in letter
    case are classified alike, and two networks that differ in letter case
    make each of these probes record the same findings.  The XSS probe
    compares the body as received with the payload as sent; its decision
    is a function of the status code and the exact body. *)
Theorem C2_classification_and_case :
  (forall p payload r1 r2,
      p <> Xss -> same_up_to_case r1 r2 ->
      detects p payload r1 = detects p payload r2)
  /\ (forall base_url http1 http2 p st,
      p <> Xss -> networks_same_up_to_case http1 http2 ->
      map untimed (vulnerabilities (exec (run_probe base_url http1 p) st))
      = map untimed (vulnerabilities (exec (run_probe base_url http2 p) st)))
  /\ (forall payload r1 r2,
      status_code r1 = status_code r2 -> text r1 = text r2 ->
      detects Xss payload r1 = detects Xss payload r2).
Proof.
  split; [|split].
  - exact detects_same_up_to_case.
  - intros base_url http1 http2 p st Hp Hnet.
    rewrite (effects_untimed (auth_token st) _ _ _ st
               (run_probe_effects base_url http1 (auth_token st) p) eq_refl).
    rewrite (effects_untimed (auth_token st) _ _ _ st
               (run_probe_effects base_url http2 (auth_token st) p) eq_refl).
    now rewrite (probe_found_same_up_to_case base_url http1 http2 p
                   (auth_token st) Hp Hnet).
  - intros payload r1 r2 Hs Ht. cbn [detects]. unfold xss_detects.
    now rewrite Hs, Ht.
Qed.

(* ================================================================== *)
(** ** The embedding and the properties on concrete networks *)

(** *** The embedding at work *)

Example lower_ascii : Str.lower "ORA-00933: SQL Syntax" = "ora-00933: sql syntax".
Proof. reflexivity. Qed.

Example lower_latin1 :
  Str.lower_char (ascii_of_nat 192) = ascii_of_nat 224
  /\ Str.lower_char (ascii_of_nat 215) = ascii_of_nat 215
  /\ Str.lower_char (ascii_of_nat 223) = ascii_of_nat 223.
Proof. repeat split; reflexivity. Qed.

(** The keyword tests look for substrings anywhere in the text. *)
Example keyword_inside_a_word :
  Str.str_in "key" "monkey" = true /\ Str.str_in "key" "ke y" = false.
Proof. split; reflexivity. Qed.

Example join_keywords : Str.join ", " ["password"; "jdbc"] = "password, jdbc".
Proof. reflexivity. Qed.

Example status_in_evidence :
  Str.of_int 201 = "201" /\ Str.of_int 0 = "0" /\ Str.of_int (-50000) = "-50000".
Proof. repeat split; reflexivity. Qed.

Example first_xss_payload : hd EmptyString xss_payloads = script_payload.
Proof. reflexivity. Qed.

Example xss_form_data :
  xss_data ["firstName"; "lastName"] "x"
  = [("firstName", PStr "x"); ("lastName", PStr "x")].
Proof. reflexivity. Qed.

Example headers_with_and_without_token :
  map fst (headers_for (PStr "abc"))
  = ["Content-Type"; "User-Agent"; "Authorization"]
  /\ map fst (headers_for PNone) = ["Content-Type"; "User-Agent"]
  /\ map fst (headers_for (PStr EmptyString)) = ["Content-Type"; "User-Agent"].
Proof. repeat split; reflexivity. Qed.

(** A scan of services that show nothing reports no finding and the
    status LOW_RISK; every request of the matrix has been sent. *)
Example clean_scan :
  let s := eval (run_comprehensive_test localhost
                   (constant_network (plain 404 "Not Found")))
             (init PNone) in
  total_vulnerabilities s = 0
  /\ overall_security_status s = "LOW_RISK"
  /\ services_tested s = 7
  /\ List.length
       (sent (exec (run_comprehensive_test localhost
                      (constant_network (plain 404 "Not Found")))
                (init PNone))) = 282.
Proof. vm_compute. repeat split; reflexivity. Qed.

(** The word token anywhere in a page is enough for two probes. *)
Example token_in_a_page :
  let s := eval (run_comprehensive_test localhost
                   (single_endpoint "http://localhost:8086/actuator/env"
                      (plain 200 "csrfToken=1")))
             (init PNone) in
  map (fun v => (service v, vuln_type v, severity v))
    (summary_vulnerabilities s)
  = [ ("analytics", "Sensitive Data Exposure", "HIGH");
      ("analytics", "Information Disclosure", "MEDIUM") ]
  /\ overall_security_status s = "MEDIUM_RISK".
Proof. vm_compute. split; reflexivity. Qed.

(** *** C1 *)

Lemma C1_witness :
  eval get_overall_security_status
    (with_severities ["MEDIUM"; "CRITICAL"; "HIGH"; "HIGH"; "HIGH"; "HIGH"])
  = "CRITICAL_RISK"
  /\ eval get_overall_security_status
       (with_severities ["HIGH"; "HIGH"; "MEDIUM"; "HIGH"; "HIGH"])
     = "HIGH_RISK"
  /\ eval get_overall_security_status (with_severities ["LOW"; "HIGH"])
     = "MEDIUM_RISK"
  /\ eval get_overall_security_status (with_severities ["MEDIUM"; "LOW"])
     = "LOW_RISK".
Proof.
  split; [|split; [|split]].
  - apply (C1_overall_status_thresholds
             (with_severities
                ["MEDIUM"; "CRITICAL"; "HIGH"; "HIGH"; "HIGH"; "HIGH"])).
    vm_compute. lia.
  - apply (C1_overall_status_thresholds
             (with_severities ["HIGH"; "HIGH"; "MEDIUM"; "HIGH"; "HIGH"])).
    + reflexivity.
    + vm_compute. lia.
  - apply (C1_overall_status_thresholds (with_severities ["LOW"; "HIGH"])).
    + reflexivity.
    + vm_compute. lia.
  - apply (C1_overall_status_thresholds (with_severities ["MEDIUM"; "LOW"]));
      reflexivity.
Defined.

(** *** C2 *)

(** C2, as stated, fails: the two answers below have the same status and
    bodies that differ in letter case only, and the XSS probe records a
    finding for the first and none for the second. *)
Lemma C2_xss_depends_on_case :
  ~ (forall p payload r1 r2,
        same_up_to_case r1 r2 ->
        detects p payload r1 = detects p payload r2).
Proof.
  intros H.
  specialize (H Xss script_payload
                (plain 200 script_payload) (plain 200 script_upper)).
  assert (Hsame : same_up_to_case (plain 200 script_payload)
                    (plain 200 script_upper))
    by (split; reflexivity).
  specialize (H Hsame). vm_compute in H. discriminate H.
Qed.

(** The same at the level of a run: the networks differ in letter case
    only, yet the XSS probe records 21 findings on one and none on the
    other. *)
Lemma xss_run_depends_on_case :
  networks_same_up_to_case
    (constant_network (plain 200 script_payload))
    (constant_network (plain 200 script_upper))
  /\ List.length
       (vulnerabilities
          (exec (test_xss_vulnerabilities localhost
                   (constant_network (plain 200 script_payload)))
             (init PNone))) = 21
  /\ vulnerabilities
       (exec (test_xss_vulnerabilities localhost
                (constant_network (plain 200 script_upper)))
          (init PNone)) = [].
Proof.
  split; [|split].
  - intros r. split; reflexivity.
  - vm_compute. reflexivity.
  - vm_compute. reflexivity.
Qed.

Lemma C2_witness :
  detects SqlInjection EmptyString (plain 500 "ORA-00933: SQL Syntax")
  = detects SqlInjection EmptyString (plain 500 "ora-00933: sql syntax")
  /\ map untimed
       (vulnerabilities
          (exec (run_probe localhost
                   (constant_network (plain 500 "ORA-00933: SQL Syntax"))
                   SqlInjection)
             (init PNone)))
     = map untimed
         (vulnerabilities
            (exec (run_probe localhost
                     (constant_network (plain 500 "ora-00933: sql syntax"))
                     SqlInjection)
               (init PNone)))
  /\ detects Xss script_payload (plain 201 script_payload)
     = detects Xss script_payload (plain 201 script_payload).
Proof.
  destruct C2_classification_and_case as (Hdet & Hrun & Hxss).
  split; [|split].
  - apply Hdet; [discriminate | split; reflexivity].
  - apply Hrun; [discriminate | intros r; split; reflexivity].
  - apply Hxss; reflexivity.
Defined.

(** *** C3 *)

(** A body without any of the listed substrings is no database-error
    page. *)
Lemma not_found_is_no_error_page : ~ sql_error_page (plain 404 "Not Found").
Proof.
  intros (e & He & Hc). apply str_in_iff in Hc.
  repeat (destruct He as [<- | He]; [discriminate Hc|]). destruct He.
Qed.

Lemma empty_result_is_no_error_page : ~ sql_error_page (plain 200 "[]").
Proof.
  intros (e & He & Hc). apply str_in_iff in Hc.
  repeat (destruct He as [<- | He]; [discriminate Hc|]). destruct He.
Qed.

Lemma C3_witness :
  (forall payload, exists resp,
      sql_error_among_404
        (sql_request PNone "http://localhost:8080" search_case payload)
      = Some resp
      /\ Str.str_in "sql syntax error" (text resp) = true)
  /\ (forall tc' payload, In tc' sql_test_cases -> tc' <> search_case ->
        sql_error_among_404
          (sql_request PNone "http://localhost:8080" tc' payload)
        = Some (plain 404 "Not Found"))
  /\ (exists v,
        about "registration"
          (vulnerabilities
             (exec (test_sql_injection localhost sql_error_among_404)
                (init PNone)))
        = [v]
        /\ severity v = "CRITICAL"
        /\ untimed v = sql_finding "registration" search_case "' OR '1'='1")
  /\ sql_case_asked sql_error_among_404 PNone "http://localhost:8080"
       search_case sql_payloads
     = [sql_request PNone "http://localhost:8080" search_case "' OR '1'='1"]
  /\ sql_try_payloads drop_table_network "registration"
       "http://localhost:8080" search_case sql_payloads 0 (init PNone)
     = (1,
        {| auth_token := PNone;
           vulnerabilities :=
             [stamp 0 (sql_finding "registration" search_case
                         "'; DROP TABLE users; --")];
           clock := 1;
           sent := map (sql_request PNone "http://localhost:8080" search_case)
                     ["' OR '1'='1"; "'; DROP TABLE users; --"] |}).
Proof.
  assert (Hanswers : forall payload, exists resp,
             sql_error_among_404
               (sql_request PNone "http://localhost:8080" search_case payload)
             = Some resp
             /\ Str.str_in "sql syntax error" (text resp) = true).
  { intros payload. eexists. split; reflexivity. }
  assert (Hothers : forall tc' payload,
             In tc' sql_test_cases -> tc' <> search_case ->
             sql_error_among_404
               (sql_request PNone "http://localhost:8080" tc' payload)
             = Some (plain 404 "Not Found")).
  { intros tc' payload Htc' Hne.
    destruct Htc' as [<- | [<- | [<- | []]]];
      [exfalso; apply Hne; reflexivity | reflexivity | reflexivity]. }
  split; [exact Hanswers|]. split; [exact Hothers|].
  destruct (C3_sql_injection_probe localhost sql_error_among_404)
    as (_ & _ & _ & Hmock).
  destruct (C3_sql_injection_probe localhost drop_table_network)
    as (_ & _ & Hcase & _).
  destruct (Hmock ("registration", "http://localhost:8080") search_case
              (init PNone)) as [Hone Hasked].
  - cbn. auto.
  - cbn. auto.
  - exact Hanswers.
  - intros tc' payload Htc' Hne. unfold draws_no_error.
    cbn [init auth_token snd]. rewrite (Hothers tc' payload Htc' Hne).
    exact not_found_is_no_error_page.
  - split; [exact Hone|]. split; [exact Hasked|].
    apply (Hcase "registration" "http://localhost:8080" search_case
             ["' OR '1'='1"] "'; DROP TABLE users; --"
             ["' UNION SELECT version() --"; "1' OR 1=1#";
              "admin'/**/OR/**/1=1#"] 0 (init PNone)
             (plain 500
                "You have an error in your SQL syntax; check the manual of your MySQL server")).
    + intros q [<- | []]. exact empty_result_is_no_error_page.
    + reflexivity.
    + exists "sql syntax". split; [cbn; auto|].
      exists "you have an error in your ",
        "; check the manual of your mysql server".
      reflexivity.
Defined.

(** With every endpoint reporting the database error, each of the three
    test cases of a service is recorded once. *)
Example sql_error_on_every_endpoint :
  let st := exec (test_sql_injection localhost
                    (constant_network
                       (plain 500 "ERROR: sql syntax error at or near SELECT")))
              (init PNone) in
  List.length (about "registration" (vulnerabilities st)) = 3
  /\ List.length (vulnerabilities st) = 21
  /\ List.length (sent st) = 21.
Proof. vm_compute. repeat split. Qed.

(** *** C4 *)

Lemma C4_witness :
  (exists v,
      vulnerabilities
        (exec (test_xss_vulnerabilities localhost echo_network) (init PNone))
      = [v]
      /\ severity v = "HIGH"
      /\ untimed v = xss_high_finding "grievance" grievances script_payload)
  /\ vulnerabilities
       (exec (test_xss_vulnerabilities localhost escaping_network)
          (init PNone)) = []
  /\ text (plain 201 (html_escape script_payload))
     = "&lt;script&gt;alert(&quot;XSS&quot;)&lt;/script&gt;"
  /\ xss_step echo_network "grievance" "http://localhost:8085" grievances
       script_payload 0 (init PNone)
     = (1,
        {| auth_token := PNone;
           vulnerabilities :=
             [stamp 0 (xss_high_finding "grievance" grievances script_payload)];
           clock := 1;
           sent := [xss_request PNone "http://localhost:8085" grievances
                      script_payload] |})
  /\ xss_step unreachable_network "grievance" "http://localhost:8085"
       grievances script_payload 0 (init PNone)
     = (0,
        {| auth_token := PNone;
           vulnerabilities := [];
           clock := 0;
           sent := [xss_request PNone "http://localhost:8085" grievances
                      script_payload] |}).
Proof.
  destruct (C4_xss_probe localhost echo_network)
    as (Hstep & _ & Hecho & _ & _).
  destruct (C4_xss_probe localhost escaping_network)
    as (_ & _ & _ & Hescaped & _).
  destruct (C4_xss_probe localhost unreachable_network)
    as (Hnone & _ & _ & _ & _).
  split; [|split; [|split; [|split]]].
  - apply (Hecho ("grievance", "http://localhost:8085") grievances
             (init PNone)).
    + cbn. auto 10.
    + cbn. auto.
    + intros payload. eexists. repeat split; reflexivity.
    + intros sv' ep' payload Hsv' Hep' Hne. cbn in Hsv', Hep'.
      repeat match goal with
             | H : _ \/ _ |- _ => destruct H as [H | H]
             | H : False |- _ => destruct H
             end;
        subst; try reflexivity; exfalso; apply Hne; reflexivity.
  - apply (Hescaped (init PNone)).
    intros r resp H. unfold escaping_network in H.
    injection H as <-. eexists. reflexivity.
  - reflexivity.
  - apply (Hstep "grievance" "http://localhost:8085" grievances
             script_payload 0 (init PNone)).
    exists (plain 201 script_payload). split; [reflexivity|].
    split; [right; reflexivity | split; reflexivity].
  - apply (Hnone "grievance" "http://localhost:8085" grievances
             script_payload 0 (init PNone)).
    intros (resp & H & _). discriminate H.
Defined.

(** *** C5 *)

Lemma C5_witness :
  unreachable_network (auth_bypass_request "http://localhost:8080" "/actuator/env")
  = None
  /\ vulnerabilities
       (exec (auth_bypass_step unreachable_network "registration"
                "http://localhost:8080" "/actuator/env" 0) (init PNone)) = []
  /\ sql_try_payloads unreachable_network "registration"
       "http://localhost:8080" search_case ["a"; "b"] 0 (init PNone)
     = sql_try_payloads unreachable_network "registration"
         "http://localhost:8080" search_case ["b"] 0
         (exec (send unreachable_network
                  (sql_request PNone "http://localhost:8080" search_case "a"))
            (init PNone))
  /\ vulnerabilities
       (exec (xss_step unreachable_network "grievance"
                "http://localhost:8085" grievances script_payload 0)
          (init PNone)) = []
  /\ vulnerabilities
       (exec (business_logic_service unreachable_network
                ("payment", "http://localhost:8084") []) (init PNone)) = []
  /\ vulnerabilities
       (exec (disclosure_step unreachable_network "analytics"
                "http://localhost:8086" "/actuator/env" 0) (init PNone)) = []
  /\ List.length
       (sent (exec (run_comprehensive_test localhost unreachable_network)
                (init PNone)))
     = 35 + 105 + 105 + 2 + 35.
Proof.
  destruct (C5_fault_isolation localhost unreachable_network)
    as (Hauth & Hsql & Hxss & Hbl & Hdisc & Hsent).
  split; [reflexivity|].
  split.
  { apply (Hauth "registration" "http://localhost:8080" "/actuator/env" 0
             (init PNone)). reflexivity. }
  split.
  { apply (Hsql "registration" "http://localhost:8080" search_case
             "a" ["b"] 0 (init PNone)). reflexivity. }
  split.
  { apply (Hxss "grievance" "http://localhost:8085" grievances
             script_payload 0 (init PNone)). reflexivity. }
  split.
  { apply (Hbl ("payment", "http://localhost:8084") [] (init PNone)).
    intros r _. reflexivity. }
  split.
  { apply (Hdisc "analytics" "http://localhost:8086" "/actuator/env" 0
             (init PNone)). reflexivity. }
  vm_compute. reflexivity.
Defined.

(** *** C6 *)

(** C6, as stated, fails: status 200 with a body that parses as JSON does
    not suffice.  The body below parses (to an empty array), and the login
    is reported as failed. *)
Lemma C6_parseable_body_not_enough :
  ~ (forall base_url http email password st,
        eval (authenticate base_url http email password) st = true
        <-> exists resp body,
              http (login_request base_url email password) = Some resp
              /\ status_code resp = 200%Z
              /\ json resp = Some body).
Proof.
  intros H.
  destruct (H localhost array_login_network
              "security.tester@dsr.gov.ph" "SecureTestPassword123!"
              (init PNone)) as [_ Hback].
  assert (Hok : eval (authenticate localhost array_login_network
                        "security.tester@dsr.gov.ph" "SecureTestPassword123!")
                  (init PNone) = true).
  { apply Hback. eexists. eexists. repeat split; reflexivity. }
  vm_compute in Hok. discriminate Hok.
Qed.

Lemma C6_witness :
  eval (authenticate localhost token_login_network "e" "p") (init PNone)
  = true
  /\ auth_token
       (exec (authenticate localhost token_login_network "e" "p")
          (init PNone)) = PStr "abc"
  /\ eval (authenticate localhost unreachable_network "e" "p") (init PNone)
     = false
  /\ (exists R,
        sent (exec (run_comprehensive_test localhost unreachable_network)
                (exec (authenticate localhost unreachable_network "e" "p")
                   (init PNone)))
        = (sent (exec (authenticate localhost unreachable_network "e" "p")
                   (init PNone)) ++ R)%list
        /\ Forall unauthenticated R).
Proof.
  destruct (C6_authenticate_contract localhost token_login_network
              "e" "p" (init PNone)) as (_ & _ & _ & _ & Hiff & Htok & _).
  destruct (C6_authenticate_contract localhost unreachable_network
              "e" "p" (init PNone))
    as (_ & _ & _ & _ & _ & _ & _ & _ & Hlater).
  split; [|split; [|split]].
  - apply Hiff. eexists. eexists. repeat split; reflexivity.
  - apply (Htok _ _ eq_refl eq_refl eq_refl).
  - reflexivity.
  - apply Hlater; reflexivity.
Defined.

(** *** C7 *)

Lemma C7_witness :
  (exists v,
      about "eligibility"
        (vulnerabilities
           (exec (test_business_logic_flaws localhost
                    (constant_network (plain 201 "created")))
              (init PNone)))
      = [v]
      /\ untimed v = eligibility_finding "eligibility" (plain 201 "created")
      /\ severity v = "HIGH")
  /\ about "eligibility"
       (vulnerabilities
          (exec (test_business_logic_flaws localhost
                   (constant_network (plain 400 "bad request")))
             (init PNone)))
     = [].
Proof.
  split.
  - apply (C7_negative_income localhost
             (constant_network (plain 201 "created")) (init PNone)
             (plain 201 "created") eq_refl).
    reflexivity.
  - apply (C7_negative_income localhost
             (constant_network (plain 400 "bad request")) (init PNone)
             (plain 400 "bad request") eq_refl).
    reflexivity.
Defined.

(** *** C8 *)

Lemma C8_witness :
  Permutation [InfoDisclosure; BusinessLogic; Xss; SqlInjection; AuthBypass]
    source_order
  /\ summary_figures
       (eval (run_probes_in localhost
                (constant_network (plain 200 script_payload))
                [InfoDisclosure; BusinessLogic; Xss; SqlInjection; AuthBypass])
          (init PNone))
     = summary_figures
         (eval (run_comprehensive_test localhost
                  (constant_network (plain 200 script_payload)))
            (init PNone)).
Proof.
  assert (Hperm : Permutation
                    [InfoDisclosure; BusinessLogic; Xss; SqlInjection;
                     AuthBypass] source_order).
  { change [InfoDisclosure; BusinessLogic; Xss; SqlInjection; AuthBypass]
      with (rev source_order).
    apply Permutation_sym, Permutation_rev. }
  split; [exact Hperm|].
  destruct (C8_probe_order_irrelevant localhost
              (constant_network (plain 200 script_payload))
              [InfoDisclosure; BusinessLogic; Xss; SqlInjection; AuthBypass]
              (init PNone) Hperm) as (Hb & Ht & Hs).
  unfold summary_figures. now rewrite Hb, Ht, Hs.
Defined.

(** *** C9 *)

Lemma C9_witness :
  reachable localhost token_login_network (init PNone)
  /\ low (vulnerability_breakdown
            (eval (run_comprehensive_test localhost token_login_network)
               (init PNone))) = 0
  /\ total_vulnerabilities
       (eval (run_comprehensive_test localhost token_login_network)
          (init PNone))
     = critical (vulnerability_breakdown
                   (eval (run_comprehensive_test localhost token_login_network)
                      (init PNone)))
       + high (vulnerability_breakdown
                 (eval (run_comprehensive_test localhost token_login_network)
                    (init PNone)))
       + medium (vulnerability_breakdown
                   (eval (run_comprehensive_test localhost token_login_network)
                      (init PNone))).
Proof.
  assert (Hreach : reachable localhost token_login_network (init PNone))
    by constructor.
  split; [exact Hreach|].
  apply (C9_no_low_findings localhost token_login_network (init PNone) Hreach).
Defined.

(** *** C10 *)

Lemma C10_witness :
  Dict.get "accessToken" [("message", PStr "welcome")] = None
  /\ eval (authenticate localhost tokenless_login_network "e" "p")
       (init (PStr "old")) = true
  /\ auth_token
       (exec (authenticate localhost tokenless_login_network "e" "p")
          (init (PStr "old"))) = PNone
  /\ (exists R,
        sent (exec (run_comprehensive_test localhost tokenless_login_network)
                (exec (authenticate localhost tokenless_login_network "e" "p")
                   (init (PStr "old"))))
        = (sent (exec (authenticate localhost tokenless_login_network "e" "p")
                   (init (PStr "old"))) ++ R)%list
        /\ Forall unauthenticated R).
Proof.
  split; [reflexivity|].
  destruct (C10_success_without_token localhost tokenless_login_network
              "e" "p" (init (PStr "old"))
              {| status_code := 200; text := "(a JSON object with a message)";
                 json := Some (PDict [("message", PStr "welcome")]) |}
              [("message", PStr "welcome")]
              eq_refl eq_refl eq_refl eq_refl)
    as (Hok & Htok & _ & _ & Hrun).
  split; [exact Hok|]. split; [exact Htok | exact Hrun].
Defined.

(* ================================================================== *)
(** ** The further properties on concrete networks *)

Lemma auth_bypass_step_exact_witness :
  auth_bypass_step
    (actuator_network (plain 200 "spring.datasource.PASSWORD=hunter2"))
    "analytics" "http://localhost:8086" "/actuator/env" 0 (init PNone)
  = (1,
     {| auth_token := PNone;
        vulnerabilities :=
          [stamp 0 (exposure_finding "analytics" "/actuator/env"
                      (plain 200 "spring.datasource.PASSWORD=hunter2"))];
        clock := 1;
        sent := [auth_bypass_request "http://localhost:8086" "/actuator/env"] |})
  /\ auth_bypass_step
       (actuator_network (plain 401 "password required"))
       "analytics" "http://localhost:8086" "/actuator/env" 0 (init PNone)
     = (0,
        {| auth_token := PNone;
           vulnerabilities := [];
           clock := 0;
           sent := [auth_bypass_request "http://localhost:8086"
                      "/actuator/env"] |}).
Proof.
  destruct (auth_bypass_step_exact
              (actuator_network (plain 200 "spring.datasource.PASSWORD=hunter2"))
              "analytics" "http://localhost:8086" "/actuator/env" 0
              (init PNone)) as (Hyes & _ & _).
  destruct (auth_bypass_step_exact
              (actuator_network (plain 401 "password required"))
              "analytics" "http://localhost:8086" "/actuator/env" 0
              (init PNone)) as (_ & Hno & _).
  split.
  - apply (Hyes (plain 200 "spring.datasource.PASSWORD=hunter2")).
    + reflexivity.
    + split; [reflexivity|]. exists "password".
      split; [cbn; auto | reflexivity].
  - apply Hno.
    intros resp H [Hs _]. injection H as <-. discriminate Hs.
Defined.

Lemma disclosure_step_exact_witness :
  disclosure_step
    (actuator_network (plain 500 "JDBC Connection refused"))
    "analytics" "http://localhost:8086" "/actuator/env" 0 (init PNone)
  = (1,
     {| auth_token := PNone;
        vulnerabilities :=
          [stamp 0 (disclosure_issue "analytics" "/actuator/env"
                      (plain 500 "JDBC Connection refused"))];
        clock := 1;
        sent := [disclosure_request "http://localhost:8086" "/actuator/env"] |})
  /\ evidence (disclosure_issue "analytics" "/actuator/env"
                 (plain 500 "JDBC Connection refused"))
     = "Found keywords: connection, jdbc"
  /\ disclosure_step
       (actuator_network (plain 404 "no such page: password"))
       "analytics" "http://localhost:8086" "/actuator/env" 0 (init PNone)
     = (0,
        {| auth_token := PNone;
           vulnerabilities := [];
           clock := 0;
           sent := [disclosure_request "http://localhost:8086"
                      "/actuator/env"] |}).
Proof.
  destruct (disclosure_step_exact
              (actuator_network (plain 500 "JDBC Connection refused"))
              "analytics" "http://localhost:8086" "/actuator/env" 0
              (init PNone)) as (Hyes & _ & _ & Hev).
  destruct (disclosure_step_exact
              (actuator_network (plain 404 "no such page: password"))
              "analytics" "http://localhost:8086" "/actuator/env" 0
              (init PNone)) as (_ & Hno & _).
  split; [|split].
  - apply (Hyes (plain 500 "JDBC Connection refused")).
    + reflexivity.
    + split; [discriminate|]. exists "jdbc".
      split; [cbn; auto 10 | reflexivity].
  - rewrite Hev. reflexivity.
  - apply Hno.
    intros resp H [Hs _]. injection H as <-. apply Hs. reflexivity.
Defined.

Lemma exposure_comes_with_disclosure_witness :
  exists added,
    vulnerabilities
      (exec (run_comprehensive_test localhost
               (actuator_network (plain 200 "csrfToken=1")))
         (init PNone))
    = added
    /\ In (exposure_finding "analytics" "/actuator/env"
             (plain 200 "csrfToken=1"))
         (map untimed added)
    /\ In (disclosure_issue "analytics" "/actuator/env"
             (plain 200 "csrfToken=1"))
         (map untimed added).
Proof.
  destruct (exposure_comes_with_disclosure localhost
              (actuator_network (plain 200 "csrfToken=1")))
    as [_ Hrun].
  apply (Hrun ("analytics", "http://localhost:8086") "/actuator/env"
           (plain 200 "csrfToken=1") (init PNone)).
  - cbn. auto 10.
  - cbn. auto 10.
  - cbn. auto 10.
  - reflexivity.
  - reflexivity.
Defined.

Lemma server_error_is_no_error_page :
  ~ sql_error_page (plain 500 "Internal Server Error").
Proof.
  intros (e & He & Hc). apply str_in_iff in Hc.
  repeat (destruct He as [<- | He]; [discriminate Hc|]). destruct He.
Qed.

Lemma sql_case_without_hit_witness :
  (forall q, In q sql_payloads ->
     draws_no_error (constant_network (plain 500 "Internal Server Error"))
       (sql_request PNone "http://localhost:8080" search_case q))
  /\ sql_try_payloads (constant_network (plain 500 "Internal Server Error"))
       "registration" "http://localhost:8080" search_case sql_payloads 0
       (init PNone)
     = (0,
        {| auth_token := PNone;
           vulnerabilities := [];
           clock := 0;
           sent := map (sql_request PNone "http://localhost:8080" search_case)
                     sql_payloads |}).
Proof.
  assert (Hquiet : forall q, In q sql_payloads ->
            draws_no_error (constant_network (plain 500 "Internal Server Error"))
              (sql_request PNone "http://localhost:8080" search_case q)).
  { intros q _. exact server_error_is_no_error_page. }
  split; [exact Hquiet|].
  apply (proj1 (sql_case_without_hit
                  (constant_network (plain 500 "Internal Server Error"))
                  "registration" "http://localhost:8080" search_case
                  sql_payloads 0 (init PNone))).
  exact Hquiet.
Defined.

Lemma payment_amount_rule_witness :
  (exists v,
      about "payment"
        (vulnerabilities
           (exec (test_business_logic_flaws localhost
                    (constant_network (plain 200 "paid")))
              (init PNone)))
      = [v]
      /\ untimed v = payment_finding "payment" (plain 200 "paid")
      /\ severity v = "CRITICAL"
      /\ eval get_overall_security_status
           (exec (test_business_logic_flaws localhost
                    (constant_network (plain 200 "paid")))
              (init PNone))
         = "CRITICAL_RISK")
  /\ about "payment"
       (vulnerabilities
          (exec (test_business_logic_flaws localhost
                   (constant_network (plain 422 "amount too large")))
             (init PNone)))
     = [].
Proof.
  split.
  - apply (payment_amount_rule localhost
             (constant_network (plain 200 "paid")) (init PNone)
             (plain 200 "paid") eq_refl).
    left. reflexivity.
  - apply (payment_amount_rule localhost
             (constant_network (plain 422 "amount too large")) (init PNone)
             (plain 422 "amount too large") eq_refl);
      discriminate.
Defined.

Lemma xss_data_fields_witness :
  Dict.get "lastName" (xss_data ["firstName"; "lastName"] script_payload)
  = Some (PStr script_payload)
  /\ Dict.get "email" (xss_data ["firstName"; "lastName"] script_payload)
     = None
  /\ xss_data ["firstName"; "lastName"] script_payload
     = [("firstName", PStr script_payload); ("lastName", PStr script_payload)]
  /\ Dict.get "title" (xss_data ["title"; "title"] "x") = Some (PStr "x").
Proof.
  destruct (xss_data_fields ["firstName"; "lastName"] script_payload)
    as (Hin & Hout & Hlist).
  split; [apply Hin; cbn; auto|].
  split; [apply Hout; cbn; intros [H | [H | []]]; discriminate H|].
  split.
  - apply Hlist.
    apply NoDup_cons; [cbn; intros [H | []]; discriminate H|].
    apply NoDup_cons; [intros [] | apply NoDup_nil].
  - apply (xss_data_fields ["title"; "title"] "x"). cbn. auto.
Defined.

(** The entries the SQL-injection probe returns when one endpoint of the
    registration service shows a database error. *)
Example tally_of_a_run :
  firstn 2 (eval (test_sql_injection localhost sql_error_network)
              (init PNone))
  = [ ("registration",
       PDict [("vulnerable_endpoints", PInt 1);
              ("status", PStr "VULNERABLE")]);
      ("data_management",
       PDict [("vulnerable_endpoints", PInt 0);
              ("status", PStr "SECURE")]) ].
Proof. vm_compute. reflexivity. Qed.
